(** * mr-quiz: skill statistics, milestones, recommendation and team
      aggregation

    A shallow embedding of the analytics core of the quiz bot
    ([src/services/firestore.ts], the personalization service that
    follows the entry point in [src/index.ts], and
    [src/services/answerCommandHandler.ts]), of the logger
    ([src/utils/logger.ts]), of the webhook verification
    ([src/middleware/webhook.ts]) and of the period check of the
    analytics route ([src/routes/analytics.ts]), and the properties its
    specification states about it, followed by further properties of the
    code.

    Numbers.  JavaScript numbers that hold counts are modelled as [N]
    (the entity schemas declare them [int().min(0)]; they stay below
    2^53, where binary64 is exact).  Numbers that hold rates, averages and
    scores are rationals [Q], with [==] ([Qeq]) as numeric equality.  The
    rounding of binary64 ([binary64], [Number_add], [Number_mul],
    [Number_div]) is modelled where a value goes through several
    operations before it is stored or printed: in the running average of
    [updateSkillStats] and in the percentage the recommendations print.
    Elsewhere a rate is the quotient of its two counts and a score the
    sum of its terms, without rounding.

    Storage.  A keyed Firestore collection is a [gmap] from document id
    to document.  A collection whose documents are keyed by a fresh
    [uuidv4()] is the list of its documents in insertion order.  A field
    written as a plain object [{ seconds, nanoseconds }] is stored as a
    map, not as a timestamp; range filters and [orderBy] follow
    Firestore's order of values ([Firestore_compare]).  The indexes the
    queries need are taken to exist.

    Effects.  An [async] function is a state transformer over [World]
    that either resolves with a value or rejects with an error; the
    world carries the database together with what [Timestamp.now()] and
    [uuidv4()] will return, the local time zone and what [Number] makes
    of a string that is not plain decimal digits. *)

From Stdlib Require Import QArith Qround Qabs Qpower ZArith NArith List Ascii Sorting.Sorted Sorting.Permutation Lqa.
From stdpp Require Import gmap strings list pretty.

Local Open Scope string_scope.

(** ** Shared types ([src/types/index.ts]) *)

Definition Category := string.
Definition ExperienceLevel := string.

Inductive Difficulty := easy | medium | hard.

Record Timestamp := mkTimestamp { seconds : Z; nanoseconds : Z }.

Definition N2Q (n : N) : Q := inject_Z (Z.of_N n).

(** ** Numbers *)

Definition Qlt_bool (a b : Q) : bool := negb (Qle_bool b a).

(** The binade of a positive rational: the [e] with
    [2^e <= x < 2^(e+1)]. *)
Definition binade (x : Q) : Z :=
  let k := (Z.log2 (Qnum x) - Z.log2 (Z.pos (Qden x)))%Z in
  if Qle_bool (2 ^ k) x then k else (k - 1)%Z.

(** The nearest integer, the even one of two that are equally near. *)
Definition roundHalfEven (m : Q) : Z :=
  let f := Qfloor m in
  let r := (m - inject_Z f)%Q in
  if Qlt_bool r (1 # 2) then f
  else if Qlt_bool (1 # 2) r then (f + 1)%Z
  else if Z.even f then f else (f + 1)%Z.

(** The binary64 value nearest to [x], ties to even: 53 significant bits.
    The exponent range is not modelled; no number of the program leaves
    it. *)
Definition binary64 (x : Q) : Q :=
  if Qeq_bool x 0 then 0%Q
  else
    let e := (binade (Qabs x) - 52)%Z in
    let m := roundHalfEven (Qabs x / 2 ^ e) in
    if Qle_bool 0 x then (inject_Z m * 2 ^ e)%Q else (- (inject_Z m * 2 ^ e))%Q.

(** [a + b], [a - b], [a * b] and [a / b] of two binary64 values. *)
Definition Number_add (a b : Q) : Q := binary64 (a + b).
Definition Number_sub (a b : Q) : Q := binary64 (a - b).
Definition Number_mul (a b : Q) : Q := binary64 (a * b).
Definition Number_div (a b : Q) : Q := binary64 (a / b).

(** ** Firestore values *)

(** The two kinds of value the program stores where it means an instant:
    a [Timestamp] object, and a plain object, which Firestore stores as a
    map.  The fields of a map are listed in the order of their keys. *)
Inductive FirestoreValue :=
  | TimestampValue (t : Timestamp)
  | MapValue (fields : list (string * Z)).

(** The plain object [{ seconds: t.seconds, nanoseconds: t.nanoseconds }]
    as stored. *)
Definition plainObject (t : Timestamp) : FirestoreValue :=
  MapValue [("nanoseconds", nanoseconds t); ("seconds", seconds t)].

Definition Timestamp_compare (a b : Timestamp) : comparison :=
  match (seconds a ?= seconds b)%Z with
  | Eq => (nanoseconds a ?= nanoseconds b)%Z
  | c => c
  end.

(** Maps are compared field by field in key order: the keys first, then
    the values; a map that runs out first comes first. *)
Fixpoint compareFields (a b : list (string * Z)) : comparison :=
  match a, b with
  | [], [] => Eq
  | [], _ :: _ => Lt
  | _ :: _, [] => Gt
  | (k1, v1) :: a', (k2, v2) :: b' =>
      match String.compare k1 k2 with
      | Eq => match (v1 ?= v2)%Z with
              | Eq => compareFields a' b'
              | c => c
              end
      | c => c
      end
  end.

(** Firestore's order of values: by type first (a timestamp before a
    map), then within the type. *)
Definition Firestore_compare (a b : FirestoreValue) : comparison :=
  match a, b with
  | TimestampValue x, TimestampValue y => Timestamp_compare x y
  | MapValue x, MapValue y => compareFields x y
  | TimestampValue _, MapValue _ => Lt
  | MapValue _, TimestampValue _ => Gt
  end.

Definition sameType (a b : FirestoreValue) : bool :=
  match a, b with
  | TimestampValue _, TimestampValue _ => true
  | MapValue _, MapValue _ => true
  | _, _ => false
  end.

(** [where(field, ">=", bound)] and [where(field, "<=", bound)]: a range
    filter matches values of the type of its bound only. *)
Definition where_ge (value bound : FirestoreValue) : bool :=
  sameType value bound
  && match Firestore_compare value bound with Lt => false | _ => true end.

Definition where_le (value bound : FirestoreValue) : bool :=
  sameType value bound
  && match Firestore_compare value bound with Gt => false | _ => true end.

(** The order of [orderBy(field, "desc")]: by the field, and among equal
    values by document id, both descending.  [orderedBefore (v1, id1)
    (v2, id2)] tells whether the first document may precede the second. *)
Definition orderedBefore (a b : FirestoreValue * string) : bool :=
  match Firestore_compare (fst a) (fst b) with
  | Gt => true
  | Lt => false
  | Eq => match String.compare (snd a) (snd b) with Lt => false | _ => true end
  end.

(** ** Entities ([src/types/entities/]) *)

Module User.
Record t := mk {
  accountId : string;
  platform : string;
  totalQuizzes : N;
  correctCount : N;
  createdAt : Timestamp;
  updatedAt : Timestamp
}.
End User.

Module Quiz.
Record t := mk {
  quizId : string;
  mergeRequestId : string;
  accountId : string;
  questionText : string;
  category : Category;
  difficulty : Difficulty;
  options : list string;
  correctAnswerIndex : Z;
  explanation : string;
  status : string;
  createdAt : Timestamp
}.
End Quiz.

Module Answer.
Record t := mk {
  answerId : string;
  quizId : string;
  accountId : string;
  mergeRequestId : string;
  selectedAnswerIndex : Z;
  isCorrect : bool;
  category : Category;
  difficulty : Difficulty;
  answeredAt : Timestamp
}.
End Answer.

Module CreateAnswerInput.
Record t := mk {
  quizId : string;
  accountId : string;
  selectedAnswerIndex : Z
}.
End CreateAnswerInput.

Module SkillStats.
Record t := mk {
  statId : string;
  accountId : string;
  category : Category;
  totalQuizzes : N;
  correctCount : N;
  correctRate : Q;
  averageDifficulty : Q;
  lastAnsweredAt : option Timestamp;
  weeklyTrend : Q;
  monthlyTrend : Q;
  calculatedAt : Timestamp
}.
End SkillStats.

Module UpdateSkillStatsInput.
Record t := mk {
  accountId : string;
  category : Category;
  difficulty : Difficulty;
  isCorrect : bool
}.
End UpdateSkillStatsInput.

Module UserProfile.
Record t := mk {
  accountId : string;
  careerGoal : option string;
  experienceLevel : ExperienceLevel;
  yearsOfExperience : Q;
  focusAreas : option (list Category);
  selfAssessment : option (list (Category * Z));
  createdAt : Timestamp;
  updatedAt : Timestamp
}.
End UserProfile.

Inductive MilestoneType :=
  | first_correct
  | category_master
  | streak_achievement
  | difficulty_unlock
  | total_milestone.

(** A metadata value: the payloads written by the milestone check hold
    strings and numbers only. *)
Inductive MetaValue := MetaString (s : string) | MetaNumber (q : Q).

Module CreateGrowthMilestoneInput.
Record t := mk {
  accountId : string;
  type : MilestoneType;
  category : option Category;
  achievement : string;
  metadata : list (string * MetaValue)
}.
End CreateGrowthMilestoneInput.

Module GrowthMilestone.
Record t := mk {
  milestoneId : string;
  accountId : string;
  type : MilestoneType;
  category : option Category;
  achievement : string;
  metadata : list (string * MetaValue);
  achievedAt : Timestamp
}.
End GrowthMilestone.

Module TeamAnalytics.
Record t := mk {
  analyticsId : string;
  period : string;
  experienceLevel : option string;
  category : option string;
  avgCorrectRate : Q;
  totalQuizzes : N;
  activeUsers : N;
  percentile25 : Q;
  percentile50 : Q;
  percentile75 : Q;
  percentile90 : Q;
  calculatedAt : Timestamp
}.
End TeamAnalytics.

(** ** The database and the world *)

Record Db := mkDb {
  usersCollection : gmap string User.t;
  answersCollection : list Answer.t;
  skillStatsCollection : gmap string SkillStats.t;
  growthMilestonesCollection : list GrowthMilestone.t;
  userProfilesCollection : gmap string UserProfile.t;
  teamAnalyticsCollection : gmap string TeamAnalytics.t
}.

Definition emptyDb : Db := mkDb ∅ [] ∅ [] ∅ ∅.

(** [clock] and [uuids] are what the [tick]-th read of the environment
    ([Timestamp.now()], [uuidv4()]) returns.  [LocalTZA t] is the offset
    of the process's time zone, in milliseconds, at the local time [t].
    [StringToNumber s] is what [Number(s)] gives for a string that is not
    a run of one to fifteen decimal digits: the number, or [None] for NaN
    and the infinities. *)
Record World := mkWorld {
  db : Db;
  tick : nat;
  clock : nat -> Timestamp;
  uuids : nat -> string;
  LocalTZA : Z -> Z;
  StringToNumber : string -> option Q
}.

Definition withDb (w : World) (d : Db) : World :=
  mkWorld d (tick w) (clock w) (uuids w) (LocalTZA w) (StringToNumber w).

Definition advance (w : World) : World :=
  mkWorld (db w) (S (tick w)) (clock w) (uuids w) (LocalTZA w) (StringToNumber w).

Definition withUsers (d : Db) (m : gmap string User.t) : Db :=
  mkDb m (answersCollection d) (skillStatsCollection d)
       (growthMilestonesCollection d) (userProfilesCollection d)
       (teamAnalyticsCollection d).

Definition withAnswers (d : Db) (l : list Answer.t) : Db :=
  mkDb (usersCollection d) l (skillStatsCollection d)
       (growthMilestonesCollection d) (userProfilesCollection d)
       (teamAnalyticsCollection d).

Definition withSkillStats (d : Db) (m : gmap string SkillStats.t) : Db :=
  mkDb (usersCollection d) (answersCollection d) m
       (growthMilestonesCollection d) (userProfilesCollection d)
       (teamAnalyticsCollection d).

Definition withGrowthMilestones (d : Db) (l : list GrowthMilestone.t) : Db :=
  mkDb (usersCollection d) (answersCollection d) (skillStatsCollection d)
       l (userProfilesCollection d) (teamAnalyticsCollection d).

Definition withTeamAnalytics (d : Db) (m : gmap string TeamAnalytics.t) : Db :=
  mkDb (usersCollection d) (answersCollection d) (skillStatsCollection d)
       (growthMilestonesCollection d) (userProfilesCollection d) m.

(** ** Promises *)

Inductive Outcome (A : Type) :=
  | Resolved (a : A)
  | Rejected (e : string).
Arguments Resolved {A} a.
Arguments Rejected {A} e.

Definition Async (A : Type) : Type := World -> Outcome A * World.

#[global] Instance Async_ret : MRet Async :=
  fun A a w => (Resolved a, w).

#[global] Instance Async_bind : MBind Async :=
  fun A B f m w =>
    match m w with
    | (Resolved a, w') => f a w'
    | (Rejected e, w') => (Rejected e, w')
    end.

Definition throw {A} (e : string) : Async A := fun w => (Rejected e, w).

(** A computation on the environment that throws [e] when it has no
    result. *)
Definition orThrow {A} (e : string) (f : World -> option A) : Async A :=
  fun w =>
    match f w with
    | Some a => (Resolved a, w)
    | None => (Rejected e, w)
    end.

Definition readDb {A} (f : Db -> A) : Async A := fun w => (Resolved (f (db w)), w).

Definition writeDb (f : Db -> Db) : Async unit :=
  fun w => (Resolved tt, withDb w (f (db w))).

Definition Timestamp_now : Async Timestamp :=
  fun w => (Resolved (clock w (tick w)), advance w).

Definition uuidv4 : Async string :=
  fun w => (Resolved (uuids w (tick w)), advance w).

(** ** Strings, numbers and dates of the language *)

(** [s.split(sep)] for a separator of one character. *)
Fixpoint String_split (sep : Ascii.ascii) (s : string) : list string :=
  match s with
  | EmptyString => [EmptyString]
  | String c s' =>
      if Ascii.eqb c sep then EmptyString :: String_split sep s'
      else match String_split sep s' with
           | piece :: pieces => String c piece :: pieces
           | [] => [String c EmptyString]
           end
  end.

Definition isDigit (c : Ascii.ascii) : bool :=
  (48 <=? Ascii.nat_of_ascii c)%nat && (Ascii.nat_of_ascii c <=? 57)%nat.

Fixpoint decimalValue (acc : Z) (s : string) : option Z :=
  match s with
  | EmptyString => Some acc
  | String c s' =>
      if isDigit c
      then decimalValue (10 * acc + (Z.of_nat (Ascii.nat_of_ascii c) - 48)) s'
      else None
  end.

(** [Number(s)]: [None] stands for NaN and the infinities.  One to
    fifteen decimal digits denote their value, exactly; every other
    string is left to the environment. *)
Definition Number_ (w : World) (s : string) : option Q :=
  if (1 <=? String.length s)%nat && (String.length s <=? 15)%nat
  then match decimalValue 0 s with
       | Some n => Some (inject_Z n)
       | None => StringToNumber w s
       end
  else StringToNumber w s.

(** The integer part of a number, towards zero. *)
Definition ToIntegerOrInfinity (x : Q) : Z := Z.quot (Qnum x) (Z.pos (Qden x)).

(** The day number of a date of the proleptic Gregorian calendar, day 0
    being 1 January 1970; [m] counts from 1. *)
Definition daysFromCivil (y m d : Z) : Z :=
  let y' := if (m <=? 2)%Z then (y - 1)%Z else y in
  let era := (y' / 400)%Z in
  let yoe := (y' - era * 400)%Z in
  let mp := if (2 <? m)%Z then (m - 3)%Z else (m + 9)%Z in
  let doy := ((153 * mp + 2) / 5 + d - 1)%Z in
  let doe := (yoe * 365 + yoe / 4 - yoe / 100 + doy)%Z in
  (era * 146097 + doe - 719468)%Z.

(** [MakeDay], [MakeTime], [MakeDate] and [TimeClip] of the language
    specification; [month] counts from 0 and may lie outside 0..11. *)
Definition MakeDay (year month date : Z) : Z :=
  let ym := (year + month / 12)%Z in
  let mn := (month mod 12)%Z in
  (daysFromCivil ym (mn + 1) 1 + date - 1)%Z.

Definition MakeTime (hour min sec ms : Z) : Z :=
  (hour * 3600000 + min * 60000 + sec * 1000 + ms)%Z.

Definition MakeDate (day time : Z) : Z := (day * 86400000 + time)%Z.

Definition TimeClip (time : Z) : option Z :=
  if (Z.abs time <=? 8640000000000000)%Z then Some time else None.

(** [new Date(year, month, date, hours, minutes, seconds).getTime()] in
    local time; [None] is an invalid date.  A year from 0 to 99 means
    1900 to 1999. *)
Definition Date_new (w : World) (year month : option Q)
  (date hours minutes seconds : Z) : option Z :=
  y ← year;
  m ← month;
  let yi := ToIntegerOrInfinity y in
  let yr := if (0 <=? yi)%Z && (yi <=? 99)%Z then (1900 + yi)%Z else yi in
  let finalDate :=
    MakeDate (MakeDay yr (ToIntegerOrInfinity m) date)
             (MakeTime hours minutes seconds 0) in
  TimeClip (finalDate - LocalTZA w finalDate)%Z.

(** [Timestamp.fromDate(date)]: [None] when the constructor of
    [Timestamp] throws, which it does for an invalid date and for seconds
    outside the years 1 to 9999. *)
Definition Timestamp_fromDate (date : option Z) : option Timestamp :=
  ms ← date;
  let seconds := (ms / 1000)%Z in
  let nanos := ((ms - seconds * 1000) * 1000000)%Z in
  if (-62135596800 <=? seconds)%Z && (seconds <=? 253402300799)%Z
  then Some (mkTimestamp seconds nanos)
  else None.

(** ** [src/services/firestore.ts] *)

(** [updateUserStats]: [docRef.update] rejects when the document does not
    exist; [FieldValue.increment(1)] adds one to the stored field. *)
Definition updateUserStats (accountId : string) (isCorrect : bool) : Async unit :=
  now ← Timestamp_now;
  doc ← readDb (fun d => usersCollection d !! accountId);
  match doc with
  | None => throw "NOT_FOUND"
  | Some u =>
      let u' := User.mk (User.accountId u) (User.platform u)
                  (User.totalQuizzes u + 1)
                  (if isCorrect then User.correctCount u + 1 else User.correctCount u)
                  (User.createdAt u) now in
      writeDb (fun d => withUsers d (<[accountId := u']> (usersCollection d)))
  end.

Definition createAnswer (input : CreateAnswerInput.t) (quiz : Quiz.t) : Async Answer.t :=
  answerId ← uuidv4;
  now ← Timestamp_now;
  let isCorrect :=
    Z.eqb (CreateAnswerInput.selectedAnswerIndex input) (Quiz.correctAnswerIndex quiz) in
  let answer := Answer.mk answerId
                  (CreateAnswerInput.quizId input)
                  (CreateAnswerInput.accountId input)
                  (Quiz.mergeRequestId quiz)
                  (CreateAnswerInput.selectedAnswerIndex input)
                  isCorrect
                  (Quiz.category quiz)
                  (Quiz.difficulty quiz)
                  now in
  writeDb (fun d => withAnswers d (answersCollection d ++ [answer])%list);;
  mret answer.

Definition generateSkillStatsId (accountId : string) (category : string) : string :=
  accountId +:+ "_" +:+ category.

Definition difficultyMap (d : Difficulty) : Q :=
  match d with easy => 1 | medium => 2 | hard => 3 end.

Definition updateSkillStats (input : UpdateSkillStatsInput.t) : Async unit :=
  let statId := generateSkillStatsId (UpdateSkillStatsInput.accountId input)
                                     (UpdateSkillStatsInput.category input) in
  doc ← readDb (fun d => skillStatsCollection d !! statId);
  now ← Timestamp_now;
  let difficultyValue := difficultyMap (UpdateSkillStatsInput.difficulty input) in
  match doc with
  | Some existingData =>
      let newTotalQuizzes := (SkillStats.totalQuizzes existingData + 1)%N in
      let newCorrectCount :=
        (SkillStats.correctCount existingData
         + (if UpdateSkillStatsInput.isCorrect input then 1 else 0))%N in
      let newCorrectRate := (N2Q newCorrectCount / N2Q newTotalQuizzes)%Q in
      let newAverageDifficulty :=
        Number_div
          (Number_add
             (Number_mul (SkillStats.averageDifficulty existingData)
                         (N2Q (SkillStats.totalQuizzes existingData)))
             difficultyValue)
          (N2Q newTotalQuizzes) in
      writeDb (fun d => withSkillStats d
        (<[statId := SkillStats.mk
                       (SkillStats.statId existingData)
                       (SkillStats.accountId existingData)
                       (SkillStats.category existingData)
                       newTotalQuizzes
                       newCorrectCount
                       newCorrectRate
                       newAverageDifficulty
                       (Some now)
                       (SkillStats.weeklyTrend existingData)
                       (SkillStats.monthlyTrend existingData)
                       now]> (skillStatsCollection d)))
  | None =>
      let skillStats := SkillStats.mk
                          statId
                          (UpdateSkillStatsInput.accountId input)
                          (UpdateSkillStatsInput.category input)
                          1%N
                          (if UpdateSkillStatsInput.isCorrect input then 1%N else 0%N)
                          (if UpdateSkillStatsInput.isCorrect input then 1%Q else 0%Q)
                          difficultyValue
                          (Some now)
                          0%Q
                          0%Q
                          now in
      writeDb (fun d => withSkillStats d (<[statId := skillStats]> (skillStatsCollection d)))
  end.


Definition getSkillStatsByUser (accountId : string) : Async (list SkillStats.t) :=
  readDb (fun d =>
    List.filter (fun s => bool_decide (SkillStats.accountId s = accountId))
                (map snd (map_to_list (skillStatsCollection d)))).

Definition getUserProfile (accountId : string) : Async (option UserProfile.t) :=
  readDb (fun d => userProfilesCollection d !! accountId).

(** *** Ordering and arrays *)

Fixpoint insertBy {A} (before : A -> A -> bool) (x : A) (l : list A) : list A :=
  match l with
  | [] => [x]
  | y :: l' => if before x y then x :: y :: l' else y :: insertBy before x l'
  end.

(** A stable sort: of two elements neither of which must come first, the
    one that was first stays first. *)
Definition sortBy {A} (before : A -> A -> bool) (l : list A) : list A :=
  fold_right (insertBy before) [] l.

(** [Array.prototype.sort(compareFn)]: [a] stays before [b] unless
    [compareFn(a, b) > 0]. *)
Definition Array_sort {A} (compareFn : A -> A -> Q) (arr : list A) : list A :=
  sortBy (fun a b => Qle_bool (compareFn a b) 0) arr.

(** The documents [docs] in the order of [orderBy(field, "desc")], where
    [key] gives the stored field and the id of a document. *)
Definition orderByDesc {A} (key : A -> FirestoreValue * string) (docs : list A)
  : list A :=
  sortBy (fun a b => orderedBefore (key a) (key b)) docs.

(** [getAnswersByUser]: the user's answers, ordered by [answeredAt]
    descending.  [createAnswer] writes [answeredAt] as a plain object, so
    the order is Firestore's order of maps: by nanoseconds first, then by
    seconds. *)
Definition getAnswersByUser (accountId : string) : Async (list Answer.t) :=
  readDb (fun d =>
    orderByDesc
      (fun a => (plainObject (Answer.answeredAt a), Answer.answerId a))
      (List.filter (fun a => bool_decide (Answer.accountId a = accountId))
                   (answersCollection d))).

(** *** Growth milestones *)

#[global] Instance MilestoneType_eq_dec : EqDecision MilestoneType.
Proof. solve_decision. Defined.

Definition createGrowthMilestone (input : CreateGrowthMilestoneInput.t)
  : Async GrowthMilestone.t :=
  milestoneId ← uuidv4;
  now ← Timestamp_now;
  let milestone := GrowthMilestone.mk milestoneId
                     (CreateGrowthMilestoneInput.accountId input)
                     (CreateGrowthMilestoneInput.type input)
                     (CreateGrowthMilestoneInput.category input)
                     (CreateGrowthMilestoneInput.achievement input)
                     (CreateGrowthMilestoneInput.metadata input)
                     now in
  writeDb (fun d =>
    withGrowthMilestones d (growthMilestonesCollection d ++ [milestone])%list);;
  mret milestone.

(** [for (const x of xs) { await f(x); }] *)
Fixpoint forEach {A} (f : A -> Async unit) (xs : list A) : Async unit :=
  match xs with
  | [] => mret tt
  | x :: xs' => f x;; forEach f xs'
  end.

Definition totalMilestones : list N := [10; 50; 100; 500; 1000]%N.

Definition includes (l : list N) (n : N) : bool := existsb (N.eqb n) l.

(** The query for an existing category-master milestone of a user in a
    category. *)
Definition isCategoryMasterOf (accountId : string) (category : Category)
  (m : GrowthMilestone.t) : bool :=
  bool_decide (GrowthMilestone.accountId m = accountId)
  && bool_decide (GrowthMilestone.type m = category_master)
  && bool_decide (GrowthMilestone.category m = Some category).

Definition categoryMasterQuery (accountId : string) (category : Category)
  (d : Db) : list GrowthMilestone.t :=
  List.filter (isCategoryMasterOf accountId category)
              (growthMilestonesCollection d).

Definition isEmpty {A} (l : list A) : bool :=
  match l with [] => true | _ => false end.

Definition checkAndCreateMilestones (accountId : string) (answer : Answer.t)
  (user : User.t) (skillStats : option SkillStats.t) : Async unit :=
  let milestones := [] in
  let milestones :=
    if Answer.isCorrect answer && (User.correctCount user =? 1)%N
    then (milestones ++
         [CreateGrowthMilestoneInput.mk accountId first_correct
            (Some (Answer.category answer))
            "初めてのクイズで正解しました！"
            [("quizId", MetaString (Answer.quizId answer))]])%list
    else milestones in
  milestones ←
    match skillStats with
    | Some skillStats =>
        if Qle_bool 0.8 (SkillStats.correctRate skillStats)
           && (5 <=? SkillStats.totalQuizzes skillStats)%N
        then
          existingMilestones ←
            readDb (categoryMasterQuery accountId (Answer.category answer));
          if isEmpty existingMilestones
          then mret (milestones ++
                 [CreateGrowthMilestoneInput.mk accountId category_master
                    (Some (Answer.category answer))
                    (Answer.category answer +:+ "分野で正答率80%達成！")
                    [("correctRate", MetaNumber (SkillStats.correctRate skillStats));
                     ("totalQuizzes",
                      MetaNumber (N2Q (SkillStats.totalQuizzes skillStats)))]])%list
          else mret milestones
        else mret milestones
    | None => mret milestones
    end;
  let milestones :=
    if includes totalMilestones (User.totalQuizzes user)
    then (milestones ++
         [CreateGrowthMilestoneInput.mk accountId total_milestone
            None
            ("累計" +:+ pretty (User.totalQuizzes user) +:+ "問に回答しました！")
            [("totalQuizzes", MetaNumber (N2Q (User.totalQuizzes user)));
             ("correctRate",
              MetaNumber (N2Q (User.correctCount user)
                          / N2Q (User.totalQuizzes user))%Q)]])%list
    else milestones in
  forEach (fun milestone => createGrowthMilestone milestone;; mret tt) milestones.

(** *** Team analytics *)

(** [if (s)] on an optional string: [undefined] and [""] are falsy. *)
Definition truthy (s : option string) : bool :=
  match s with
  | Some s => negb (String.eqb s "")
  | None => false
  end.

(** The string behind an optional string that passed [if (s)]. *)
Definition stringOf (s : option string) : string := default "" s.

Module TeamAnalyticsQuery.
Record t := mk {
  period : string;
  experienceLevel : option string;
  category : option string
}.
End TeamAnalyticsQuery.

Definition getTeamAnalytics (query : TeamAnalyticsQuery.t)
  : Async (option TeamAnalytics.t) :=
  let analyticsId := TeamAnalyticsQuery.period query in
  let analyticsId :=
    if truthy (TeamAnalyticsQuery.experienceLevel query)
    then analyticsId +:+ "_" +:+ stringOf (TeamAnalyticsQuery.experienceLevel query)
    else analyticsId in
  let analyticsId :=
    if truthy (TeamAnalyticsQuery.category query)
    then analyticsId +:+ "_" +:+ stringOf (TeamAnalyticsQuery.category query)
    else analyticsId in
  readDb (fun d => teamAnalyticsCollection d !! analyticsId).

(** A JavaScript [Map] with string keys: entries in insertion order. *)
Fixpoint Map_get {V} (m : list (string * V)) (k : string) : option V :=
  match m with
  | [] => None
  | (k', v) :: m' => if String.eqb k' k then Some v else Map_get m' k
  end.

Fixpoint Map_set {V} (m : list (string * V)) (k : string) (v : V)
  : list (string * V) :=
  match m with
  | [] => [(k, v)]
  | (k', v') :: m' =>
      if String.eqb k' k then (k', v) :: m' else (k', v') :: Map_set m' k v
  end.

Definition Map_keys {V} (m : list (string * V)) : list string := map fst m.

Record UserTally := mkTally { correct : N; total : N }.

Definition tallyAnswer (userStats : list (string * UserTally)) (answer : Answer.t)
  : list (string * UserTally) :=
  let stats := default (mkTally 0 0) (Map_get userStats (Answer.accountId answer)) in
  let stats := mkTally (correct stats) (total stats + 1) in
  let stats := if Answer.isCorrect answer
               then mkTally (correct stats + 1) (total stats)
               else stats in
  Map_set userStats (Answer.accountId answer) stats.

(** [getPercentile], the helper local to the aggregation.  Its callers
    pass percentiles between 0 and 1, so the index is never negative. *)
Definition getPercentile (arr : list Q) (percentile : Q) : Q :=
  if (length arr =? 0)%nat then 0%Q
  else
    let index := Qfloor (inject_Z (Z.of_nat (length arr)) * percentile) in
    nth (Z.to_nat (Z.min index (Z.of_nat (length arr) - 1))) arr 0%Q.

(** The first lines of [calculateAndSaveTeamAnalytics]: the two bounds
    of the month, [Timestamp.fromDate(startDate)] and
    [Timestamp.fromDate(endDate)]; [None] when one of them throws. *)
Definition monthBounds (w : World) (period : string)
  : option (Timestamp * Timestamp) :=
  let numbers := map (Number_ w) (String_split "-"%char period) in
  let year := default None (numbers !! 0%nat) in
  let month := default None (numbers !! 1%nat) in
  let startDate := Date_new w year ((fun m => Number_sub m 1) <$> month) 1 0 0 0 in
  let endDate := Date_new w year month 0 23 59 59 in
  start ← Timestamp_fromDate startDate;
  end_ ← Timestamp_fromDate endDate;
  Some (start, end_).

(** The answers the query of the aggregation fetches, restricted to a
    category when one is given.  The two range filters compare the stored
    [answeredAt], a plain object as [createAnswer] writes it, with bounds
    that are timestamps. *)
Definition answersQuery (bounds : Timestamp * Timestamp) (category : option string)
  (d : Db) : list Answer.t :=
  List.filter
    (fun a => where_ge (plainObject (Answer.answeredAt a))
                       (TimestampValue (fst bounds))
              && where_le (plainObject (Answer.answeredAt a))
                          (TimestampValue (snd bounds))
              && (if truthy category
                  then bool_decide (Some (Answer.category a) = category)
                  else true))
    (answersCollection d).

(** The ids of the profile documents of an experience level. *)
Definition profileAccountIdsOf (experienceLevel : string) (d : Db) : gset string :=
  dom (filter (fun kp => UserProfile.experienceLevel (snd kp) = experienceLevel)
              (userProfilesCollection d)).

Definition calculateAndSaveTeamAnalytics (period : string)
  (experienceLevel : option string) (category : option string)
  : Async TeamAnalytics.t :=
  bounds ← orThrow "INVALID_ARGUMENT" (fun w => monthBounds w period);
  answers ← readDb (answersQuery bounds category);
  let userStats := fold_left tallyAnswer answers [] in
  let filteredUsers := Map_keys userStats in
  filteredUsers ←
    (if truthy experienceLevel
     then
       profileAccountIds ←
         readDb (profileAccountIdsOf (stringOf experienceLevel));
       mret (List.filter (fun accountId => bool_decide (accountId ∈ profileAccountIds))
                         filteredUsers)
     else mret filteredUsers);
  let correctRates :=
    Array_sort (fun a b => a - b)%Q
      (map (fun accountId =>
              match Map_get userStats accountId with
              | None => 0%Q
              | Some stats => (N2Q (correct stats) / N2Q (total stats))%Q
              end) filteredUsers) in
  let avgCorrectRate :=
    if (0 <? length correctRates)%nat
    then (fold_left Qplus correctRates 0 / inject_Z (Z.of_nat (length correctRates)))%Q
    else 0%Q in
  let analyticsId := period in
  let analyticsId :=
    if truthy experienceLevel then analyticsId +:+ "_" +:+ stringOf experienceLevel
    else analyticsId in
  let analyticsId :=
    if truthy category then analyticsId +:+ "_" +:+ stringOf category
    else analyticsId in
  now ← Timestamp_now;
  let teamAnalytics := TeamAnalytics.mk
                         analyticsId
                         period
                         experienceLevel
                         category
                         avgCorrectRate
                         (N.of_nat (length answers))
                         (N.of_nat (length filteredUsers))
                         (getPercentile correctRates 0.25)
                         (getPercentile correctRates 0.5)
                         (getPercentile correctRates 0.75)
                         (getPercentile correctRates 0.9)
                         now in
  writeDb (fun d =>
    withTeamAnalytics d (<[analyticsId := teamAnalytics]> (teamAnalyticsCollection d)));;
  mret teamAnalytics.

(** ** The personalization service ([src/index.ts]) *)

(** [getDaysSince]: whole days between the timestamp and [new Date()];
    [nowMs] is what [now.getTime()] returns. *)
Definition getDaysSince (nowMs : Z) (timestamp : Timestamp) : Z :=
  let lastDate := (seconds timestamp * 1000)%Z in
  let diffMs := (nowMs - lastDate)%Z in
  (diffMs / (1000 * 60 * 60 * 24))%Z.

Definition findStats (skillStats : list SkillStats.t) (category : Category)
  : option SkillStats.t :=
  List.find (fun s => bool_decide (SkillStats.category s = category)) skillStats.

Definition Array_includes (l : list Category) (c : Category) : bool :=
  existsb (fun x => bool_decide (x = c)) l.

Definition calculateCategoryPriority (nowMs : Z) (profile : UserProfile.t)
  (skillStats : list SkillStats.t) (category : Category) : Q :=
  let score := 0%Q in
  let categoryStats := findStats skillStats category in
  let score :=
    match categoryStats with
    | Some s =>
        if (3 <=? SkillStats.totalQuizzes s)%N
        then
          let weaknessScore := (1 - SkillStats.correctRate s)%Q in
          (score + weaknessScore * 0.4)%Q
        else (score + 0.2)%Q
    | None => (score + 0.2)%Q
    end in
  let score :=
    match UserProfile.focusAreas profile with
    | Some focusAreas =>
        if Array_includes focusAreas category then (score + 0.3)%Q else score
    | None => score
    end in
  let score :=
    match categoryStats ≫= SkillStats.lastAnsweredAt with
    | Some lastAnsweredAt =>
        let daysSinceLastQuiz := getDaysSince nowMs lastAnsweredAt in
        if (7 <=? daysSinceLastQuiz)%Z then (score + 0.2)%Q
        else if (3 <=? daysSinceLastQuiz)%Z then (score + 0.1)%Q
        else score
    | None => (score + 0.15)%Q
    end in
  let score :=
    match categoryStats with
    | Some s =>
        if Qlt_bool (SkillStats.averageDifficulty s) 2
        then (score + 0.1)%Q else score
    | None => score
    end in
  score.

Definition increaseDifficulty (current : Difficulty) : Difficulty :=
  match current with
  | easy => medium
  | medium => hard
  | hard => hard
  end.

Definition decreaseDifficulty (current : Difficulty) : Difficulty :=
  match current with
  | easy => easy
  | medium => easy
  | hard => medium
  end.

Definition selectOptimalDifficulty (profile : option UserProfile.t)
  (categoryStats : option SkillStats.t) : Difficulty :=
  match profile with
  | None => easy
  | Some profile =>
      let baseDifficulty :=
        if String.eqb (UserProfile.experienceLevel profile) "junior" then easy
        else if String.eqb (UserProfile.experienceLevel profile) "mid" then medium
        else if String.eqb (UserProfile.experienceLevel profile) "senior" then hard
        else medium in
      match categoryStats with
      | Some categoryStats =>
          if (5 <=? SkillStats.totalQuizzes categoryStats)%N
          then
            if Qle_bool 0.8 (SkillStats.correctRate categoryStats)
            then increaseDifficulty baseDifficulty
            else if Qle_bool (SkillStats.correctRate categoryStats) 0.4
            then decreaseDifficulty baseDifficulty
            else baseDifficulty
          else baseDifficulty
      | None => baseDifficulty
      end
  end.

(** ** [src/services/answerCommandHandler.ts] *)

Module AnswerCommandResult.
Record t := mk {
  success : bool;
  isCorrect : bool;
  quiz : Quiz.t;
  answer : Answer.t;
  stats : list SkillStats.t;
  newMilestones : list GrowthMilestone.t;
  message : string;
  alreadyAnswered : option bool
}.
End AnswerCommandResult.

(** The Markdown templates of the three replies.  Each is a function of
    the values the source interpolates into it. *)
Class MessageTemplates := {
  correctAnswerText :
    Quiz.t -> Answer.t -> list SkillStats.t -> list GrowthMilestone.t -> string;
  incorrectAnswerText :
    Quiz.t -> Answer.t -> list SkillStats.t -> option UserProfile.t -> string;
  alreadyAnsweredText :
    Quiz.t -> Answer.t -> list SkillStats.t -> string
}.

Section AnswerCommandHandler.

Context {templates : MessageTemplates}.

(** [formatCorrectAnswerMessage] sorts the [stats] array it is given in
    place, so the caller's array is the sorted one afterwards. *)
Definition formatCorrectAnswerMessage (quiz : Quiz.t) (answer : Answer.t)
  (stats : list SkillStats.t) (newMilestones : list GrowthMilestone.t)
  : Async (string * list SkillStats.t) :=
  let sorted :=
    Array_sort (fun a b => SkillStats.correctRate b - SkillStats.correctRate a)%Q
               stats in
  mret (correctAnswerText quiz answer sorted newMilestones, sorted).

Definition formatIncorrectAnswerMessage (quiz : Quiz.t) (answer : Answer.t)
  (stats : list SkillStats.t) (accountId : string) : Async string :=
  profile ← getUserProfile accountId;
  mret (incorrectAnswerText quiz answer stats profile).

Definition formatAlreadyAnsweredMessage (quiz : Quiz.t) (answer : Answer.t)
  (stats : list SkillStats.t) : string :=
  alreadyAnsweredText quiz answer stats.

(** [handleAnswerCommand].  Its [try]/[catch] logs and throws the error
    again, so a rejection of a step is the rejection of the handler. *)
Definition handleAnswerCommand (accountId : string) (quiz : Quiz.t)
  (answerIndex : Z) : Async AnswerCommandResult.t :=
  existingAnswers ← getAnswersByUser accountId;
  let userAnswer :=
    List.find (fun a => bool_decide (Answer.quizId a = Quiz.quizId quiz))
              existingAnswers in
  match userAnswer with
  | Some userAnswer =>
      stats ← getSkillStatsByUser accountId;
      let message := formatAlreadyAnsweredMessage quiz userAnswer stats in
      mret (AnswerCommandResult.mk true (Answer.isCorrect userAnswer) quiz
              userAnswer stats [] message (Some true))
  | None =>
      let isCorrect := Z.eqb answerIndex (Quiz.correctAnswerIndex quiz) in
      answer ← createAnswer
                 (CreateAnswerInput.mk (Quiz.quizId quiz) accountId answerIndex)
                 quiz;
      updateUserStats accountId isCorrect;;
      updateSkillStats
        (UpdateSkillStatsInput.mk accountId (Quiz.category quiz)
           (Quiz.difficulty quiz) isCorrect);;
      stats ← getSkillStatsByUser accountId;
      let newMilestones : list GrowthMilestone.t := [] in
      '(message, stats) ←
        (if isCorrect
         then formatCorrectAnswerMessage quiz answer stats newMilestones
         else message ← formatIncorrectAnswerMessage quiz answer stats accountId;
              mret (message, stats));
      mret (AnswerCommandResult.mk true isCorrect quiz answer stats
              newMilestones message None)
  end.

End AnswerCommandHandler.

(** ** Further operations of [src/services/firestore.ts] *)

Module CreateUserInput.
Record t := mk {
  accountId : string;
  platform : string
}.
End CreateUserInput.

Definition getOrCreateUser (input : CreateUserInput.t) : Async User.t :=
  doc ← readDb (fun d => usersCollection d !! CreateUserInput.accountId input);
  match doc with
  | Some user => mret user
  | None =>
      now ← Timestamp_now;
      let user := User.mk (CreateUserInput.accountId input)
                    (CreateUserInput.platform input) 0 0 now now in
      writeDb (fun d =>
        withUsers d (<[CreateUserInput.accountId input := user]> (usersCollection d)));;
      mret user
  end.

Definition getSkillStats (accountId : string) (category : string)
  : Async (option SkillStats.t) :=
  let statId := generateSkillStatsId accountId category in
  readDb (fun d => skillStatsCollection d !! statId).

(** [getGrowthMilestonesByUser]: the user's milestones, ordered by
    [achievedAt] descending.  [createGrowthMilestone] writes [achievedAt]
    as a plain object, so the order is Firestore's order of maps: by
    nanoseconds first, then by seconds. *)
Definition getGrowthMilestonesByUser (accountId : string)
  : Async (list GrowthMilestone.t) :=
  readDb (fun d =>
    orderByDesc
      (fun m => (plainObject (GrowthMilestone.achievedAt m),
                 GrowthMilestone.milestoneId m))
      (List.filter (fun m => bool_decide (GrowthMilestone.accountId m = accountId))
                   (growthMilestonesCollection d))).

Definition withUserProfiles (d : Db) (m : gmap string UserProfile.t) : Db :=
  mkDb (usersCollection d) (answersCollection d) (skillStatsCollection d)
       (growthMilestonesCollection d) m (teamAnalyticsCollection d).

(** The input of [upsertUserProfile]. *)
Module CreateUserProfileInput.
Record t := mk {
  accountId : string;
  careerGoal : option string;
  experienceLevel : ExperienceLevel;
  yearsOfExperience : Q;
  focusAreas : option (list Category);
  selfAssessment : option (list (Category * Z))
}.
End CreateUserProfileInput.

Definition upsertUserProfile (input : CreateUserProfileInput.t)
  : Async UserProfile.t :=
  doc ← readDb (fun d => userProfilesCollection d !! CreateUserProfileInput.accountId input);
  now ← Timestamp_now;
  match doc with
  | Some existing =>
      let updated :=
        UserProfile.mk
          (UserProfile.accountId existing)
          (match CreateUserProfileInput.careerGoal input with
           | Some goal => Some goal
           | None => UserProfile.careerGoal existing
           end)
          (CreateUserProfileInput.experienceLevel input)
          (CreateUserProfileInput.yearsOfExperience input)
          (match CreateUserProfileInput.focusAreas input with
           | Some focusAreas => Some focusAreas
           | None => UserProfile.focusAreas existing
           end)
          (match CreateUserProfileInput.selfAssessment input with
           | Some selfAssessment => Some selfAssessment
           | None => UserProfile.selfAssessment existing
           end)
          (UserProfile.createdAt existing)
          now in
      writeDb (fun d =>
        withUserProfiles d
          (<[CreateUserProfileInput.accountId input := updated]>
             (userProfilesCollection d)));;
      updatedDoc ← readDb (fun d =>
        userProfilesCollection d !! CreateUserProfileInput.accountId input);
      match updatedDoc with
      | Some profile => mret profile
      | None => throw "undefined" (* not reached: the document was just written *)
      end
  | None =>
      let profile :=
        UserProfile.mk
          (CreateUserProfileInput.accountId input)
          (CreateUserProfileInput.careerGoal input)
          (CreateUserProfileInput.experienceLevel input)
          (CreateUserProfileInput.yearsOfExperience input)
          (Some (default [] (CreateUserProfileInput.focusAreas input)))
          (CreateUserProfileInput.selfAssessment input)
          now now in
      writeDb (fun d =>
        withUserProfiles d
          (<[CreateUserProfileInput.accountId input := profile]>
             (userProfilesCollection d)));;
      mret profile
  end.

(** ** The profile command handler *)

Module ProfileCommand.
Record t := mk {
  experience : option ExperienceLevel;
  years : option Q;
  focus : option (list Category);
  goal : option string
}.
End ProfileCommand.

Module ProfileCommandResult.
Record t := mk {
  success : bool;
  profile : option UserProfile.t;
  message : string;
  isNew : option bool
}.
End ProfileCommandResult.

(** The Markdown templates of the profile replies. *)
Class ProfileTemplates := {
  profileUpdateText : UserProfile.t -> bool -> string;
  profileErrorText : string -> option string -> string
}.

(** [try { ... } catch (error) { ... }] around an asynchronous body. *)
Definition tryCatch {A} (body : Async A) (handler : string -> Async A) : Async A :=
  fun w =>
    match body w with
    | (Resolved a, w') => (Resolved a, w')
    | (Rejected e, w') => handler e w'
    end.

(** [a ?? b] on optional values. *)
Definition nullish {A} (a b : option A) : option A :=
  match a with Some x => Some x | None => b end.

Section ProfileCommandHandler.

Context {profileTemplates : ProfileTemplates}.

Definition formatProfileUpdateMessage (profile : UserProfile.t) (isNew : bool)
  : string :=
  profileUpdateText profile isNew.

Definition formatProfileErrorMessage (error : string) (hint : option string)
  : string :=
  profileErrorText error hint.

Definition handleProfileCommand (accountId : string) (command : ProfileCommand.t)
  : Async ProfileCommandResult.t :=
  tryCatch
    (existing ← getUserProfile accountId;
     let isNew := match existing with Some _ => false | None => true end in
     let input :=
       CreateUserProfileInput.mk
         accountId
         (nullish (ProfileCommand.goal command)
                  (existing ≫= UserProfile.careerGoal))
         (default "mid"
            (nullish (ProfileCommand.experience command)
                     (UserProfile.experienceLevel <$> existing)))
         (default 0%Q
            (nullish (ProfileCommand.years command)
                     (UserProfile.yearsOfExperience <$> existing)))
         (Some (default []
                  (nullish (ProfileCommand.focus command)
                           (existing ≫= UserProfile.focusAreas))))
         None in
     profile ← upsertUserProfile input;
     let message := formatProfileUpdateMessage profile isNew in
     mret (ProfileCommandResult.mk true (Some profile) message (Some isNew)))
    (fun _ =>
       mret (ProfileCommandResult.mk false None
               (formatProfileErrorMessage
                  "プロファイルの更新に失敗しました"
                  (Some "しばらく時間をおいて再度お試しください"))
               None)).

End ProfileCommandHandler.

(** ** Further functions of the personalization service *)

Definition allCategories : list Category :=
  ["bug_fix"; "performance"; "refactoring"; "security"; "logic"].

(** [arr[i]]: [undefined] outside the array. *)
Definition Array_get {A} (arr : list A) (i : Z) : option A :=
  if (i <? 0)%Z then None else arr !! Z.to_nat i.

(** [selectOptimalCategory].  [random] is what [Math.random()] returns on
    the one call the chosen branch makes, and [nowMs i] is what the clock
    reads when the [i]-th category is scored.  The result is [None] when
    the index falls outside the array, which no [random] from 0 up to,
    but not including, 1 causes. *)
Definition selectOptimalCategory (random : Q) (nowMs : nat -> Z)
  (profile : option UserProfile.t) (skillStats : list SkillStats.t)
  : option Category :=
  match profile with
  | None =>
      Array_get allCategories
        (Qfloor (random * inject_Z (Z.of_nat (length allCategories))))
  | Some profile =>
      if (length skillStats =? 0)%nat
      then Array_get allCategories
             (Qfloor (random * inject_Z (Z.of_nat (length allCategories))))
      else
        let categoryScores :=
          imap (fun i category =>
                  (category,
                   calculateCategoryPriority (nowMs i) profile skillStats category))
               allCategories in
        let categoryScores :=
          Array_sort (fun a b => snd b - snd a)%Q categoryScores in
        let topCategories := firstn 3 categoryScores in
        let selectedIndex :=
          Qfloor (random * inject_Z (Z.of_nat (length topCategories))) in
        fst <$> Array_get topCategories selectedIndex
  end.

Module WeakArea.
Record t := mk {
  category : Category;
  correctRate : Q;
  priority : string
}.
End WeakArea.

Module Recommendations.
Record t := mk {
  weakAreas : list WeakArea.t;
  suggestedFocusAreas : list Category;
  nextSteps : list string
}.
End Recommendations.

(** [Math.round] of a binary64 value: the nearest integer, halves
    upwards. *)
Definition Math_round (x : Q) : Z := Qfloor (x + (1 # 2)).

Definition weakAreaOf (stat : SkillStats.t) : WeakArea.t :=
  let priority := "low" in
  let priority :=
    if Qlt_bool (SkillStats.correctRate stat) 0.3 then "high"
    else if Qlt_bool (SkillStats.correctRate stat) 0.5 then "medium"
    else priority in
  WeakArea.mk (SkillStats.category stat) (SkillStats.correctRate stat) priority.

Definition generateLearningRecommendations (profile : option UserProfile.t)
  (skillStats : list SkillStats.t) : Recommendations.t :=
  if (length skillStats =? 0)%nat
  then Recommendations.mk [] []
         ["まずはクイズに挑戦してスキルデータを蓄積しましょう"]
  else
    let weakStats :=
      Array_sort
        (fun a b => SkillStats.correctRate a - SkillStats.correctRate b)%Q
        (List.filter
           (fun s => (3 <=? SkillStats.totalQuizzes s)%N
                     && Qlt_bool (SkillStats.correctRate s) 0.6)
           skillStats) in
    let weakAreas := map weakAreaOf weakStats in
    let suggestedFocusAreas :=
      match profile ≫= UserProfile.focusAreas with
      | Some (c :: focusAreas) => c :: focusAreas
      | _ =>
          match weakAreas with
          | weakest :: _ => [WeakArea.category weakest]
          | [] => []
          end
      end in
    let nextSteps := [] in
    let nextSteps :=
      match weakStats with
      | weakest :: _ =>
          (nextSteps ++
           [SkillStats.category weakest
            +:+ "分野の理解を深めましょう（現在の正答率: "
            +:+ pretty (Math_round
                          (Number_mul (binary64 (SkillStats.correctRate weakest))
                                      100))
            +:+ "%）"])%list
      | [] => nextSteps
      end in
    let masteredAreas :=
      List.filter
        (fun s => (5 <=? SkillStats.totalQuizzes s)%N
                  && Qle_bool 0.8 (SkillStats.correctRate s))
        skillStats in
    let nextSteps :=
      match masteredAreas with
      | mastered :: _ =>
          (nextSteps ++
           [SkillStats.category mastered
            +:+ "分野は習得済みです！より高度な問題に挑戦しましょう"])%list
      | [] => nextSteps
      end in
    let nextSteps :=
      match profile with
      | Some profile =>
          if String.eqb (UserProfile.experienceLevel profile) "junior"
          then
            let totalQuizzes :=
              fold_left (fun sum s => (sum + SkillStats.totalQuizzes s)%N)
                        skillStats 0%N in
            if (50 <=? totalQuizzes)%N
            then (nextSteps ++
                  ["50問達成！次はmidレベルの問題に挑戦してみましょう"])%list
            else nextSteps
          else nextSteps
      | None => nextSteps
      end in
    Recommendations.mk weakAreas suggestedFocusAreas nextSteps.

(** ** Logger (utils/logger.ts) *)

Inductive LogLevel := debug | info | warn | error.

Definition LogLevel_name (level : LogLevel) : string :=
  match level with
  | debug => "debug" | info => "info" | warn => "warn" | error => "error"
  end.

(** [logLevelPriority[key]] as a number: a key that is none of the four
    levels gives [undefined] or an inherited member of the object, and a
    comparison with either is false. *)
Definition logLevelPriority (key : string) : option nat :=
  if String.eqb key "debug" then Some 0%nat
  else if String.eqb key "info" then Some 1%nat
  else if String.eqb key "warn" then Some 2%nat
  else if String.eqb key "error" then Some 3%nat
  else None.

(** [currentLevel], from the environment variables [LOG_LEVEL] and
    [NODE_ENV]; the cast of [LOG_LEVEL] to a level checks nothing. *)
Definition currentLevel (LOG_LEVEL NODE_ENV : option string) : string :=
  if truthy LOG_LEVEL then stringOf LOG_LEVEL
  else if bool_decide (NODE_ENV = Some "production") then "info" else "debug".

Definition shouldLog (currentLevel : string) (level : LogLevel) : bool :=
  match logLevelPriority (LogLevel_name level), logLevelPriority currentLevel with
  | Some l, Some c => (c <=? l)%nat
  | _, _ => false
  end.

Inductive ConsoleMethod := console_error | console_warn | console_log.

(** [log]: the console method called, with the formatted line, or nothing.
    [formatLog] (a JSON rendering with the time of the call) is a
    parameter. *)
Definition log (formatLog : LogLevel -> string -> string)
  (currentLevel : string) (level : LogLevel) (message : string)
  : option (ConsoleMethod * string) :=
  if negb (shouldLog currentLevel level) then None
  else
    let output := formatLog level message in
    match level with
    | error => Some (console_error, output)
    | warn => Some (console_warn, output)
    | _ => Some (console_log, output)
    end.

(** ** Webhook verification (middleware/webhook.ts) *)

(** What the middleware reads of a request: three headers and the body.
    Strings are the byte strings [Buffer.from] makes of them. *)
Module WebhookRequest.
Record t := mk {
  Authorization : option string;
  X_Hub_Signature_256 : option string;
  X_Gitlab_Token : option string;
  text : string
}.
End WebhookRequest.

(** The middleware either hands over to the next handler or answers with a
    JSON error and a status. *)
Inductive WebhookVerdict :=
  | next
  | json (error : string) (status : nat).

(** [verifySignature]: buffers of different length are unequal without a
    comparison; [timingSafeEqual] of buffers of one length is equality and
    does not throw. *)
Definition verifySignature (expected actual : string) : bool :=
  if negb (String.length expected =? String.length actual)%nat then false
  else String.eqb expected actual.

Section WebhookVerification.

(** [createHmac("sha256", secret).update(payload).digest("hex")]. *)
Variable hmacSha256Hex : string -> string -> string.

Definition computeSignature (secret payload : string) : string :=
  "sha256=" +:+ hmacSha256Hex secret payload.

(** [authHeader?.startsWith("Bearer ")]. *)
Definition startsWithBearer (authHeader : option string) : bool :=
  match authHeader with
  | Some h => String.prefix "Bearer " h
  | None => false
  end.

Definition webhookVerificationMiddleware (WEBHOOK_SECRET : option string)
  (req : WebhookRequest.t) : WebhookVerdict :=
  let secret := WEBHOOK_SECRET in
  if negb (truthy secret) then next
  else
    let authHeader := WebhookRequest.Authorization req in
    if startsWithBearer authHeader then next
    else
      let body := WebhookRequest.text req in
      let githubSignature := WebhookRequest.X_Hub_Signature_256 req in
      if truthy githubSignature then
        let expectedSignature := computeSignature (stringOf secret) body in
        if negb (verifySignature expectedSignature (stringOf githubSignature))
        then json "Invalid webhook signature" 401
        else next
      else
        let gitlabToken := WebhookRequest.X_Gitlab_Token req in
        if truthy gitlabToken then
          if negb (verifySignature (stringOf secret) (stringOf gitlabToken))
          then json "Invalid webhook token" 401
          else next
        else json "Missing webhook signature" 401.

End WebhookVerification.

(** ** The analytics routes (routes/analytics.ts) *)

(** [/^\d{4}-\d{2}$/.test(period)], the one check the calculation route
    makes of its input; level and category are passed on as they come. *)
Definition periodPattern (period : string) : bool :=
  match period with
  | String y1 (String y2 (String y3 (String y4
      (String dash (String m1 (String m2 EmptyString)))))) =>
      isDigit y1 && isDigit y2 && isDigit y3 && isDigit y4
      && Ascii.eqb dash "-"%char
      && isDigit m1 && isDigit m2
  | _ => false
  end.

(** ** Vocabulary of the properties *)

(** The stat document of a (user, category) pair. *)
Definition statOf (w : World) (accountId : string) (category : Category)
  : option SkillStats.t :=
  skillStatsCollection (db w) !! generateSkillStatsId accountId category.

(** A user's answers in one category, each a difficulty and a
    correctness flag, folded into the stat one call at a time. *)
Fixpoint updateSkillStatsSeq (accountId : string) (category : Category)
  (outcomes : list (Difficulty * bool)) : Async unit :=
  match outcomes with
  | [] => mret tt
  | (difficulty, isCorrect) :: rest =>
      updateSkillStats (UpdateSkillStatsInput.mk accountId category difficulty isCorrect);;
      updateSkillStatsSeq accountId category rest
  end.

Definition Qsum (l : list Q) : Q := fold_right Qplus 0%Q l.

Definition arithmeticMean (l : list Q) : Q :=
  (Qsum l / N2Q (N.of_nat (length l)))%Q.

Definition boolToN (b : bool) : N := if b then 1%N else 0%N.

(** The fields of a stat after one call, given the stat before it. *)
Definition statAfter (prior : option SkillStats.t) (difficulty : Difficulty)
  (isCorrect : bool) (s' : SkillStats.t) : Prop :=
  match prior with
  | None =>
      SkillStats.totalQuizzes s' = 1%N
      /\ SkillStats.correctCount s' = boolToN isCorrect
      /\ (SkillStats.correctRate s' == N2Q (SkillStats.correctCount s'))%Q
      /\ SkillStats.averageDifficulty s' = difficultyMap difficulty
  | Some s =>
      SkillStats.totalQuizzes s' = (SkillStats.totalQuizzes s + 1)%N
      /\ SkillStats.correctCount s' =
           (SkillStats.correctCount s + boolToN isCorrect)%N
      /\ (SkillStats.correctRate s' ==
            N2Q (SkillStats.correctCount s') / N2Q (SkillStats.totalQuizzes s'))%Q
      /\ SkillStats.averageDifficulty s' =
           Number_div
             (Number_add
                (Number_mul (SkillStats.averageDifficulty s)
                            (N2Q (SkillStats.totalQuizzes s)))
                (difficultyMap difficulty))
             (N2Q (SkillStats.totalQuizzes s + 1))
  end.

Definition difficultyValues (outcomes : list (Difficulty * bool)) : list Q :=
  map (fun o => difficultyMap (fst o)) outcomes.

Definition correctAnswers (outcomes : list (Difficulty * bool)) : N :=
  N.of_nat (length (filter (fun o => snd o = true) outcomes)).

(** The running average after further difficulties [ds], from the average
    [a] of [t] difficulties: one update of [updateSkillStats] per
    difficulty, in binary64. *)
Fixpoint averageFold (a : Q) (t : N) (ds : list Q) : Q :=
  match ds with
  | [] => a
  | d :: rest =>
      averageFold
        (Number_div (Number_add (Number_mul a (N2Q t)) d) (N2Q (t + 1)))
        (t + 1) rest
  end.

(** Half the distance of neighbouring binary64 values, relative to their
    size: 2^-53. *)
Definition epsilon53 : Q := 1 # 9007199254740992.

(** Words about the stat documents that do not mention their ids: a stat
    of a (user, category) pair is a document with these two fields. *)
Definition hasStat (d : Db) (accountId : string) (category : Category)
  (s : SkillStats.t) : Prop :=
  (exists id, skillStatsCollection d !! id = Some s)
  /\ SkillStats.accountId s = accountId
  /\ SkillStats.category s = category.

Definition noStat (d : Db) (accountId : string) (category : Category) : Prop :=
  forall s, ~ hasStat d accountId category s.

Definition onlyStat (d : Db) (accountId : string) (category : Category)
  (s : SkillStats.t) : Prop :=
  hasStat d accountId category s
  /\ forall s', hasStat d accountId category s' -> s' = s.

(** The difficulties and verdicts, in order, of the calls that are for
    one (user, category) pair. *)
Definition outcomesOf (accountId : string) (category : Category)
  (calls : list UpdateSkillStatsInput.t) : list (Difficulty * bool) :=
  map (fun i => (UpdateSkillStatsInput.difficulty i, UpdateSkillStatsInput.isCorrect i))
      (List.filter
         (fun i => bool_decide (UpdateSkillStatsInput.accountId i = accountId
                                /\ UpdateSkillStatsInput.category i = category))
         calls).

(** A world to run examples in: a clock that advances one second per
    read, one-letter document ids, the time zone UTC, and a [Number] that
    reads plain decimal digits only. *)
Definition exampleWorld (d : Db) : World :=
  mkWorld d 0
    (fun n => mkTimestamp (Z.of_nat n + 1700000000) 0)
    (fun n => String (Ascii.ascii_of_nat (n + 65)) "")
    (fun _ => 0%Z)
    (fun _ => None).

(** A computation keeps an observation [f] of the database when no run of
    it changes [f], whether the run resolves or rejects. *)
Definition keeps {A X} (f : Db -> X) (m : Async A) : Prop :=
  forall w, f (db (snd (m w))) = f (db w).

(** The candidates of one milestone check, in the order the check
    collects them: first correct answer, category mastery, cumulative
    total. *)
Definition firstCorrectCandidate (accountId : string) (answer : Answer.t)
  : CreateGrowthMilestoneInput.t :=
  CreateGrowthMilestoneInput.mk accountId first_correct
    (Some (Answer.category answer))
    "初めてのクイズで正解しました！"
    [("quizId", MetaString (Answer.quizId answer))].

Definition categoryMasterCandidate (accountId : string) (answer : Answer.t)
  (skillStats : SkillStats.t) : CreateGrowthMilestoneInput.t :=
  CreateGrowthMilestoneInput.mk accountId category_master
    (Some (Answer.category answer))
    (Answer.category answer +:+ "分野で正答率80%達成！")
    [("correctRate", MetaNumber (SkillStats.correctRate skillStats));
     ("totalQuizzes", MetaNumber (N2Q (SkillStats.totalQuizzes skillStats)))].

Definition totalMilestoneCandidate (accountId : string) (user : User.t)
  : CreateGrowthMilestoneInput.t :=
  CreateGrowthMilestoneInput.mk accountId total_milestone None
    ("累計" +:+ pretty (User.totalQuizzes user) +:+ "問に回答しました！")
    [("totalQuizzes", MetaNumber (N2Q (User.totalQuizzes user)));
     ("correctRate",
      MetaNumber (N2Q (User.correctCount user) / N2Q (User.totalQuizzes user))%Q)].

Definition milestoneCandidates (accountId : string) (answer : Answer.t)
  (user : User.t) (skillStats : option SkillStats.t) (d : Db)
  : list CreateGrowthMilestoneInput.t :=
  ((if Answer.isCorrect answer && (User.correctCount user =? 1)%N
    then [firstCorrectCandidate accountId answer] else [])
   ++ (match skillStats with
       | Some s =>
           if Qle_bool 0.8 (SkillStats.correctRate s)
              && (5 <=? SkillStats.totalQuizzes s)%N
              && isEmpty (categoryMasterQuery accountId (Answer.category answer) d)
           then [categoryMasterCandidate accountId answer s] else []
       | None => []
       end)
   ++ (if includes totalMilestones (User.totalQuizzes user)
       then [totalMilestoneCandidate accountId user] else []))%list.

(** The document [createGrowthMilestone] writes for a candidate, given
    the id and the time it drew. *)
Definition milestoneOf (input : CreateGrowthMilestoneInput.t)
  (milestoneId : string) (now : Timestamp) : GrowthMilestone.t :=
  GrowthMilestone.mk milestoneId
    (CreateGrowthMilestoneInput.accountId input)
    (CreateGrowthMilestoneInput.type input)
    (CreateGrowthMilestoneInput.category input)
    (CreateGrowthMilestoneInput.achievement input)
    (CreateGrowthMilestoneInput.metadata input)
    now.

(** The documents written for a list of candidates by a loop that starts
    at environment read [n]: each candidate draws an id, then a time. *)
Fixpoint milestonesOf (ids : nat -> string) (times : nat -> Timestamp) (n : nat)
  (inputs : list CreateGrowthMilestoneInput.t) : list GrowthMilestone.t :=
  match inputs with
  | [] => []
  | input :: rest =>
      milestoneOf input (ids n) (times (S n))
      :: milestonesOf ids times (S (S n)) rest
  end.

(** The milestones one check creates in a world. *)
Definition createdBy (accountId : string) (answer : Answer.t) (user : User.t)
  (skillStats : option SkillStats.t) (w : World) : list GrowthMilestone.t :=
  milestonesOf (uuids w) (clock w) (tick w)
    (milestoneCandidates accountId answer user skillStats (db w)).

(** At most one category-master milestone per (user, category). *)
Definition atMostOneCategoryMaster (d : Db) : Prop :=
  forall accountId category,
    (length (categoryMasterQuery accountId category d) <= 1)%nat.

(** The candidate-side reading of [isCategoryMasterOf]. *)
Definition isCategoryMasterCandidateOf (accountId : string) (category : Category)
  (input : CreateGrowthMilestoneInput.t) : bool :=
  bool_decide (CreateGrowthMilestoneInput.accountId input = accountId)
  && bool_decide (CreateGrowthMilestoneInput.type input = category_master)
  && bool_decide (CreateGrowthMilestoneInput.category input = Some category).

(** The calls that change the database. *)
Inductive Call :=
  | CallCreateAnswer (input : CreateAnswerInput.t) (quiz : Quiz.t)
  | CallUpdateUserStats (accountId : string) (isCorrect : bool)
  | CallUpdateSkillStats (input : UpdateSkillStatsInput.t)
  | CallCheckAndCreateMilestones (accountId : string) (answer : Answer.t)
      (user : User.t) (skillStats : option SkillStats.t)
  | CallCalculateAndSaveTeamAnalytics (period : string)
      (experienceLevel category : option string)
  | CallHandleAnswerCommand (accountId : string) (quiz : Quiz.t) (answerIndex : Z).

(** The world a call leaves behind, whether it resolves or rejects. *)
Definition runCall `{MessageTemplates} (c : Call) (w : World) : World :=
  match c with
  | CallCreateAnswer input quiz => snd (createAnswer input quiz w)
  | CallUpdateUserStats accountId isCorrect =>
      snd (updateUserStats accountId isCorrect w)
  | CallUpdateSkillStats input => snd (updateSkillStats input w)
  | CallCheckAndCreateMilestones accountId answer user skillStats =>
      snd (checkAndCreateMilestones accountId answer user skillStats w)
  | CallCalculateAndSaveTeamAnalytics period experienceLevel category =>
      snd (calculateAndSaveTeamAnalytics period experienceLevel category w)
  | CallHandleAnswerCommand accountId quiz answerIndex =>
      snd (handleAnswerCommand accountId quiz answerIndex w)
  end.

(** Calls run one after the other. *)
Definition runCalls `{MessageTemplates} (calls : list Call) (w : World) : World :=
  fold_left (fun w c => runCall c w) calls w.

(** Templates that render every reply as the empty text. *)
Definition blankTemplates : MessageTemplates :=
  {| correctAnswerText := fun _ _ _ _ => "";
     incorrectAnswerText := fun _ _ _ _ => "";
     alreadyAnsweredText := fun _ _ _ => "" |}.

(** Example data: an answer in the security category, a user record with
    given totals, and a security stat with given counts. *)
Definition exampleAnswer (isCorrect : bool) : Answer.t :=
  Answer.mk "answer-1" "quiz-1" "alice" "github_acme_shop_7" 2 isCorrect
    "security" medium (mkTimestamp 1700000000 0).

Definition exampleUser (totalQuizzes correctCount : N) : User.t :=
  User.mk "alice" "github" totalQuizzes correctCount
    (mkTimestamp 1690000000 0) (mkTimestamp 1700000000 0).

Definition exampleStat (totalQuizzes correctCount : N) : SkillStats.t :=
  SkillStats.mk "alice_security" "alice" "security" totalQuizzes correctCount
    (N2Q correctCount / N2Q totalQuizzes)%Q 2%Q
    (Some (mkTimestamp 1700000000 0)) 0%Q 0%Q (mkTimestamp 1700000000 0).

(** A first quiz in the security category whose right option is the
    third, and a world in which alice is registered and has not answered
    anything. *)
Definition firstQuiz : Quiz.t :=
  Quiz.mk "quiz-1" "github_acme_shop_7" "alice" "Which line leaks the token?"
    "security" medium ["line 3"; "line 8"; "line 12"; "line 20"] 2
    "The token is written to the log on line 12." "pending"
    (mkTimestamp 1699990000 0).

Definition firstWorld : World :=
  exampleWorld
    (withUsers emptyDb (<["alice" := exampleUser 0 0]> ∅)).

(** A world in which alice has answered the first quiz correctly. *)
Definition answeredWorld : World :=
  exampleWorld
    (withAnswers
       (withUsers emptyDb (<["alice" := exampleUser 1 1]> ∅))
       [exampleAnswer true]).

(** Words of the recommender's rules. *)
Definition baselineOf (level : ExperienceLevel) : Difficulty :=
  if decide (level = "junior") then easy
  else if decide (level = "mid") then medium
  else if decide (level = "senior") then hard
  else medium.

Definition oneStepUp (d : Difficulty) : Difficulty :=
  match d with easy => medium | medium => hard | hard => hard end.

Definition oneStepDown (d : Difficulty) : Difficulty :=
  match d with hard => medium | medium => easy | easy => easy end.


Definition inFocus (profile : UserProfile.t) (category : Category) : Prop :=
  exists focusAreas,
    UserProfile.focusAreas profile = Some focusAreas /\ In category focusAreas.


(** A profile of a mid-level developer focused on security, and a
    security stat with 2 of 10 correct at average difficulty 1.5, last
    answered at second 1,700,000,000. *)
Definition exampleProfile (level : ExperienceLevel) : UserProfile.t :=
  UserProfile.mk "alice" None level 3%Q (Some ["security"; "logic"]) None
    (mkTimestamp 1690000000 0) (mkTimestamp 1690000000 0).

Definition weakSecurityStat : SkillStats.t :=
  SkillStats.mk "alice_security" "alice" "security" 10 2 (2 # 10) (3 # 2)
    (Some (mkTimestamp 1700000000 0)) 0%Q 0%Q (mkTimestamp 1700000000 0).


(** Words of the team aggregation: a user's answers among the answers of
    the period, and the user's correct rate over them. *)
Definition answersOf (accountId : string) (answers : list Answer.t)
  : list Answer.t :=
  List.filter (fun a => bool_decide (Answer.accountId a = accountId)) answers.

Definition tallyOf (accountId : string) (answers : list Answer.t) : UserTally :=
  mkTally
    (N.of_nat (length (List.filter Answer.isCorrect (answersOf accountId answers))))
    (N.of_nat (length (answersOf accountId answers))).

Definition userRate (answers : list Answer.t) (accountId : string) : Q :=
  (N2Q (correct (tallyOf accountId answers))
   / N2Q (total (tallyOf accountId answers)))%Q.

(** The entry of rank [floor (n * P)], clamped to the last index, of a list
    of [n] entries. *)
Definition nearestRank (sortedRates : list Q) (P : Q) : Q :=
  nth (Z.to_nat (Z.min (Qfloor (inject_Z (Z.of_nat (length sortedRates)) * P))
                       (Z.of_nat (length sortedRates) - 1)))
      sortedRates 0%Q.

(** The document id of an aggregate. *)
Definition analyticsIdOf (period : string) (experienceLevel category : option string)
  : string :=
  let analyticsId := period in
  let analyticsId :=
    if truthy experienceLevel then analyticsId +:+ "_" +:+ stringOf experienceLevel
    else analyticsId in
  if truthy category then analyticsId +:+ "_" +:+ stringOf category
  else analyticsId.

(** An instant is no later than another. *)
Definition Timestamp_leb (a b : Timestamp) : bool :=
  (seconds a <? seconds b)%Z
  || ((seconds a =? seconds b)%Z && (nanoseconds a <=? nanoseconds b)%Z).

(** The answers whose instant lies within the bounds, of a category when
    one is given: the answers of the period as the specification means
    them. *)
Definition answersWithin (bounds : Timestamp * Timestamp)
  (category : option string) (answers : list Answer.t) : list Answer.t :=
  List.filter
    (fun a => Timestamp_leb (fst bounds) (Answer.answeredAt a)
              && Timestamp_leb (Answer.answeredAt a) (snd bounds)
              && (if truthy category
                  then bool_decide (Some (Answer.category a) = category)
                  else true))
    answers.

(** The aggregate of a cohort that is empty. *)
Definition emptyAggregate (period : string) (experienceLevel category : option string)
  (now : Timestamp) : TeamAnalytics.t :=
  TeamAnalytics.mk (analyticsIdOf period experienceLevel category)
    period experienceLevel category 0%Q 0%N 0%N 0%Q 0%Q 0%Q 0%Q now.


(** A month of answers of four users: of five answers each, the first
    has 1 correct, the second 2, the third 3 and the fourth 4. *)
Definition fiveAnswers (accountId : string) (correctOnes : nat) : list Answer.t :=
  map (fun i =>
         Answer.mk (accountId +:+ "-" +:+ pretty i) ("quiz-" +:+ pretty i) accountId
           "github_acme_shop_7" 0 (i <? correctOnes)%nat "logic" medium
           (mkTimestamp (1700000000 + Z.of_nat i) 0))
      (seq 0 5).

Definition teamWorld : World :=
  exampleWorld
    (withAnswers emptyDb
       (fiveAnswers "carol" 3 ++ fiveAnswers "alice" 1
        ++ fiveAnswers "dave" 4 ++ fiveAnswers "bob" 2)%list).

(** ** Vocabulary of the further properties *)

(** The user has no stored answer to the quiz. *)
Definition notYetAnswered (d : Db) (accountId : string) (quiz : Quiz.t) : Prop :=
  forall a, In a (answersCollection d) ->
            Answer.accountId a = accountId ->
            Answer.quizId a <> Quiz.quizId quiz.

(** The answer document an answer command writes in a world. *)
Definition storedAnswer (w : World) (accountId : string) (quiz : Quiz.t)
  (answerIndex : Z) : Answer.t :=
  Answer.mk (uuids w (tick w)) (Quiz.quizId quiz) accountId
    (Quiz.mergeRequestId quiz) answerIndex
    (Z.eqb answerIndex (Quiz.correctAnswerIndex quiz))
    (Quiz.category quiz) (Quiz.difficulty quiz) (clock w (S (tick w))).

(** The stored answers of a user to a quiz. *)
Definition answersTo (accountId quizId : string) (d : Db) : list Answer.t :=
  List.filter
    (fun a => bool_decide (Answer.accountId a = accountId)
              && bool_decide (Answer.quizId a = quizId))
    (answersCollection d).

(** No user has two stored answers to one quiz. *)
Definition answeredAtMostOnce (d : Db) : Prop :=
  forall accountId quizId, (length (answersTo accountId quizId d) <= 1)%nat.

(** The totals of every registered user count the user's stored answers. *)
Definition totalsMatchAnswers (d : Db) : Prop :=
  forall accountId user,
    usersCollection d !! accountId = Some user ->
    User.totalQuizzes user = N.of_nat (length (answersOf accountId (answersCollection d)))
    /\ User.correctCount user =
       N.of_nat (length (List.filter Answer.isCorrect
                           (answersOf accountId (answersCollection d)))).

(** Answer commands run one after the other; each leaves its world to the
    next, whether it resolved or rejected. *)
Fixpoint handleAnswerCommands `{MessageTemplates}
  (commands : list (string * Quiz.t * Z)) (w : World) : World :=
  match commands with
  | [] => w
  | (accountId, quiz, answerIndex) :: rest =>
      handleAnswerCommands rest (snd (handleAnswerCommand accountId quiz answerIndex w))
  end.

(** The five categories of the schema. *)
Definition validCategory (c : Category) : Prop := In c allCategories.

(** The three experience levels of the schema. *)
Definition validLevel (l : ExperienceLevel) : Prop :=
  In l ["junior"; "mid"; "senior"].

(** The attempts and the correct answers a stat document records, none
    when there is no document. *)
Definition recordedTotal (s : option SkillStats.t) : N :=
  match s with Some s => SkillStats.totalQuizzes s | None => 0%N end.

Definition recordedCorrect (s : option SkillStats.t) : N :=
  match s with Some s => SkillStats.correctCount s | None => 0%N end.

(** The last character of a string. *)
Fixpoint lastAscii (s : string) : option Ascii.ascii :=
  match s with
  | EmptyString => None
  | String c EmptyString => Some c
  | String _ s' => lastAscii s'
  end.

(** A user record whose correct answers do not exceed its answers. *)
Definition userWellFormed (u : User.t) : Prop :=
  (User.correctCount u <= User.totalQuizzes u)%N.

(** Templates that render every profile reply as the empty text. *)
Definition blankProfileTemplates : ProfileTemplates :=
  {| profileUpdateText := fun _ _ => "";
     profileErrorText := fun _ _ => "" |}.

(** A world in which alice has a senior profile focused on security and
    logic, with a career goal. *)
Definition profiledWorld : World :=
  exampleWorld
    (withUserProfiles emptyDb
       (<["alice" :=
            UserProfile.mk "alice" (Some "staff engineer") "senior" 8%Q
              (Some ["security"; "logic"]) (Some [("security", 4%Z)])
              (mkTimestamp 1690000000 0) (mkTimestamp 1695000000 0)]> ∅)).

(** A stat counts as weak from three attempts on, below a rate of 0.6. *)
Definition isWeak (s : SkillStats.t) : Prop :=
  (3 <= SkillStats.totalQuizzes s)%N /\ (SkillStats.correctRate s < 0.6)%Q.

(** The weak area [w] reports the stat [s]. *)
Definition reports (w : WeakArea.t) (s : SkillStats.t) : Prop :=
  WeakArea.category w = SkillStats.category s
  /\ WeakArea.correctRate w = SkillStats.correctRate s.

(** The focus areas of a profile, none when there is no profile. *)
Definition focusAreasOf (profile : option UserProfile.t) : list Category :=
  match profile with
  | Some p => default [] (UserProfile.focusAreas p)
  | None => []
  end.

(** The categories with the scores [selectOptimalCategory] gives them, the
    [i]-th scored at the clock reading [nowMs i]. *)
Definition scoredCategories (nowMs : nat -> Z) (profile : UserProfile.t)
  (skillStats : list SkillStats.t) : list (Category * Q) :=
  imap (fun i category =>
          (category, calculateCategoryPriority (nowMs i) profile skillStats category))
       allCategories.

(** The entries that score strictly higher than [s]. *)
Definition scoredHigher (scores : list (Category * Q)) (s : Q)
  : list (Category * Q) :=
  List.filter (fun p => Qlt_bool s (snd p)) scores.

(** A key of the team analytics within the schema: a period the
    calculation route accepts (four digits, a hyphen, two digits), and a
    level and a category of the schema or none.  The routes check the
    period only. *)
Definition validPeriod (period : string) : Prop := periodPattern period = true.

Definition validAnalyticsKey (period : string)
  (experienceLevel category : option string) : Prop :=
  validPeriod period
  /\ from_option validLevel True experienceLevel
  /\ from_option validCategory True category.

(** The header is present with a value that is not empty. *)
Definition headerIs (header : option string) (value : string) : Prop :=
  header = Some value /\ value <> "".

Definition headerMissing (header : option string) : Prop :=
  header = None \/ header = Some "".

(** The priority of a level: its place in debug < info < warn < error. *)
Definition levelRank (level : LogLevel) : nat :=
  match level with debug => 0 | info => 1 | warn => 2 | error => 3 end.

(** Every stat document lies under the id of its own account and
    category, a category of the schema. *)
Definition statsKeyed (d : Db) : Prop :=
  forall id s,
    skillStatsCollection d !! id = Some s ->
    id = generateSkillStatsId (SkillStats.accountId s) (SkillStats.category s)
    /\ validCategory (SkillStats.category s).

(** A world whose only stat is alice's in the security category. *)
Definition statWorld : World :=
  exampleWorld (withSkillStats emptyDb (<["alice_security" := exampleStat 5 4]> ∅)).

(** The order in which Firestore lists documents by an instant stored as
    the plain object with the fields seconds and nanoseconds, descending:
    by the nanoseconds, then by the seconds, then by the document id. *)
Definition storedBefore (a b : Timestamp * string) : Prop :=
  (nanoseconds (fst b) < nanoseconds (fst a))%Z
  \/ (nanoseconds (fst a) = nanoseconds (fst b)
      /\ ((seconds (fst b) < seconds (fst a))%Z
          \/ (seconds (fst a) = seconds (fst b)
              /\ String.compare (snd a) (snd b) <> Lt))).

Definition storedDescending {A} (key : A -> Timestamp * string) (l : list A) : Prop :=
  Sorted (fun a b => storedBefore (key a) (key b)) l.

(** Two answers of alice: the first given at second 1,700,000,000 and
    900 ms, the second 500 seconds later at 100 ms. *)
Definition earlierAnswer : Answer.t :=
  Answer.mk "answer-1" "quiz-1" "alice" "github_acme_shop_7" 2 true
    "security" medium (mkTimestamp 1700000000 900000000).

Definition laterAnswer : Answer.t :=
  Answer.mk "answer-2" "quiz-2" "alice" "github_acme_shop_7" 1 false
    "logic" medium (mkTimestamp 1700000500 100000000).

Definition twoAnswersWorld : World :=
  exampleWorld (withAnswers emptyDb [earlierAnswer; laterAnswer]).

(** The milestones of a user among the stored ones. *)
Definition milestonesOfUser (accountId : string) (l : list GrowthMilestone.t)
  : list GrowthMilestone.t :=
  List.filter (fun m => bool_decide (GrowthMilestone.accountId m = accountId)) l.

(** A call of [updateSkillStats] for a category of the schema. *)
Definition schemaCall (input : UpdateSkillStatsInput.t) : Prop :=
  validCategory (UpdateSkillStatsInput.category input).

(** The stat [final] comes from the stat [prior] by one update per
    outcome. *)
Fixpoint tracks (prior : option SkillStats.t)
  (outcomes : list (Difficulty * bool)) (final : option SkillStats.t) : Prop :=
  match outcomes with
  | [] => final = prior
  | (difficulty, isCorrect) :: rest =>
      exists s, statAfter prior difficulty isCorrect s /\ tracks (Some s) rest final
  end.

(** Twelve answers with the difficulties 3, 3, 3, 2, 2, 3, 3, 1, 2, 1, 2,
    2, whose mean is 2.25. *)
Definition twelveAnswers : list (Difficulty * bool) :=
  [(hard, true); (hard, true); (hard, false); (medium, true);
   (medium, true); (hard, false); (hard, true); (easy, true);
   (medium, false); (easy, true); (medium, true); (medium, true)].

(** Calls of one user that alternate between two categories. *)
Definition mixedCalls : list UpdateSkillStatsInput.t :=
  [UpdateSkillStatsInput.mk "alice" "security" easy true;
   UpdateSkillStatsInput.mk "alice" "logic" hard false;
   UpdateSkillStatsInput.mk "alice" "security" hard true].

(** ** Properties of [updateSkillStats] *)

Lemma N2Q_succ_pos (n : N) : (0 < N2Q (n + 1))%Q.
Proof.
  unfold N2Q. change 0%Q with (inject_Z 0). rewrite <- Zlt_Qlt. lia.
Qed.

Lemma N2Q_succ_nonzero (n : N) : ~ (N2Q (n + 1) == 0)%Q.
Proof.
  intros H. pose proof (N2Q_succ_pos n) as Hp. rewrite H in Hp.
  exact (Qlt_irrefl 0 Hp).
Qed.

(** What one call does when the document is absent. *)
Lemma updateSkillStats_create (input : UpdateSkillStatsInput.t) (w : World) :
  statOf w (UpdateSkillStatsInput.accountId input)
           (UpdateSkillStatsInput.category input) = None ->
  updateSkillStats input w =
    (Resolved tt,
     withDb (advance w)
       (withSkillStats (db w)
          (<[generateSkillStatsId (UpdateSkillStatsInput.accountId input)
                                  (UpdateSkillStatsInput.category input) :=
             SkillStats.mk
               (generateSkillStatsId (UpdateSkillStatsInput.accountId input)
                                     (UpdateSkillStatsInput.category input))
               (UpdateSkillStatsInput.accountId input)
               (UpdateSkillStatsInput.category input)
               1%N
               (boolToN (UpdateSkillStatsInput.isCorrect input))
               (if UpdateSkillStatsInput.isCorrect input then 1%Q else 0%Q)
               (difficultyMap (UpdateSkillStatsInput.difficulty input))
               (Some (clock w (tick w))) 0%Q 0%Q (clock w (tick w))]>
           (skillStatsCollection (db w))))).
Proof.
  unfold statOf. intros H.
  unfold updateSkillStats, mbind, Async_bind, readDb, Timestamp_now, writeDb.
  rewrite H. reflexivity.
Qed.

(** What one call does when the document exists. *)
Lemma updateSkillStats_update (input : UpdateSkillStatsInput.t) (w : World)
  (s : SkillStats.t) :
  statOf w (UpdateSkillStatsInput.accountId input)
           (UpdateSkillStatsInput.category input) = Some s ->
  updateSkillStats input w =
    (Resolved tt,
     withDb (advance w)
       (withSkillStats (db w)
          (<[generateSkillStatsId (UpdateSkillStatsInput.accountId input)
                                  (UpdateSkillStatsInput.category input) :=
             SkillStats.mk
               (SkillStats.statId s) (SkillStats.accountId s) (SkillStats.category s)
               (SkillStats.totalQuizzes s + 1)%N
               (SkillStats.correctCount s
                + boolToN (UpdateSkillStatsInput.isCorrect input))%N
               (N2Q (SkillStats.correctCount s
                     + boolToN (UpdateSkillStatsInput.isCorrect input))
                / N2Q (SkillStats.totalQuizzes s + 1))%Q
               (Number_div
                  (Number_add
                     (Number_mul (SkillStats.averageDifficulty s)
                                 (N2Q (SkillStats.totalQuizzes s)))
                     (difficultyMap (UpdateSkillStatsInput.difficulty input)))
                  (N2Q (SkillStats.totalQuizzes s + 1)))
               (Some (clock w (tick w)))
               (SkillStats.weeklyTrend s) (SkillStats.monthlyTrend s)
               (clock w (tick w))]>
           (skillStatsCollection (db w))))).
Proof.
  unfold statOf. intros H.
  unfold updateSkillStats, mbind, Async_bind, readDb, Timestamp_now, writeDb.
  rewrite H. reflexivity.
Qed.

Lemma updateSkillStats_step (input : UpdateSkillStatsInput.t) (w : World) :
  exists w' s',
    updateSkillStats input w = (Resolved tt, w')
    /\ statOf w' (UpdateSkillStatsInput.accountId input)
                 (UpdateSkillStatsInput.category input) = Some s'
    /\ statAfter (statOf w (UpdateSkillStatsInput.accountId input)
                           (UpdateSkillStatsInput.category input))
                 (UpdateSkillStatsInput.difficulty input)
                 (UpdateSkillStatsInput.isCorrect input) s'.
Proof.
  destruct (statOf w (UpdateSkillStatsInput.accountId input)
                     (UpdateSkillStatsInput.category input)) as [s|] eqn:E.
  - eexists _, _. split; [apply (updateSkillStats_update _ _ _ E)|].
    split; [unfold statOf; cbn; apply lookup_insert_eq|].
    cbn. repeat split; reflexivity.
  - eexists _, _. split; [apply (updateSkillStats_create _ _ E)|].
    split; [unfold statOf; cbn; apply lookup_insert_eq|].
    cbn. repeat split; try reflexivity.
    destruct (UpdateSkillStatsInput.isCorrect input); reflexivity.
Qed.

Lemma correctAnswers_cons (d : Difficulty) (b : bool) (l : list (Difficulty * bool)) :
  correctAnswers ((d, b) :: l) = (boolToN b + correctAnswers l)%N.
Proof.
  unfold correctAnswers. rewrite filter_cons. cbn [snd].
  destruct b; case_decide; try congruence; cbn [length boolToN]; lia.
Qed.

Lemma correctAnswers_le_length (l : list (Difficulty * bool)) :
  (correctAnswers l <= N.of_nat (length l))%N.
Proof.
  unfold correctAnswers. pose proof (length_filter (fun o => snd o = true) l). lia.
Qed.

Lemma Qsum_difficultyValues_cons (d : Difficulty) (b : bool)
  (l : list (Difficulty * bool)) :
  Qsum (difficultyValues ((d, b) :: l)) =
  (difficultyMap d + Qsum (difficultyValues l))%Q.
Proof. reflexivity. Qed.

Lemma difficultyValues_cons (d : Difficulty) (b : bool)
  (l : list (Difficulty * bool)) :
  difficultyValues ((d, b) :: l) = difficultyMap d :: difficultyValues l.
Proof. reflexivity. Qed.

Section OneCategory.

Variable accountId : string.
Variable category : Category.

(** Folding a run of answers into a stat that already exists. *)
Lemma updateSkillStatsSeq_existing (outcomes : list (Difficulty * bool)) :
  forall (w : World) (s : SkillStats.t),
    statOf w accountId category = Some s ->
    exists w' s',
      updateSkillStatsSeq accountId category outcomes w = (Resolved tt, w')
      /\ statOf w' accountId category = Some s'
      /\ SkillStats.totalQuizzes s' =
           (SkillStats.totalQuizzes s + N.of_nat (length outcomes))%N
      /\ SkillStats.correctCount s' =
           (SkillStats.correctCount s + correctAnswers outcomes)%N
      /\ (outcomes <> [] ->
            (SkillStats.correctRate s' ==
               N2Q (SkillStats.correctCount s') / N2Q (SkillStats.totalQuizzes s'))%Q)
      /\ SkillStats.averageDifficulty s' =
           averageFold (SkillStats.averageDifficulty s) (SkillStats.totalQuizzes s)
                       (difficultyValues outcomes).
Proof.
  induction outcomes as [|[d b] rest IH]; intros w s Hs.
  - exists w, s. cbn. repeat split; try done.
    + lia.
    + unfold correctAnswers. cbn. lia.
  - destruct (updateSkillStats_step
                (UpdateSkillStatsInput.mk accountId category d b) w)
      as (w1 & s1 & Hrun & Hs1 & Hafter).
    cbn in Hs1, Hafter. rewrite Hs in Hafter.
    destruct Hafter as (Ht1 & Hc1 & Hr1 & Ha1).
    destruct (IH w1 s1 Hs1) as (w' & s' & Hrun' & Hs' & Ht' & Hc' & Hr' & Ha').
    exists w', s'. split.
    { cbn [updateSkillStatsSeq]. unfold mbind, Async_bind at 1.
      rewrite Hrun. exact Hrun'. }
    split; [exact Hs'|].
    split; [rewrite Ht', Ht1; cbn [length]; lia|].
    split; [rewrite Hc', Hc1, correctAnswers_cons; lia|].
    split.
    { intros _. destruct rest as [|o rest'].
      - destruct (IH w1 s1 Hs1) as (w2 & s2 & Hrun2 & _).
        cbn in Hrun', Hrun2. injection Hrun' as <-.
        rewrite Hs1 in Hs'. injection Hs' as <-. exact Hr1.
      - apply Hr'. discriminate. }
    rewrite Ha', Ha1, Ht1, difficultyValues_cons. reflexivity.
Qed.

(** Folding a non-empty run of answers into a pair that has no stat yet. *)
Lemma updateSkillStatsSeq_fresh (d : Difficulty) (b : bool)
  (rest : list (Difficulty * bool)) (w : World) :
  statOf w accountId category = None ->
  exists w' s',
    updateSkillStatsSeq accountId category ((d, b) :: rest) w = (Resolved tt, w')
    /\ statOf w' accountId category = Some s'
    /\ SkillStats.totalQuizzes s' = N.of_nat (length ((d, b) :: rest))
    /\ SkillStats.correctCount s' = correctAnswers ((d, b) :: rest)
    /\ (SkillStats.correctRate s' ==
          N2Q (SkillStats.correctCount s') / N2Q (SkillStats.totalQuizzes s'))%Q
    /\ SkillStats.averageDifficulty s' =
         averageFold (difficultyMap d) 1 (difficultyValues rest).
Proof.
  intros Hnone.
  destruct (updateSkillStats_step
              (UpdateSkillStatsInput.mk accountId category d b) w)
    as (w1 & s1 & Hrun & Hs1 & Hafter).
  cbn in Hs1, Hafter. rewrite Hnone in Hafter.
  destruct Hafter as (Ht1 & Hc1 & Hr1 & Ha1).
  destruct (updateSkillStatsSeq_existing rest w1 s1 Hs1)
    as (w' & s' & Hrun' & Hs' & Ht' & Hc' & Hr' & Ha').
  assert (Htot : SkillStats.totalQuizzes s' = N.of_nat (length ((d, b) :: rest))).
  { rewrite Ht', Ht1. cbn [length]. lia. }
  exists w', s'. split.
  { cbn [updateSkillStatsSeq]. unfold mbind, Async_bind at 1.
    rewrite Hrun. exact Hrun'. }
  split; [exact Hs'|]. split; [exact Htot|].
  split; [rewrite Hc', Hc1, correctAnswers_cons; reflexivity|].
  split.
  { destruct rest as [|o rest'].
    - cbn in Hrun'. injection Hrun' as <-.
      rewrite Hs1 in Hs'. injection Hs' as <-.
      rewrite Hr1, Ht1. change (N2Q 1) with 1%Q. field.
    - apply Hr'. discriminate. }
  rewrite Ha', Ha1, Ht1. reflexivity.
Qed.

End OneCategory.

(** Folding a sequence is folding a first part and then the rest. *)
Lemma updateSkillStatsSeq_app accountId category pre post :
  forall w w1,
    updateSkillStatsSeq accountId category pre w = (Resolved tt, w1) ->
    updateSkillStatsSeq accountId category (pre ++ post) w =
    updateSkillStatsSeq accountId category post w1.
Proof.
  induction pre as [|[d b] pre IH]; intros w w1 Hpre.
  - cbn in Hpre. injection Hpre as <-. reflexivity.
  - cbn [updateSkillStatsSeq app] in *. unfold mbind in *.
    unfold Async_bind in Hpre at 1. unfold Async_bind at 1.
    destruct (updateSkillStats
                (UpdateSkillStatsInput.mk accountId category d b) w)
      as [[[]|e] w0]; [|discriminate Hpre].
    apply IH. exact Hpre.
Qed.

Lemma updateSkillStatsSeq_invariant accountId category outcomes w :
  outcomes <> [] ->
  (forall s, statOf w accountId category = Some s ->
             (SkillStats.correctCount s <= SkillStats.totalQuizzes s)%N) ->
  exists w' s',
    updateSkillStatsSeq accountId category outcomes w = (Resolved tt, w')
    /\ statOf w' accountId category = Some s'
    /\ (SkillStats.correctCount s' <= SkillStats.totalQuizzes s')%N
    /\ (SkillStats.correctRate s' ==
          N2Q (SkillStats.correctCount s') / N2Q (SkillStats.totalQuizzes s'))%Q.
Proof.
  intros Hne Hinv.
  destruct (statOf w accountId category) as [s|] eqn:Hs.
  - destruct (updateSkillStatsSeq_existing accountId category outcomes w s Hs)
      as (w' & s' & Hrun & Hs' & Ht & Hc & Hr & _).
    exists w', s'. split; [exact Hrun|]. split; [exact Hs'|]. split.
    + rewrite Hc, Ht. specialize (Hinv s eq_refl).
      pose proof (correctAnswers_le_length outcomes). lia.
    + exact (Hr Hne).
  - destruct outcomes as [|[d b] rest]; [congruence|].
    destruct (updateSkillStatsSeq_fresh accountId category d b rest w Hs)
      as (w' & s' & Hrun & Hs' & Ht & Hc & Hr & _).
    exists w', s'. split; [exact Hrun|]. split; [exact Hs'|]. split.
    + rewrite Hc, Ht. apply correctAnswers_le_length.
    + exact Hr.
Qed.

(** C2.  Fold a sequence of answers into the stat of a (user, category)
    pair that has no stat, or a stat with [correctCount <= totalQuizzes].
    After every update, that is after the first [k] answers for every
    [k] from 1 to the length of the sequence, the run so far has
    resolved, the run of the whole sequence goes on from there, and the
    stat has [correctCount <= totalQuizzes] and, whenever
    [totalQuizzes > 0], [correctRate = correctCount / totalQuizzes]. *)
Theorem updateSkillStats_correct_le_total
  (accountId : string) (category : Category)
  (outcomes : list (Difficulty * bool)) (w : World) (k : nat) :
  (forall s, statOf w accountId category = Some s ->
             (SkillStats.correctCount s <= SkillStats.totalQuizzes s)%N) ->
  (1 <= k <= length outcomes)%nat ->
  exists wk sk,
    updateSkillStatsSeq accountId category (firstn k outcomes) w = (Resolved tt, wk)
    /\ updateSkillStatsSeq accountId category outcomes w =
       updateSkillStatsSeq accountId category (skipn k outcomes) wk
    /\ statOf wk accountId category = Some sk
    /\ (SkillStats.correctCount sk <= SkillStats.totalQuizzes sk)%N
    /\ ((0 < SkillStats.totalQuizzes sk)%N ->
        (SkillStats.correctRate sk ==
           N2Q (SkillStats.correctCount sk) / N2Q (SkillStats.totalQuizzes sk))%Q).
Proof.
  intros Hinv Hk.
  assert (Hne : firstn k outcomes <> []).
  { destruct outcomes as [|o rest]; [cbn in Hk; lia|].
    destruct k as [|k]; [lia|]. discriminate. }
  destruct (updateSkillStatsSeq_invariant accountId category _ w Hne Hinv)
    as (wk & sk & Hrun & Hs & Hle & Hrate).
  exists wk, sk. split; [exact Hrun|]. split.
  - rewrite <- (firstn_skipn k outcomes) at 1.
    apply updateSkillStatsSeq_app. exact Hrun.
  - split; [exact Hs|]. split; [exact Hle|]. intros _. exact Hrate.
Qed.

(** Three answers in a new category, looked at after the second. *)
Lemma updateSkillStats_correct_le_total_witness :
  exists wk sk,
    updateSkillStatsSeq "alice" "logic" [(medium, true); (medium, false)]
      (exampleWorld emptyDb) = (Resolved tt, wk)
    /\ statOf wk "alice" "logic" = Some sk
    /\ (SkillStats.correctCount sk <= SkillStats.totalQuizzes sk)%N
    /\ (SkillStats.correctRate sk ==
          N2Q (SkillStats.correctCount sk) / N2Q (SkillStats.totalQuizzes sk))%Q
    /\ SkillStats.totalQuizzes sk = 2%N.
Proof.
  destruct (updateSkillStats_correct_le_total "alice" "logic"
              [(medium, true); (medium, false); (hard, true)]
              (exampleWorld emptyDb) 2)
    as (wk & sk & Hrun & _ & Hs & Hle & Hrate).
  - intros s Hs. vm_compute in Hs. discriminate Hs.
  - cbn. lia.
  - exists wk, sk. split; [exact Hrun|]. split; [exact Hs|].
    split; [exact Hle|].
    cbn [firstn] in Hrun. vm_compute in Hrun. injection Hrun as <-.
    vm_compute in Hs. injection Hs as <-.
    split; [vm_compute; reflexivity|reflexivity].
Defined.

(** ** What a computation leaves alone *)

Lemma keeps_mret {A X} (f : Db -> X) (a : A) : keeps f (mret a).
Proof. intros w. reflexivity. Qed.

Lemma keeps_throw {A X} (f : Db -> X) (e : string) : keeps f (@throw A e).
Proof. intros w. reflexivity. Qed.

Lemma keeps_readDb {A X} (f : Db -> X) (g : Db -> A) : keeps f (readDb g).
Proof. intros w. reflexivity. Qed.

Lemma keeps_Timestamp_now {X} (f : Db -> X) : keeps f Timestamp_now.
Proof. intros w. reflexivity. Qed.

Lemma keeps_uuidv4 {X} (f : Db -> X) : keeps f uuidv4.
Proof. intros w. reflexivity. Qed.

Lemma keeps_orThrow {A X} (f : Db -> X) (e : string) (g : World -> option A) :
  keeps f (orThrow e g).
Proof. intros w. unfold orThrow. destruct (g w); reflexivity. Qed.

Lemma keeps_writeDb {X} (f : Db -> X) (g : Db -> Db) :
  (forall d, f (g d) = f d) -> keeps f (writeDb g).
Proof. intros H w. cbn. apply H. Qed.

Lemma keeps_bind {A B X} (f : Db -> X) (m : Async A) (k : A -> Async B) :
  keeps f m -> (forall a, keeps f (k a)) -> keeps f (m ≫= k).
Proof.
  intros Hm Hk w. unfold mbind, Async_bind.
  specialize (Hm w). destruct (m w) as [[a|e] w1]; cbn in *.
  - rewrite (Hk a w1). exact Hm.
  - exact Hm.
Qed.

Create HintDb keeps discriminated.
#[export] Hint Resolve keeps_mret keeps_throw keeps_readDb keeps_Timestamp_now
  keeps_uuidv4 keeps_orThrow : keeps.

Ltac keeps_step :=
  first
    [ solve [auto with keeps]
    | apply keeps_writeDb; intros ?; reflexivity
    | apply keeps_bind; [|intros ?]
    | match goal with
      | |- keeps _ (match ?x with _ => _ end) => destruct x
      end ].

Ltac keeps_tac := repeat keeps_step.

Lemma createAnswer_keeps_milestones input quiz :
  keeps growthMilestonesCollection (createAnswer input quiz).
Proof. unfold createAnswer. keeps_tac. Qed.

Lemma updateUserStats_keeps_milestones accountId isCorrect :
  keeps growthMilestonesCollection (updateUserStats accountId isCorrect).
Proof. unfold updateUserStats. keeps_tac. Qed.

Lemma updateSkillStats_keeps_milestones input :
  keeps growthMilestonesCollection (updateSkillStats input).
Proof. unfold updateSkillStats. keeps_tac. Qed.

Lemma calculateAndSaveTeamAnalytics_keeps_milestones period level category :
  keeps growthMilestonesCollection
        (calculateAndSaveTeamAnalytics period level category).
Proof.
  unfold calculateAndSaveTeamAnalytics. keeps_tac.
Qed.

Lemma handleAnswerCommand_keeps_milestones `{MessageTemplates}
  accountId quiz answerIndex :
  keeps growthMilestonesCollection (handleAnswerCommand accountId quiz answerIndex).
Proof.
  unfold handleAnswerCommand, getAnswersByUser, getSkillStatsByUser,
    formatCorrectAnswerMessage, formatIncorrectAnswerMessage, getUserProfile.
  apply keeps_bind; [keeps_tac|intros existingAnswers].
  destruct (List.find _ existingAnswers).
  - keeps_tac.
  - apply keeps_bind; [apply createAnswer_keeps_milestones|intros answer].
    apply keeps_bind; [apply updateUserStats_keeps_milestones|intros _].
    apply keeps_bind; [apply updateSkillStats_keeps_milestones|intros _].
    keeps_tac.
Qed.

(** ** The milestone check *)

Lemma forEach_createGrowthMilestone (inputs : list CreateGrowthMilestoneInput.t) :
  forall w,
    forEach (fun milestone => createGrowthMilestone milestone;; mret tt) inputs w =
    (Resolved tt,
     mkWorld
       (withGrowthMilestones (db w)
          (growthMilestonesCollection (db w)
           ++ milestonesOf (uuids w) (clock w) (tick w) inputs))
       (tick w + 2 * length inputs) (clock w) (uuids w) (LocalTZA w) (StringToNumber w)).
Proof.
  induction inputs as [|input rest IH]; intros w.
  - cbn. rewrite app_nil_r, Nat.add_0_r. destruct w as [[] ? ? ? ?]. reflexivity.
  - cbn [forEach]. unfold mbind at 1, Async_bind at 1.
    unfold createGrowthMilestone, mbind, Async_bind, uuidv4, Timestamp_now,
      writeDb, mret, Async_ret.
    cbn -[forEach milestonesOf Nat.mul].
    change (forEach ?f rest ?w1) with (forEach f rest w1).
    match goal with
    | |- forEach ?f rest ?w1 = _ => pose proof (IH w1) as IH1
    end.
    cbn -[forEach milestonesOf Nat.mul] in IH1.
    etransitivity; [exact IH1|].
    cbn [milestonesOf]. rewrite <- app_assoc. cbn [app length].
    f_equal. f_equal. lia.
Qed.

Lemma checkAndCreateMilestones_candidates accountId answer user skillStats w :
  checkAndCreateMilestones accountId answer user skillStats w =
  forEach (fun milestone => createGrowthMilestone milestone;; mret tt)
          (milestoneCandidates accountId answer user skillStats (db w)) w.
Proof.
  unfold checkAndCreateMilestones, milestoneCandidates.
  unfold mbind at 1, Async_bind at 1.
  destruct skillStats as [s|].
  - destruct (Qle_bool 0.8 (SkillStats.correctRate s)
              && (5 <=? SkillStats.totalQuizzes s)%N) eqn:Hq.
    + unfold mbind at 1, Async_bind at 1, readDb at 1. cbn [andb].
      destruct (isEmpty (categoryMasterQuery accountId (Answer.category answer) (db w)));
        destruct (Answer.isCorrect answer && (User.correctCount user =? 1)%N);
        destruct (includes totalMilestones (User.totalQuizzes user));
        reflexivity.
    + cbn [andb].
      destruct (Answer.isCorrect answer && (User.correctCount user =? 1)%N);
        destruct (includes totalMilestones (User.totalQuizzes user));
        reflexivity.
  - destruct (Answer.isCorrect answer && (User.correctCount user =? 1)%N);
      destruct (includes totalMilestones (User.totalQuizzes user));
      reflexivity.
Qed.

(** One check resolves and appends the documents of its candidates. *)
Lemma checkAndCreateMilestones_run accountId answer user skillStats w :
  exists w',
    checkAndCreateMilestones accountId answer user skillStats w = (Resolved tt, w')
    /\ growthMilestonesCollection (db w') =
       (growthMilestonesCollection (db w)
        ++ createdBy accountId answer user skillStats w)%list
    /\ usersCollection (db w') = usersCollection (db w)
    /\ answersCollection (db w') = answersCollection (db w)
    /\ skillStatsCollection (db w') = skillStatsCollection (db w).
Proof.
  rewrite checkAndCreateMilestones_candidates, forEach_createGrowthMilestone.
  eexists. split; [reflexivity|]. cbn. auto.
Qed.

Lemma milestonesOf_emits ids times (T : MilestoneType) inputs :
  forall n,
    (exists m, In m (milestonesOf ids times n inputs) /\ GrowthMilestone.type m = T)
    <-> (exists i, In i inputs /\ CreateGrowthMilestoneInput.type i = T).
Proof.
  induction inputs as [|input rest IH]; intros n; cbn [milestonesOf].
  - split; intros (x & [] & _).
  - split.
    + intros (m & [<-|Hin] & HT).
      * exists input. split; [left; reflexivity|exact HT].
      * destruct (proj1 (IH _) (ex_intro _ m (conj Hin HT))) as (i & Hi & HiT).
        exists i. split; [right; exact Hi|exact HiT].
    + intros (i & [<-|Hin] & HT).
      * eexists. split; [left; reflexivity|exact HT].
      * destruct (proj2 (IH (S (S n))) (ex_intro _ i (conj Hin HT)))
          as (m & Hm & HmT).
        exists m. split; [right; exact Hm|exact HmT].
Qed.

Lemma milestonesOf_source ids times inputs :
  forall n m,
    In m (milestonesOf ids times n inputs) ->
    exists i, In i inputs
      /\ GrowthMilestone.accountId m = CreateGrowthMilestoneInput.accountId i
      /\ GrowthMilestone.type m = CreateGrowthMilestoneInput.type i
      /\ GrowthMilestone.category m = CreateGrowthMilestoneInput.category i
      /\ GrowthMilestone.achievement m = CreateGrowthMilestoneInput.achievement i
      /\ GrowthMilestone.metadata m = CreateGrowthMilestoneInput.metadata i.
Proof.
  induction inputs as [|input rest IH]; intros n m; cbn [milestonesOf].
  - intros [].
  - intros [<-|Hin].
    + exists input. cbn. auto 7.
    + destruct (IH _ _ Hin) as (i & Hi & Hrest).
      exists i. split; [right; exact Hi|exact Hrest].
Qed.

Lemma milestonesOf_filter ids times accountId category inputs :
  forall n,
    length (List.filter (isCategoryMasterOf accountId category)
                        (milestonesOf ids times n inputs)) =
    length (List.filter (isCategoryMasterCandidateOf accountId category) inputs).
Proof.
  induction inputs as [|input rest IH]; intros n; cbn [milestonesOf List.filter].
  - reflexivity.
  - unfold isCategoryMasterOf at 1, isCategoryMasterCandidateOf at 1. cbn.
    destruct (_ && _ && _); cbn [length]; rewrite IH; reflexivity.
Qed.

Lemma isEmpty_nil {A} (l : list A) : isEmpty l = true <-> l = [].
Proof. destruct l; cbn; split; congruence. Qed.

(** The query finds nothing exactly when no category-master milestone of
    the pair is stored. *)
Lemma categoryMasterQuery_nil accountId category d :
  categoryMasterQuery accountId category d = [] <->
  ~ exists m, In m (growthMilestonesCollection d)
      /\ GrowthMilestone.accountId m = accountId
      /\ GrowthMilestone.type m = category_master
      /\ GrowthMilestone.category m = Some category.
Proof.
  unfold categoryMasterQuery. split.
  - intros Hnil (m & Hin & Ha & Ht & Hc).
    assert (Hm : In m (List.filter (isCategoryMasterOf accountId category)
                                   (growthMilestonesCollection d))).
    { apply filter_In. split; [exact Hin|].
      unfold isCategoryMasterOf.
      rewrite !bool_decide_eq_true_2 by assumption. reflexivity. }
    rewrite Hnil in Hm. exact Hm.
  - intros Hno.
    destruct (List.filter _ _) as [|m l] eqn:E; [reflexivity|].
    exfalso. apply Hno. exists m.
    assert (Hm : In m (List.filter (isCategoryMasterOf accountId category)
                                   (growthMilestonesCollection d)))
      by (rewrite E; left; reflexivity).
    apply filter_In in Hm. destruct Hm as [Hin Hp].
    unfold isCategoryMasterOf in Hp.
    apply andb_prop in Hp. destruct Hp as [Hp Hc].
    apply andb_prop in Hp. destruct Hp as [Ha Ht].
    apply bool_decide_eq_true_1 in Ha, Ht, Hc. auto.
Qed.

(** Which candidates are category-master candidates. *)
Lemma milestoneCandidates_master accountId answer user skillStats d :
  (exists i, In i (milestoneCandidates accountId answer user skillStats d)
     /\ CreateGrowthMilestoneInput.type i = category_master)
  <-> (exists s, skillStats = Some s
         /\ Qle_bool 0.8 (SkillStats.correctRate s) = true
         /\ (5 <=? SkillStats.totalQuizzes s)%N = true)
      /\ isEmpty (categoryMasterQuery accountId (Answer.category answer) d) = true.
Proof.
  unfold milestoneCandidates. split.
  - intros (i & Hin & HT).
    apply in_app_or in Hin. destruct Hin as [Hin|Hin].
    { destruct (_ && _); [|destruct Hin].
      destruct Hin as [<-|[]]. discriminate HT. }
    apply in_app_or in Hin. destruct Hin as [Hin|Hin].
    + destruct skillStats as [s|]; [|destruct Hin].
      destruct (Qle_bool 0.8 (SkillStats.correctRate s)) eqn:Hq;
        destruct (5 <=? SkillStats.totalQuizzes s)%N eqn:Ht;
        destruct (isEmpty _) eqn:He; cbn in Hin; try contradiction.
      split; [exists s; auto|reflexivity].
    + destruct (includes _ _); [|destruct Hin].
      destruct Hin as [<-|[]]. discriminate HT.
  - intros ((s & -> & Hq & Ht) & He).
    exists (categoryMasterCandidate accountId answer s).
    split; [|reflexivity].
    apply in_or_app. right. apply in_or_app. left.
    rewrite Hq, Ht, He. left. reflexivity.
Qed.

(** A category-master candidate is for the checked user and the answer's
    category. *)
Lemma milestoneCandidates_master_key accountId answer user skillStats d i :
  In i (milestoneCandidates accountId answer user skillStats d) ->
  CreateGrowthMilestoneInput.type i = category_master ->
  CreateGrowthMilestoneInput.accountId i = accountId
  /\ CreateGrowthMilestoneInput.category i = Some (Answer.category answer).
Proof.
  unfold milestoneCandidates. intros Hin HT.
  apply in_app_or in Hin. destruct Hin as [Hin|Hin].
  { destruct (_ && _); [|destruct Hin].
    destruct Hin as [<-|[]]. discriminate HT. }
  apply in_app_or in Hin. destruct Hin as [Hin|Hin].
  - destruct skillStats as [s|]; [|destruct Hin].
    destruct (_ && _ && _); [|destruct Hin].
    destruct Hin as [<-|[]]. split; reflexivity.
  - destruct (includes _ _); [|destruct Hin].
    destruct Hin as [<-|[]]. discriminate HT.
Qed.

Lemma firstCorrectCandidate_not_master a c accountId answer :
  isCategoryMasterCandidateOf a c (firstCorrectCandidate accountId answer) = false.
Proof.
  unfold isCategoryMasterCandidateOf. cbn.
  rewrite andb_false_r. reflexivity.
Qed.

Lemma totalMilestoneCandidate_not_master a c accountId user :
  isCategoryMasterCandidateOf a c (totalMilestoneCandidate accountId user) = false.
Proof.
  unfold isCategoryMasterCandidateOf. cbn.
  rewrite andb_false_r. reflexivity.
Qed.

Lemma categoryMasterCandidate_master a c accountId answer s :
  isCategoryMasterCandidateOf a c (categoryMasterCandidate accountId answer s) = true ->
  accountId = a /\ Answer.category answer = c.
Proof.
  unfold isCategoryMasterCandidateOf. cbn. intros Hp.
  apply andb_prop in Hp. destruct Hp as [Hp Hc].
  apply andb_prop in Hp. destruct Hp as [Ha _].
  apply bool_decide_eq_true_1 in Ha, Hc. split; congruence.
Qed.

(** The candidates of one check add at most one category-master entry for
    a pair, and none when the pair already has one. *)
Lemma milestoneCandidates_at_most_one a c accountId answer user skillStats d :
  (length (categoryMasterQuery a c d) <= 1)%nat ->
  (length (categoryMasterQuery a c d)
   + length (List.filter (isCategoryMasterCandidateOf a c)
               (milestoneCandidates accountId answer user skillStats d)) <= 1)%nat.
Proof.
  intros Hold. unfold milestoneCandidates.
  rewrite !List.filter_app, !length_app.
  assert (HA : length (List.filter (isCategoryMasterCandidateOf a c)
             (if Answer.isCorrect answer && (User.correctCount user =? 1)%N
              then [firstCorrectCandidate accountId answer] else [])) = 0%nat).
  { destruct (_ && _); cbn [List.filter]; [|reflexivity].
    rewrite firstCorrectCandidate_not_master. reflexivity. }
  assert (HC : length (List.filter (isCategoryMasterCandidateOf a c)
             (if includes totalMilestones (User.totalQuizzes user)
              then [totalMilestoneCandidate accountId user] else [])) = 0%nat).
  { destruct (includes _ _); cbn [List.filter]; [|reflexivity].
    rewrite totalMilestoneCandidate_not_master. reflexivity. }
  rewrite HA, HC.
  destruct skillStats as [s|]; [|cbn; lia].
  destruct (Qle_bool 0.8 (SkillStats.correctRate s)
            && (5 <=? SkillStats.totalQuizzes s)%N); cbn [andb]; [|cbn; lia].
  destruct (isEmpty (categoryMasterQuery accountId (Answer.category answer) d))
    eqn:He; [|cbn; lia].
  cbn [List.filter].
  destruct (isCategoryMasterCandidateOf a c
              (categoryMasterCandidate accountId answer s)) eqn:Hm; [|cbn; lia].
  apply categoryMasterCandidate_master in Hm. destruct Hm as [<- <-].
  apply isEmpty_nil in He. rewrite He. cbn. lia.
Qed.

Lemma checkAndCreateMilestones_at_most_once accountId answer user skillStats w :
  atMostOneCategoryMaster (db w) ->
  atMostOneCategoryMaster
    (db (snd (checkAndCreateMilestones accountId answer user skillStats w))).
Proof.
  intros Hinv a c.
  destruct (checkAndCreateMilestones_run accountId answer user skillStats w)
    as (w' & Hrun & Hms & _).
  rewrite Hrun. cbn [snd]. unfold categoryMasterQuery. rewrite Hms.
  rewrite List.filter_app, length_app. unfold createdBy.
  rewrite milestonesOf_filter.
  apply milestoneCandidates_at_most_one. apply Hinv.
Qed.

Lemma atMostOneCategoryMaster_keeps d d' :
  growthMilestonesCollection d' = growthMilestonesCollection d ->
  atMostOneCategoryMaster d -> atMostOneCategoryMaster d'.
Proof.
  intros Heq Hinv a c. unfold categoryMasterQuery. rewrite Heq. apply Hinv.
Qed.

Lemma runCall_at_most_once `{MessageTemplates} (c : Call) (w : World) :
  atMostOneCategoryMaster (db w) -> atMostOneCategoryMaster (db (runCall c w)).
Proof.
  intros Hinv. destruct c; cbn [runCall].
  - eapply atMostOneCategoryMaster_keeps; [|exact Hinv].
    apply createAnswer_keeps_milestones.
  - eapply atMostOneCategoryMaster_keeps; [|exact Hinv].
    apply updateUserStats_keeps_milestones.
  - eapply atMostOneCategoryMaster_keeps; [|exact Hinv].
    apply updateSkillStats_keeps_milestones.
  - apply checkAndCreateMilestones_at_most_once. exact Hinv.
  - eapply atMostOneCategoryMaster_keeps; [|exact Hinv].
    apply calculateAndSaveTeamAnalytics_keeps_milestones.
  - eapply atMostOneCategoryMaster_keeps; [|exact Hinv].
    apply handleAnswerCommand_keeps_milestones.
Qed.

Lemma runCalls_at_most_once `{MessageTemplates} (calls : list Call) :
  forall w,
    atMostOneCategoryMaster (db w) ->
    atMostOneCategoryMaster (db (runCalls calls w)).
Proof.
  induction calls as [|c calls IH]; intros w Hinv; cbn.
  - exact Hinv.
  - apply IH. apply runCall_at_most_once. exact Hinv.
Qed.

(** C3.  One milestone check resolves and appends the milestones it
    creates.  A category-master milestone is among them if and only if a
    stat was passed whose [correctRate] is at least 0.8 and whose
    [totalQuizzes] is at least 5, and no category-master milestone of the
    checked user for the answer's category is stored yet; such a milestone
    is for that user and that category.  Hence, starting from a database
    with at most one category-master milestone per (user, category) (the
    empty one in particular), every sequence of calls run one after the
    other leaves at most one per (user, category). *)
Theorem category_master_iff_and_at_most_once `{MessageTemplates} :
  (forall accountId answer user skillStats w,
     exists w' created,
       checkAndCreateMilestones accountId answer user skillStats w
         = (Resolved tt, w')
       /\ growthMilestonesCollection (db w') =
          (growthMilestonesCollection (db w) ++ created)%list
       /\ ((exists m, In m created /\ GrowthMilestone.type m = category_master)
           <->
           (exists s, skillStats = Some s
              /\ (0.8 <= SkillStats.correctRate s)%Q
              /\ (5 <= SkillStats.totalQuizzes s)%N)
           /\ ~ (exists m0, In m0 (growthMilestonesCollection (db w))
                   /\ GrowthMilestone.accountId m0 = accountId
                   /\ GrowthMilestone.type m0 = category_master
                   /\ GrowthMilestone.category m0 = Some (Answer.category answer)))
       /\ (forall m, In m created ->
             GrowthMilestone.type m = category_master ->
             GrowthMilestone.accountId m = accountId
             /\ GrowthMilestone.category m = Some (Answer.category answer)))
  /\ atMostOneCategoryMaster emptyDb
  /\ (forall calls w,
        atMostOneCategoryMaster (db w) ->
        atMostOneCategoryMaster (db (runCalls calls w))).
Proof.
  split; [|split].
  - intros accountId answer user skillStats w.
    destruct (checkAndCreateMilestones_run accountId answer user skillStats w)
      as (w' & Hrun & Hms & _).
    exists w', (createdBy accountId answer user skillStats w).
    split; [exact Hrun|]. split; [exact Hms|]. split.
    + unfold createdBy. rewrite milestonesOf_emits, milestoneCandidates_master.
      rewrite isEmpty_nil, categoryMasterQuery_nil.
      split.
      * intros ((s & Hs & Hq & Ht) & Hno). split; [|exact Hno].
        exists s. split; [exact Hs|].
        split; [apply Qle_bool_iff; exact Hq|apply N.leb_le; exact Ht].
      * intros ((s & Hs & Hq & Ht) & Hno). split; [|exact Hno].
        exists s. split; [exact Hs|].
        split; [apply Qle_bool_iff; exact Hq|apply N.leb_le; exact Ht].
    + intros m Hin HT. unfold createdBy in Hin.
      destruct (milestonesOf_source _ _ _ _ _ Hin)
        as (i & Hi & Ha & Hty & Hc & _).
      rewrite HT in Hty. symmetry in Hty.
      destruct (milestoneCandidates_master_key _ _ _ _ _ _ Hi Hty) as [Ha' Hc'].
      split; congruence.
  - intros a c. cbn. lia.
  - intros calls w. apply runCalls_at_most_once.
Qed.

(** A stat with 4 of 5 correct in an empty database: the check creates the
    category-master milestone, and checking twice more leaves one. *)
Lemma category_master_iff_and_at_most_once_witness :
  (exists w' created,
     checkAndCreateMilestones "alice" (exampleAnswer true) (exampleUser 7 5)
       (Some (exampleStat 5 4)) (exampleWorld emptyDb) = (Resolved tt, w')
     /\ growthMilestonesCollection (db w') = created
     /\ exists m, In m created /\ GrowthMilestone.type m = category_master)
  /\ atMostOneCategoryMaster
       (db (runCalls (H := blankTemplates)
              [CallCheckAndCreateMilestones "alice" (exampleAnswer true)
                 (exampleUser 7 5) (Some (exampleStat 5 4));
               CallCheckAndCreateMilestones "alice" (exampleAnswer true)
                 (exampleUser 8 6) (Some (exampleStat 6 5));
               CallCheckAndCreateMilestones "alice" (exampleAnswer false)
                 (exampleUser 9 6) (Some (exampleStat 7 6))]
              (exampleWorld emptyDb))).
Proof.
  destruct (category_master_iff_and_at_most_once (H := blankTemplates))
    as (Hcheck & Hempty & Hcalls).
  split.
  - destruct (Hcheck "alice" (exampleAnswer true) (exampleUser 7 5)
                (Some (exampleStat 5 4)) (exampleWorld emptyDb))
      as (w' & created & Hrun & Hms & Hiff & _).
    exists w', created. split; [exact Hrun|]. split; [exact Hms|].
    apply (proj2 Hiff). split.
    + exists (exampleStat 5 4). split; [reflexivity|].
      split; [vm_compute; discriminate|vm_compute; discriminate].
    + intros (m0 & Hin & _). exact Hin.
  - apply Hcalls. exact Hempty.
Defined.

Lemma includes_totalMilestones (n : N) :
  includes totalMilestones n = true <->
  (n = 10 \/ n = 50 \/ n = 100 \/ n = 500 \/ n = 1000)%N.
Proof.
  unfold includes, totalMilestones. cbn [existsb].
  rewrite !orb_true_iff, !N.eqb_eq. intuition congruence.
Qed.

Lemma milestoneCandidates_total accountId answer user skillStats d :
  (exists i, In i (milestoneCandidates accountId answer user skillStats d)
     /\ CreateGrowthMilestoneInput.type i = total_milestone)
  <-> includes totalMilestones (User.totalQuizzes user) = true.
Proof.
  unfold milestoneCandidates. split.
  - intros (i & Hin & HT).
    apply in_app_or in Hin. destruct Hin as [Hin|Hin].
    { destruct (_ && _); [|destruct Hin].
      destruct Hin as [<-|[]]. discriminate HT. }
    apply in_app_or in Hin. destruct Hin as [Hin|Hin].
    + destruct skillStats as [s|]; [|destruct Hin].
      destruct (_ && _ && _); [|destruct Hin].
      destruct Hin as [<-|[]]. discriminate HT.
    + destruct (includes _ _); [reflexivity|destruct Hin].
  - intros Hinc. exists (totalMilestoneCandidate accountId user).
    split; [|reflexivity].
    apply in_or_app. right. apply in_or_app. right.
    rewrite Hinc. left. reflexivity.
Qed.

Lemma milestoneCandidates_total_payload accountId answer user skillStats d i :
  In i (milestoneCandidates accountId answer user skillStats d) ->
  CreateGrowthMilestoneInput.type i = total_milestone ->
  i = totalMilestoneCandidate accountId user.
Proof.
  unfold milestoneCandidates. intros Hin HT.
  apply in_app_or in Hin. destruct Hin as [Hin|Hin].
  { destruct (_ && _); [|destruct Hin].
    destruct Hin as [<-|[]]. discriminate HT. }
  apply in_app_or in Hin. destruct Hin as [Hin|Hin].
  - destruct skillStats as [s|]; [|destruct Hin].
    destruct (_ && _ && _); [|destruct Hin].
    destruct Hin as [<-|[]]. discriminate HT.
  - destruct (includes _ _); [|destruct Hin].
    destruct Hin as [<-|[]]. reflexivity.
Qed.

(** C4.  One milestone check creates a cumulative-total milestone if and
    only if the user's total answer count is exactly 10, 50, 100, 500 or
    1000, and the milestone records that total.  So a check at total 50
    creates one, and a check at 49, at 51 or at any total between two
    thresholds creates none, whatever was checked before. *)
Theorem total_milestone_iff_threshold :
  forall accountId answer user skillStats w,
    exists w' created,
      checkAndCreateMilestones accountId answer user skillStats w
        = (Resolved tt, w')
      /\ growthMilestonesCollection (db w') =
         (growthMilestonesCollection (db w) ++ created)%list
      /\ ((exists m, In m created /\ GrowthMilestone.type m = total_milestone)
          <->
          (User.totalQuizzes user = 10 \/ User.totalQuizzes user = 50
           \/ User.totalQuizzes user = 100 \/ User.totalQuizzes user = 500
           \/ User.totalQuizzes user = 1000)%N)
      /\ (forall m, In m created ->
            GrowthMilestone.type m = total_milestone ->
            GrowthMilestone.accountId m = accountId
            /\ In ("totalQuizzes", MetaNumber (N2Q (User.totalQuizzes user)))
                  (GrowthMilestone.metadata m)).
Proof.
  intros accountId answer user skillStats w.
  destruct (checkAndCreateMilestones_run accountId answer user skillStats w)
    as (w' & Hrun & Hms & _).
  exists w', (createdBy accountId answer user skillStats w).
  split; [exact Hrun|]. split; [exact Hms|]. split.
  - unfold createdBy.
    rewrite milestonesOf_emits, milestoneCandidates_total.
    apply includes_totalMilestones.
  - intros m Hin HT. unfold createdBy in Hin.
    destruct (milestonesOf_source _ _ _ _ _ Hin)
      as (i & Hi & Ha & Hty & _ & _ & Hmeta).
    rewrite HT in Hty. symmetry in Hty.
    pose proof (milestoneCandidates_total_payload _ _ _ _ _ _ Hi Hty) as ->.
    rewrite Ha, Hmeta. split; [reflexivity|left; reflexivity].
Qed.

(** The check at total 50 creates the milestone; the check at total 51
    creates none. *)
Lemma total_milestone_iff_threshold_witness :
  (exists w' created,
     checkAndCreateMilestones "alice" (exampleAnswer false) (exampleUser 50 20)
       None (exampleWorld emptyDb) = (Resolved tt, w')
     /\ growthMilestonesCollection (db w') = created
     /\ exists m, In m created /\ GrowthMilestone.type m = total_milestone)
  /\ (exists w' created,
        checkAndCreateMilestones "alice" (exampleAnswer false) (exampleUser 51 20)
          None (exampleWorld emptyDb) = (Resolved tt, w')
        /\ growthMilestonesCollection (db w') = created
        /\ ~ exists m, In m created /\ GrowthMilestone.type m = total_milestone).
Proof.
  split.
  - destruct (total_milestone_iff_threshold "alice" (exampleAnswer false)
                (exampleUser 50 20) None (exampleWorld emptyDb))
      as (w' & created & Hrun & Hms & Hiff & _).
    exists w', created. split; [exact Hrun|]. split; [exact Hms|].
    apply (proj2 Hiff). right. left. reflexivity.
  - destruct (total_milestone_iff_threshold "alice" (exampleAnswer false)
                (exampleUser 51 20) None (exampleWorld emptyDb))
      as (w' & created & Hrun & Hms & Hiff & _).
    exists w', created. split; [exact Hrun|]. split; [exact Hms|].
    intros Hex. apply (proj1 Hiff) in Hex. cbn in Hex.
    destruct Hex as [Hex|[Hex|[Hex|[Hex|Hex]]]]; discriminate Hex.
Defined.

(** ** The answer command *)

Lemma bind_resolved {A B} (m : Async A) (k : A -> Async B) w b w' :
  (m ≫= k) w = (Resolved b, w') ->
  exists a w1, m w = (Resolved a, w1) /\ k a w1 = (Resolved b, w').
Proof.
  unfold mbind, Async_bind. destruct (m w) as [[a|e] w1]; intros Hk.
  - exists a, w1. split; [reflexivity|exact Hk].
  - discriminate Hk.
Qed.

Lemma insertBy_In {A} (before : A -> A -> bool) (x y : A) (l : list A) :
  In y (insertBy before x l) <-> y = x \/ In y l.
Proof.
  induction l as [|z l IH]; cbn.
  - intuition congruence.
  - destruct (before x z); cbn; rewrite ?IH; intuition congruence.
Qed.

Lemma sortBy_In {A} (before : A -> A -> bool) (y : A) (l : list A) :
  In y (sortBy before l) <-> In y l.
Proof.
  induction l as [|x l IH]; cbn.
  - reflexivity.
  - rewrite insertBy_In, IH. intuition congruence.
Qed.

(** The answers the duplicate check looks through are the stored answers
    of the user. *)
Lemma getAnswersByUser_run accountId w :
  exists l,
    getAnswersByUser accountId w = (Resolved l, w)
    /\ forall a, In a l <->
         In a (answersCollection (db w)) /\ Answer.accountId a = accountId.
Proof.
  eexists. split; [reflexivity|]. intros a. unfold orderByDesc.
  rewrite sortBy_In, filter_In. rewrite bool_decide_eq_true. reflexivity.
Qed.

(** C10.  When the user has a stored answer to the quiz, the answer
    command resolves in the very world it started in: no answer is
    created and neither the user's totals nor any skill stat changes.
    The result carries a stored answer of that user to that quiz, its
    [isCorrect] is the stored one, [alreadyAnswered] is true and no
    milestone is reported. *)
Theorem handleAnswerCommand_already_answered `{MessageTemplates}
  (accountId : string) (quiz : Quiz.t) (answerIndex : Z) (w : World) :
  (exists a, In a (answersCollection (db w))
     /\ Answer.quizId a = Quiz.quizId quiz
     /\ Answer.accountId a = accountId) ->
  exists r,
    handleAnswerCommand accountId quiz answerIndex w = (Resolved r, w)
    /\ In (AnswerCommandResult.answer r) (answersCollection (db w))
    /\ Answer.quizId (AnswerCommandResult.answer r) = Quiz.quizId quiz
    /\ Answer.accountId (AnswerCommandResult.answer r) = accountId
    /\ AnswerCommandResult.isCorrect r =
       Answer.isCorrect (AnswerCommandResult.answer r)
    /\ AnswerCommandResult.alreadyAnswered r = Some true
    /\ AnswerCommandResult.newMilestones r = []
    /\ AnswerCommandResult.success r = true.
Proof.
  intros (a & Hin & Hq & Ha).
  destruct (getAnswersByUser_run accountId w) as (l & Hl & Hmem).
  unfold handleAnswerCommand. unfold mbind at 1, Async_bind at 1. rewrite Hl.
  destruct (List.find (fun a0 => bool_decide (Answer.quizId a0 = Quiz.quizId quiz)) l)
    as [userAnswer|] eqn:Hfind.
  - apply find_some in Hfind. destruct Hfind as [Hul Hp].
    apply bool_decide_eq_true_1 in Hp. apply Hmem in Hul. destruct Hul as [Hus Hua].
    eexists. split; [reflexivity|]. cbn. auto 8.
  - exfalso.
    pose proof (find_none _ _ Hfind a (proj2 (Hmem a) (conj Hin Ha))) as Hp.
    cbn in Hp. apply bool_decide_eq_false_1 in Hp. exact (Hp Hq).
Qed.

(** Alice answers the quiz she has answered before, now with another
    option: the world is unchanged and the stored answer comes back. *)
Lemma handleAnswerCommand_already_answered_witness :
  exists r,
    handleAnswerCommand (templates := blankTemplates) "alice" firstQuiz 0
      answeredWorld = (Resolved r, answeredWorld)
    /\ AnswerCommandResult.answer r = exampleAnswer true
    /\ AnswerCommandResult.isCorrect r = true
    /\ AnswerCommandResult.alreadyAnswered r = Some true.
Proof.
  destruct (handleAnswerCommand_already_answered (H := blankTemplates)
              "alice" firstQuiz 0 answeredWorld)
    as (r & Hrun & Hin & _ & _ & Hc & Hal & _).
  { exists (exampleAnswer true).
    split; [left; reflexivity|]. split; reflexivity. }
  exists r. split; [exact Hrun|].
  destruct Hin as [Heq|[]].
  split; [symmetry; exact Heq|]. split; [|exact Hal].
  rewrite Hc, <- Heq. reflexivity.
Defined.

(** What the handler reports and stores as milestones, whenever it
    resolves. *)
Lemma handleAnswerCommand_newMilestones_nil `{MessageTemplates}
  accountId quiz answerIndex w r w' :
  handleAnswerCommand accountId quiz answerIndex w = (Resolved r, w') ->
  AnswerCommandResult.newMilestones r = []
  /\ growthMilestonesCollection (db w') = growthMilestonesCollection (db w).
Proof.
  intros Hrun. split.
  - unfold handleAnswerCommand in Hrun.
    apply bind_resolved in Hrun. destruct Hrun as (l & w1 & _ & Hrun).
    destruct (List.find _ l).
    + apply bind_resolved in Hrun. destruct Hrun as (stats & w2 & _ & Hrun).
      injection Hrun as <- _. reflexivity.
    + apply bind_resolved in Hrun. destruct Hrun as (answer & w2 & _ & Hrun).
      apply bind_resolved in Hrun. destruct Hrun as ([] & w3 & _ & Hrun).
      apply bind_resolved in Hrun. destruct Hrun as ([] & w4 & _ & Hrun).
      apply bind_resolved in Hrun. destruct Hrun as (stats & w5 & _ & Hrun).
      apply bind_resolved in Hrun. destruct Hrun as ([message stats'] & w6 & _ & Hrun).
      injection Hrun as <- _. reflexivity.
  - pose proof (handleAnswerCommand_keeps_milestones accountId quiz answerIndex w)
      as Hk.
    rewrite Hrun in Hk. exact Hk.
Qed.

(** C5 (the code departs from the claim).  Alice, registered and without
    answers, answers her first quiz correctly.  The handler stores the
    answer and raises her totals to one answer, one correct, and creates
    her security stat; it reports no milestone and stores none.  The
    milestone check, run on that answer with her updated totals and stat,
    creates the first-correct milestone. *)
Theorem handleAnswerCommand_skips_milestone_check :
  exists r w' user stat w'' m,
    handleAnswerCommand (templates := blankTemplates) "alice" firstQuiz 2
      firstWorld = (Resolved r, w')
    /\ AnswerCommandResult.isCorrect r = true
    /\ usersCollection (db w') !! "alice" = Some user
    /\ User.totalQuizzes user = 1%N /\ User.correctCount user = 1%N
    /\ statOf w' "alice" "security" = Some stat
    /\ SkillStats.totalQuizzes stat = 1%N
    /\ AnswerCommandResult.newMilestones r = []
    /\ growthMilestonesCollection (db w') = []
    /\ checkAndCreateMilestones "alice" (AnswerCommandResult.answer r) user
         (Some stat) w' = (Resolved tt, w'')
    /\ growthMilestonesCollection (db w'') = [m]
    /\ GrowthMilestone.type m = first_correct
    /\ GrowthMilestone.accountId m = "alice".
Proof.
  do 6 eexists.
  split; [vm_compute; reflexivity|].
  split; [reflexivity|].
  split; [vm_compute; reflexivity|].
  split; [reflexivity|]. split; [reflexivity|].
  split; [vm_compute; reflexivity|].
  split; [reflexivity|]. split; [reflexivity|]. split; [reflexivity|].
  split; [vm_compute; reflexivity|].
  split; [reflexivity|]. split; reflexivity.
Qed.

(** ** The recommender *)

Lemma Array_includes_In (l : list Category) (c : Category) :
  Array_includes l c = true <-> In c l.
Proof.
  unfold Array_includes. rewrite existsb_exists. split.
  - intros (x & Hin & Hx). apply bool_decide_eq_true_1 in Hx. subst. exact Hin.
  - intros Hin. exists c. split; [exact Hin|]. apply bool_decide_eq_true_2. reflexivity.
Qed.

Lemma Qlt_bool_iff (a b : Q) : Qlt_bool a b = true <-> (a < b)%Q.
Proof.
  unfold Qlt_bool. rewrite negb_true_iff. split.
  - intros Hf. apply Qnot_le_lt. intros Hle.
    apply Qle_bool_iff in Hle. congruence.
  - intros Hlt. destruct (Qle_bool b a) eqn:E; [|reflexivity].
    apply Qle_bool_iff in E. exfalso. exact (Qlt_not_le _ _ Hlt E).
Qed.






Lemma baselineOf_source (level : ExperienceLevel) :
  (if String.eqb level "junior" then easy
   else if String.eqb level "mid" then medium
   else if String.eqb level "senior" then hard
   else medium) = baselineOf level.
Proof.
  unfold baselineOf.
  destruct (String.eqb_spec level "junior"); [rewrite decide_True by assumption; reflexivity|].
  rewrite decide_False by assumption.
  destruct (String.eqb_spec level "mid"); [rewrite decide_True by assumption; reflexivity|].
  rewrite decide_False by assumption.
  destruct (String.eqb_spec level "senior"); [rewrite decide_True by assumption; reflexivity|].
  rewrite decide_False by assumption. reflexivity.
Qed.

(** C8.  Without a profile the difficulty is easy.  With a profile the
    baseline is easy for junior, medium for mid, hard for senior and
    medium for any other level; when the category's stat has at least 5
    attempts, a correct rate of at least 0.8 moves the baseline one step
    up (easy to medium, medium to hard, hard stays) and a rate of at most
    0.4 moves it one step down (hard to medium, medium to easy, easy
    stays); with no stat, fewer than 5 attempts, or a rate strictly
    between 0.4 and 0.8, the baseline stands. *)
Theorem selectOptimalDifficulty_rules :
  (forall categoryStats, selectOptimalDifficulty None categoryStats = easy)
  /\ (baselineOf "junior" = easy /\ baselineOf "mid" = medium
      /\ baselineOf "senior" = hard
      /\ forall level, level <> "junior" -> level <> "mid" -> level <> "senior" ->
                       baselineOf level = medium)
  /\ (oneStepUp easy = medium /\ oneStepUp medium = hard /\ oneStepUp hard = hard)
  /\ (oneStepDown hard = medium /\ oneStepDown medium = easy
      /\ oneStepDown easy = easy)
  /\ (forall profile s,
        (5 <= SkillStats.totalQuizzes s)%N ->
        (0.8 <= SkillStats.correctRate s)%Q ->
        selectOptimalDifficulty (Some profile) (Some s) =
        oneStepUp (baselineOf (UserProfile.experienceLevel profile)))
  /\ (forall profile s,
        (5 <= SkillStats.totalQuizzes s)%N ->
        (SkillStats.correctRate s <= 0.4)%Q ->
        selectOptimalDifficulty (Some profile) (Some s) =
        oneStepDown (baselineOf (UserProfile.experienceLevel profile)))
  /\ (forall profile,
        selectOptimalDifficulty (Some profile) None =
        baselineOf (UserProfile.experienceLevel profile))
  /\ (forall profile s,
        (SkillStats.totalQuizzes s < 5)%N ->
        selectOptimalDifficulty (Some profile) (Some s) =
        baselineOf (UserProfile.experienceLevel profile))
  /\ (forall profile s,
        (0.4 < SkillStats.correctRate s)%Q ->
        (SkillStats.correctRate s < 0.8)%Q ->
        selectOptimalDifficulty (Some profile) (Some s) =
        baselineOf (UserProfile.experienceLevel profile)).
Proof.
  split; [reflexivity|].
  split.
  { split; [reflexivity|]. split; [reflexivity|]. split; [reflexivity|].
    intros level H1 H2 H3. unfold baselineOf.
    rewrite !decide_False by assumption. reflexivity. }
  split; [repeat split|]. split; [repeat split|].
  split.
  { intros profile s Ht Hr. unfold selectOptimalDifficulty.
    rewrite baselineOf_source.
    apply N.leb_le in Ht. apply Qle_bool_iff in Hr. rewrite Ht, Hr.
    destruct (baselineOf _); reflexivity. }
  split.
  { intros profile s Ht Hr. unfold selectOptimalDifficulty.
    rewrite baselineOf_source. apply N.leb_le in Ht. rewrite Ht.
    assert (Hhi : Qle_bool 0.8 (SkillStats.correctRate s) = false).
    { destruct (Qle_bool 0.8 (SkillStats.correctRate s)) eqn:E; [|reflexivity].
      apply Qle_bool_iff in E. exfalso.
      assert (Habs : (0.8 <= 0.4)%Q) by (eapply Qle_trans; eassumption).
      revert Habs. vm_compute. intros Habs. apply Habs. reflexivity. }
    apply Qle_bool_iff in Hr. rewrite Hhi, Hr.
    destruct (baselineOf _); reflexivity. }
  split.
  { intros profile. unfold selectOptimalDifficulty.
    rewrite baselineOf_source. reflexivity. }
  split.
  { intros profile s Ht. unfold selectOptimalDifficulty.
    rewrite baselineOf_source. apply N.leb_gt in Ht. rewrite Ht. reflexivity. }
  intros profile s Hlo Hhi. unfold selectOptimalDifficulty.
  rewrite baselineOf_source.
  assert (Hup : Qle_bool 0.8 (SkillStats.correctRate s) = false).
  { destruct (Qle_bool 0.8 (SkillStats.correctRate s)) eqn:E; [|reflexivity].
    apply Qle_bool_iff in E. exfalso. exact (Qlt_not_le _ _ Hhi E). }
  assert (Hdown : Qle_bool (SkillStats.correctRate s) 0.4 = false).
  { destruct (Qle_bool (SkillStats.correctRate s) 0.4) eqn:E; [|reflexivity].
    apply Qle_bool_iff in E. exfalso. exact (Qlt_not_le _ _ Hlo E). }
  rewrite Hup, Hdown. destruct (5 <=? SkillStats.totalQuizzes s)%N; reflexivity.
Qed.

(** A junior with 4 of 5 correct is moved up to medium; a senior with 2 of
    5 correct is moved down to medium. *)
Lemma selectOptimalDifficulty_rules_witness :
  selectOptimalDifficulty (Some (exampleProfile "junior")) (Some (exampleStat 5 4))
    = medium
  /\ selectOptimalDifficulty (Some (exampleProfile "senior")) (Some (exampleStat 5 2))
     = medium.
Proof.
  destruct selectOptimalDifficulty_rules
    as (_ & _ & _ & _ & Hup & Hdown & _).
  split.
  - rewrite (Hup (exampleProfile "junior") (exampleStat 5 4)).
    + reflexivity.
    + cbn. lia.
    + vm_compute. discriminate.
  - rewrite (Hdown (exampleProfile "senior") (exampleStat 5 2)).
    + reflexivity.
    + cbn. lia.
    + vm_compute. discriminate.
Defined.

(** ** Sorting *)

Section SortBy.

Context {A : Type} (before : A -> A -> bool) (R : A -> A -> Prop).
Hypothesis before_true : forall x y, before x y = true -> R x y.
Hypothesis before_false : forall x y, before x y = false -> R y x.

Lemma insertBy_perm (x : A) (l : list A) :
  Permutation (insertBy before x l) (x :: l).
Proof.
  induction l as [|y l IH]; cbn [insertBy].
  - reflexivity.
  - destruct (before x y).
    + reflexivity.
    + rewrite IH. apply perm_swap.
Qed.

Lemma sortBy_perm (l : list A) : Permutation (sortBy before l) l.
Proof.
  induction l as [|x l IH]; cbn.
  - reflexivity.
  - rewrite insertBy_perm. apply perm_skip. exact IH.
Qed.

Lemma insertBy_HdRel (a x : A) (l : list A) :
  R a x -> HdRel R a l -> HdRel R a (insertBy before x l).
Proof.
  intros Hax Hal. destruct l as [|y l]; cbn [insertBy].
  - constructor. exact Hax.
  - destruct (before x y); constructor.
    + exact Hax.
    + inversion Hal; assumption.
Qed.

Lemma insertBy_sorted (x : A) (l : list A) :
  Sorted R l -> Sorted R (insertBy before x l).
Proof.
  induction l as [|y l IH]; intros Hs; cbn [insertBy].
  - constructor; constructor.
  - destruct (before x y) eqn:E.
    + constructor; [exact Hs|]. constructor. apply before_true. exact E.
    + inversion Hs as [|? ? Hl Hy]; subst.
      constructor; [apply IH; exact Hl|].
      apply insertBy_HdRel; [apply before_false; exact E|exact Hy].
Qed.

Lemma sortBy_sorted (l : list A) : Sorted R (sortBy before l).
Proof.
  induction l as [|x l IH]; cbn.
  - constructor.
  - apply insertBy_sorted. exact IH.
Qed.

End SortBy.

Lemma Array_sort_perm {A} (compareFn : A -> A -> Q) (arr : list A) :
  Permutation (Array_sort compareFn arr) arr.
Proof. apply sortBy_perm. Qed.

(** Sorting numbers with [(a, b) => a - b] sorts them ascending. *)
Lemma Array_sort_ascending (arr : list Q) :
  Sorted Qle (Array_sort (fun a b => a - b)%Q arr).
Proof.
  apply sortBy_sorted.
  - intros x y Hb. apply Qle_bool_iff in Hb.
    apply Qle_minus_iff in Hb. apply Qle_minus_iff.
    assert (Heq : (y + - x == 0 + - (x - y))%Q) by ring.
    rewrite Heq. exact Hb.
  - intros x y Hb.
    destruct (Qlt_le_dec 0 (x - y)) as [Hlt|Hle].
    + apply Qlt_le_weak. apply Qlt_minus_iff. exact Hlt.
    + apply Qle_bool_iff in Hle. congruence.
Qed.

Lemma Qsum_perm (l l' : list Q) : Permutation l l' -> (Qsum l == Qsum l')%Q.
Proof.
  induction 1; cbn.
  - reflexivity.
  - rewrite IHPermutation. reflexivity.
  - ring.
  - etransitivity; eassumption.
Qed.

Lemma fold_left_Qplus (l : list Q) (acc : Q) :
  (fold_left Qplus l acc == acc + Qsum l)%Q.
Proof.
  revert acc. induction l as [|x l IH]; intros acc; cbn [fold_left].
  - change (Qsum []) with 0%Q. ring.
  - rewrite IH. change (Qsum (x :: l)) with (x + Qsum l)%Q. ring.
Qed.

(** ** The answers of a user *)

Lemma answersOf_snoc_same (seen : list Answer.t) (a : Answer.t) :
  answersOf (Answer.accountId a) (seen ++ [a]) =
  (answersOf (Answer.accountId a) seen ++ [a])%list.
Proof.
  unfold answersOf. rewrite List.filter_app. cbn [List.filter].
  rewrite bool_decide_eq_true_2 by reflexivity. reflexivity.
Qed.

Lemma answersOf_snoc_other (u : string) (seen : list Answer.t) (a : Answer.t) :
  Answer.accountId a <> u ->
  answersOf u (seen ++ [a]) = answersOf u seen.
Proof.
  intros Hne. unfold answersOf. rewrite List.filter_app. cbn [List.filter].
  rewrite bool_decide_eq_false_2 by exact Hne. apply app_nil_r.
Qed.

Lemma answersOf_none (u : string) (seen : list Answer.t) :
  (forall a, In a seen -> Answer.accountId a <> u) -> answersOf u seen = [].
Proof.
  intros Hno. unfold answersOf.
  induction seen as [|a seen IH]; cbn [List.filter]; [reflexivity|].
  rewrite bool_decide_eq_false_2 by (apply Hno; left; reflexivity).
  apply IH. intros a' Hin. apply Hno. right. exact Hin.
Qed.


(** * Further properties *)

(** ** Running a computation step by step *)

Lemma bind_run {A B} (m : Async A) (k : A -> Async B) w a w1 :
  m w = (Resolved a, w1) -> (m ≫= k) w = k a w1.
Proof. intros Hm. unfold mbind, Async_bind. rewrite Hm. reflexivity. Qed.

Lemma bind_reject {A B} (m : Async A) (k : A -> Async B) w e w1 :
  m w = (Rejected e, w1) -> (m ≫= k) w = (Rejected e, w1).
Proof. intros Hm. unfold mbind, Async_bind. rewrite Hm. reflexivity. Qed.

Lemma createAnswer_run input quiz w :
  createAnswer input quiz w =
  (Resolved
     (Answer.mk (uuids w (tick w))
        (CreateAnswerInput.quizId input) (CreateAnswerInput.accountId input)
        (Quiz.mergeRequestId quiz) (CreateAnswerInput.selectedAnswerIndex input)
        (Z.eqb (CreateAnswerInput.selectedAnswerIndex input)
               (Quiz.correctAnswerIndex quiz))
        (Quiz.category quiz) (Quiz.difficulty quiz) (clock w (S (tick w)))),
   withDb (advance (advance w))
     (withAnswers (db w)
        (answersCollection (db w)
         ++ [Answer.mk (uuids w (tick w))
               (CreateAnswerInput.quizId input) (CreateAnswerInput.accountId input)
               (Quiz.mergeRequestId quiz) (CreateAnswerInput.selectedAnswerIndex input)
               (Z.eqb (CreateAnswerInput.selectedAnswerIndex input)
                      (Quiz.correctAnswerIndex quiz))
               (Quiz.category quiz) (Quiz.difficulty quiz)
               (clock w (S (tick w)))])%list)).
Proof. reflexivity. Qed.

Lemma updateUserStats_found accountId isCorrect w u :
  usersCollection (db w) !! accountId = Some u ->
  updateUserStats accountId isCorrect w =
  (Resolved tt,
   withDb (advance w)
     (withUsers (db w)
        (<[accountId :=
             User.mk (User.accountId u) (User.platform u)
               (User.totalQuizzes u + 1)
               (if isCorrect then User.correctCount u + 1 else User.correctCount u)
               (User.createdAt u) (clock w (tick w))]>
           (usersCollection (db w))))).
Proof.
  intros Hu. unfold updateUserStats, mbind, Async_bind, Timestamp_now, readDb.
  cbn. rewrite Hu. reflexivity.
Qed.

Lemma updateUserStats_missing accountId isCorrect w :
  usersCollection (db w) !! accountId = None ->
  updateUserStats accountId isCorrect w = (Rejected "NOT_FOUND", advance w).
Proof.
  intros Hu. unfold updateUserStats, mbind, Async_bind, Timestamp_now, readDb.
  cbn. rewrite Hu. reflexivity.
Qed.

(** [updateSkillStats] writes the skill statistics and nothing else. *)
Lemma updateSkillStats_keeps {X} (f : Db -> X) input :
  (forall d m, f (withSkillStats d m) = f d) ->
  keeps f (updateSkillStats input).
Proof.
  intros Hf. unfold updateSkillStats.
  apply keeps_bind; [apply keeps_readDb|intros doc].
  apply keeps_bind; [apply keeps_Timestamp_now|intros now].
  destruct doc; apply keeps_writeDb; intros d; apply Hf.
Qed.

Lemma duplicate_check_none accountId quiz w :
  notYetAnswered (db w) accountId quiz ->
  exists l,
    getAnswersByUser accountId w = (Resolved l, w)
    /\ List.find (fun a => bool_decide (Answer.quizId a = Quiz.quizId quiz)) l = None.
Proof.
  intros Hnot. destruct (getAnswersByUser_run accountId w) as (l & Hl & Hmem).
  exists l. split; [exact Hl|].
  destruct (List.find _ l) as [a|] eqn:Hfind; [|reflexivity].
  apply find_some in Hfind. destruct Hfind as [Hin Hq].
  apply bool_decide_eq_true_1 in Hq. apply Hmem in Hin. destruct Hin as [Hin Ha].
  exfalso. exact (Hnot a Hin Ha Hq).
Qed.

Lemma duplicate_check_some accountId quiz w :
  ~ notYetAnswered (db w) accountId quiz ->
  exists l a,
    getAnswersByUser accountId w = (Resolved l, w)
    /\ List.find (fun a => bool_decide (Answer.quizId a = Quiz.quizId quiz)) l = Some a.
Proof.
  intros Hnot. destruct (getAnswersByUser_run accountId w) as (l & Hl & Hmem).
  exists l.
  destruct (List.find _ l) as [a|] eqn:Hfind; [exists a; auto|].
  exfalso. apply Hnot. intros a Hin Ha Hq.
  pose proof (find_none _ _ Hfind a (proj2 (Hmem a) (conj Hin Ha))) as Hp.
  cbn in Hp. apply bool_decide_eq_false_1 in Hp. exact (Hp Hq).
Qed.

(** The handler on a quiz the user has answered: a pure read. *)
Lemma handleAnswerCommand_repeat `{MessageTemplates} accountId quiz answerIndex w :
  ~ notYetAnswered (db w) accountId quiz ->
  exists r,
    handleAnswerCommand accountId quiz answerIndex w = (Resolved r, w)
    /\ AnswerCommandResult.alreadyAnswered r = Some true
    /\ In (AnswerCommandResult.answer r) (answersCollection (db w))
    /\ Answer.accountId (AnswerCommandResult.answer r) = accountId
    /\ Answer.quizId (AnswerCommandResult.answer r) = Quiz.quizId quiz.
Proof.
  intros Hnot.
  destruct (duplicate_check_some accountId quiz w Hnot) as (l & a & Hl & Hfind).
  destruct (getAnswersByUser_run accountId w) as (l' & Hl' & Hmem).
  rewrite Hl in Hl'. injection Hl' as <-.
  unfold handleAnswerCommand. rewrite (bind_run _ _ _ _ _ Hl). rewrite Hfind.
  apply find_some in Hfind. destruct Hfind as [Hin Hq].
  apply bool_decide_eq_true_1 in Hq. apply Hmem in Hin. destruct Hin as [Hin Ha].
  eexists. split; [reflexivity|]. cbn. auto.
Qed.

(** The handler on a quiz the user has not answered, when the user is not
    registered: the answer is stored, then the update of the totals
    rejects. *)
Lemma handleAnswerCommand_unregistered `{MessageTemplates}
  accountId quiz answerIndex w :
  notYetAnswered (db w) accountId quiz ->
  usersCollection (db w) !! accountId = None ->
  handleAnswerCommand accountId quiz answerIndex w =
  (Rejected "NOT_FOUND",
   advance (snd (createAnswer
                   (CreateAnswerInput.mk (Quiz.quizId quiz) accountId answerIndex)
                   quiz w))).
Proof.
  intros Hnot Hu.
  destruct (duplicate_check_none accountId quiz w Hnot) as (l & Hl & Hfind).
  unfold handleAnswerCommand. rewrite (bind_run _ _ _ _ _ Hl). rewrite Hfind.
  rewrite (bind_run _ _ _ _ _ (createAnswer_run _ _ _)).
  apply bind_reject. apply updateUserStats_missing. exact Hu.
Qed.

(** The handler on a quiz the user has not answered, when the user is
    registered: it stores the answer, raises the totals, folds the answer
    into the skill statistics, and reads. *)
Lemma handleAnswerCommand_fresh `{MessageTemplates}
  accountId quiz answerIndex w u :
  notYetAnswered (db w) accountId quiz ->
  usersCollection (db w) !! accountId = Some u ->
  exists r,
    handleAnswerCommand accountId quiz answerIndex w =
    (Resolved r,
     snd (updateSkillStats
            (UpdateSkillStatsInput.mk accountId (Quiz.category quiz)
               (Quiz.difficulty quiz)
               (Z.eqb answerIndex (Quiz.correctAnswerIndex quiz)))
            (snd (updateUserStats accountId
                    (Z.eqb answerIndex (Quiz.correctAnswerIndex quiz))
                    (snd (createAnswer
                            (CreateAnswerInput.mk (Quiz.quizId quiz) accountId
                               answerIndex)
                            quiz w))))))
    /\ AnswerCommandResult.answer r = storedAnswer w accountId quiz answerIndex
    /\ AnswerCommandResult.isCorrect r =
       Z.eqb answerIndex (Quiz.correctAnswerIndex quiz)
    /\ AnswerCommandResult.quiz r = quiz
    /\ AnswerCommandResult.success r = true
    /\ AnswerCommandResult.alreadyAnswered r = None
    /\ AnswerCommandResult.newMilestones r = [].
Proof.
  intros Hnot Hu.
  destruct (duplicate_check_none accountId quiz w Hnot) as (l & Hl & Hfind).
  unfold handleAnswerCommand. rewrite (bind_run _ _ _ _ _ Hl). rewrite Hfind.
  rewrite (bind_run _ _ _ _ _ (createAnswer_run _ _ _)).
  rewrite createAnswer_run. cbn [snd].
  match goal with
  | |- context [updateUserStats accountId ?b ?w1] =>
      assert (Hu1 : usersCollection (db w1) !! accountId = Some u) by exact Hu;
      pose proof (updateUserStats_found accountId b w1 u Hu1) as Hup
  end.
  rewrite (bind_run _ _ _ _ _ Hup). rewrite Hup. cbn [snd].
  match goal with
  | |- context [updateSkillStats ?i ?w2] =>
      destruct (updateSkillStats_step i w2) as (w3 & s' & Hss & _)
  end.
  rewrite (bind_run _ _ _ _ _ Hss). rewrite Hss. cbn [snd].
  unfold getSkillStatsByUser, formatCorrectAnswerMessage,
    formatIncorrectAnswerMessage, getUserProfile.
  unfold mbind, Async_bind, readDb, mret, Async_ret.
  destruct (answerIndex =? Quiz.correctAnswerIndex quiz)%Z;
    eexists; (split; [reflexivity|]); cbn; auto 7.
Qed.

Lemma notYetAnswered_dec accountId quiz d :
  notYetAnswered d accountId quiz \/ ~ notYetAnswered d accountId quiz.
Proof.
  destruct (List.find
              (fun a => bool_decide (Answer.accountId a = accountId)
                        && bool_decide (Answer.quizId a = Quiz.quizId quiz))
              (answersCollection d)) as [a|] eqn:Hfind.
  - right. intros Hnot. apply find_some in Hfind. destruct Hfind as [Hin Hp].
    apply andb_prop in Hp. destruct Hp as [Ha Hq].
    apply bool_decide_eq_true_1 in Ha, Hq. exact (Hnot a Hin Ha Hq).
  - left. intros a Hin Ha Hq.
    pose proof (find_none _ _ Hfind a Hin) as Hp. cbn in Hp.
    rewrite !bool_decide_eq_true_2 in Hp by assumption. discriminate Hp.
Qed.

(** What an answer command does to the answers and the users, whatever
    its outcome. *)
Lemma handleAnswerCommand_effect `{MessageTemplates} accountId quiz answerIndex w :
  (~ notYetAnswered (db w) accountId quiz
   /\ snd (handleAnswerCommand accountId quiz answerIndex w) = w)
  \/ (notYetAnswered (db w) accountId quiz
      /\ answersCollection
           (db (snd (handleAnswerCommand accountId quiz answerIndex w))) =
         (answersCollection (db w)
          ++ [storedAnswer w accountId quiz answerIndex])%list
      /\ usersCollection
           (db (snd (handleAnswerCommand accountId quiz answerIndex w))) =
         match usersCollection (db w) !! accountId with
         | None => usersCollection (db w)
         | Some u =>
             <[accountId :=
                 User.mk (User.accountId u) (User.platform u)
                   (User.totalQuizzes u + 1)
                   (if Z.eqb answerIndex (Quiz.correctAnswerIndex quiz)
                    then User.correctCount u + 1 else User.correctCount u)
                   (User.createdAt u) (clock w (S (S (tick w))))]>
               (usersCollection (db w))
         end).
Proof.
  destruct (notYetAnswered_dec accountId quiz (db w)) as [Hnot|Hdone].
  - right. split; [exact Hnot|].
    destruct (usersCollection (db w) !! accountId) as [u|] eqn:Hu.
    + destruct (handleAnswerCommand_fresh accountId quiz answerIndex w u Hnot Hu)
        as (r & Hrun & _).
      rewrite Hrun. cbn [snd].
      rewrite (updateSkillStats_keeps answersCollection) by reflexivity.
      rewrite (updateSkillStats_keeps usersCollection) by reflexivity.
      rewrite createAnswer_run. cbn [snd].
      erewrite updateUserStats_found by exact Hu. cbn [snd].
      split; reflexivity.
    + rewrite (handleAnswerCommand_unregistered _ _ _ _ Hnot Hu).
      rewrite createAnswer_run. split; reflexivity.
  - left. split; [exact Hdone|].
    destruct (handleAnswerCommand_repeat accountId quiz answerIndex w Hdone)
      as (r & Hrun & _).
    rewrite Hrun. reflexivity.
Qed.

Lemma answersTo_snoc accountId quizId d a :
  List.filter
    (fun a => bool_decide (Answer.accountId a = accountId)
              && bool_decide (Answer.quizId a = quizId))
    (answersCollection d ++ [a]) =
  (answersTo accountId quizId d
   ++ (if bool_decide (Answer.accountId a = accountId)
          && bool_decide (Answer.quizId a = quizId)
       then [a] else []))%list.
Proof.
  unfold answersTo. rewrite List.filter_app. cbn [List.filter].
  destruct (_ && _); reflexivity.
Qed.

Lemma notYetAnswered_answersTo accountId quiz d :
  notYetAnswered d accountId quiz ->
  answersTo accountId (Quiz.quizId quiz) d = [].
Proof.
  intros Hnot. unfold answersTo.
  destruct (List.filter _ _) as [|a l] eqn:E; [reflexivity|].
  assert (Hin : In a (List.filter
                        (fun a => bool_decide (Answer.accountId a = accountId)
                                  && bool_decide (Answer.quizId a = Quiz.quizId quiz))
                        (answersCollection d)))
    by (rewrite E; left; reflexivity).
  apply filter_In in Hin. destruct Hin as [Hin Hp].
  apply andb_prop in Hp. destruct Hp as [Ha Hq].
  apply bool_decide_eq_true_1 in Ha, Hq.
  exfalso. exact (Hnot a Hin Ha Hq).
Qed.

Lemma handleAnswerCommand_at_most_once `{MessageTemplates}
  accountId quiz answerIndex w :
  answeredAtMostOnce (db w) ->
  answeredAtMostOnce (db (snd (handleAnswerCommand accountId quiz answerIndex w))).
Proof.
  intros Hinv.
  destruct (handleAnswerCommand_effect accountId quiz answerIndex w)
    as [[_ ->]|(Hnot & Hans & _)]; [exact Hinv|].
  intros u q. unfold answersTo at 1. rewrite Hans.
  rewrite answersTo_snoc, length_app.
  destruct (bool_decide (Answer.accountId (storedAnswer w accountId quiz answerIndex) = u)
            && bool_decide (Answer.quizId (storedAnswer w accountId quiz answerIndex) = q))
    eqn:Hp.
  - apply andb_prop in Hp. destruct Hp as [Ha Hq].
    apply bool_decide_eq_true_1 in Ha, Hq. cbn in Ha, Hq. subst u q.
    rewrite (notYetAnswered_answersTo _ _ _ Hnot). cbn. lia.
  - cbn. specialize (Hinv u q). lia.
Qed.

Lemma handleAnswerCommand_totals `{MessageTemplates}
  accountId quiz answerIndex w :
  totalsMatchAnswers (db w) ->
  totalsMatchAnswers (db (snd (handleAnswerCommand accountId quiz answerIndex w))).
Proof.
  intros Hinv.
  destruct (handleAnswerCommand_effect accountId quiz answerIndex w)
    as [[_ ->]|(Hnot & Hans & Husers)]; [exact Hinv|].
  intros u0 user Hlook. rewrite Hans. rewrite Husers in Hlook.
  assert (Hacc : Answer.accountId (storedAnswer w accountId quiz answerIndex)
                 = accountId) by reflexivity.
  assert (Hcor : Answer.isCorrect (storedAnswer w accountId quiz answerIndex)
                 = Z.eqb answerIndex (Quiz.correctAnswerIndex quiz)) by reflexivity.
  destruct (decide (u0 = accountId)) as [->|Hne].
  - destruct (usersCollection (db w) !! accountId) as [u|] eqn:Hu;
      [|congruence].
    rewrite lookup_insert_eq in Hlook. injection Hlook as <-.
    destruct (Hinv accountId u Hu) as [Ht Hc]. cbn [User.totalQuizzes User.correctCount].
    rewrite <- Hacc at 1 3. rewrite answersOf_snoc_same. rewrite Hacc.
    rewrite List.filter_app, !length_app. cbn [List.filter]. rewrite Hcor.
    destruct (Z.eqb answerIndex (Quiz.correctAnswerIndex quiz)); cbn [length];
      split; lia.
  - assert (Hold : usersCollection (db w) !! u0 = Some user).
    { destruct (usersCollection (db w) !! accountId); [|exact Hlook].
      rewrite lookup_insert_ne in Hlook by congruence. exact Hlook. }
    rewrite answersOf_snoc_other by (rewrite Hacc; congruence).
    apply Hinv. exact Hold.
Qed.

(** X1.  A registered user answers a quiz for the first time: the
    command resolves; exactly one answer is appended, for this user and
    quiz, with the chosen option and the verdict the result reports; the
    user's totals grow by one answer and by one correct answer when the
    verdict is correct, and no other user changes; the stat of the user
    in the quiz's category grows likewise; milestones, profiles and
    aggregates are left alone. *)
Theorem handleAnswerCommand_counts_new_answer `{MessageTemplates}
  (accountId : string) (quiz : Quiz.t) (answerIndex : Z) (w : World) (u : User.t) :
  notYetAnswered (db w) accountId quiz ->
  usersCollection (db w) !! accountId = Some u ->
  exists r w' u' s',
    handleAnswerCommand accountId quiz answerIndex w = (Resolved r, w')
    /\ AnswerCommandResult.isCorrect r =
       Z.eqb answerIndex (Quiz.correctAnswerIndex quiz)
    /\ AnswerCommandResult.alreadyAnswered r = None
    /\ answersCollection (db w') =
       (answersCollection (db w) ++ [AnswerCommandResult.answer r])%list
    /\ Answer.accountId (AnswerCommandResult.answer r) = accountId
    /\ Answer.quizId (AnswerCommandResult.answer r) = Quiz.quizId quiz
    /\ Answer.selectedAnswerIndex (AnswerCommandResult.answer r) = answerIndex
    /\ Answer.isCorrect (AnswerCommandResult.answer r) =
       AnswerCommandResult.isCorrect r
    /\ Answer.category (AnswerCommandResult.answer r) = Quiz.category quiz
    /\ Answer.difficulty (AnswerCommandResult.answer r) = Quiz.difficulty quiz
    /\ usersCollection (db w') !! accountId = Some u'
    /\ User.totalQuizzes u' = (User.totalQuizzes u + 1)%N
    /\ User.correctCount u' =
       (User.correctCount u
        + (if AnswerCommandResult.isCorrect r then 1 else 0))%N
    /\ (forall other, other <> accountId ->
          usersCollection (db w') !! other = usersCollection (db w) !! other)
    /\ statOf w' accountId (Quiz.category quiz) = Some s'
    /\ SkillStats.totalQuizzes s' =
       (recordedTotal (statOf w accountId (Quiz.category quiz)) + 1)%N
    /\ SkillStats.correctCount s' =
       (recordedCorrect (statOf w accountId (Quiz.category quiz))
        + (if AnswerCommandResult.isCorrect r then 1 else 0))%N
    /\ growthMilestonesCollection (db w') = growthMilestonesCollection (db w)
    /\ userProfilesCollection (db w') = userProfilesCollection (db w)
    /\ teamAnalyticsCollection (db w') = teamAnalyticsCollection (db w).
Proof.
  intros Hnot Hu.
  destruct (handleAnswerCommand_fresh accountId quiz answerIndex w u Hnot Hu)
    as (r & Hrun & Hans & Hcor & _ & _ & Halready & _).
  set (input := UpdateSkillStatsInput.mk accountId (Quiz.category quiz)
                  (Quiz.difficulty quiz)
                  (Z.eqb answerIndex (Quiz.correctAnswerIndex quiz))) in *.
  set (w2 := snd (updateUserStats accountId
                    (Z.eqb answerIndex (Quiz.correctAnswerIndex quiz))
                    (snd (createAnswer
                            (CreateAnswerInput.mk (Quiz.quizId quiz) accountId
                               answerIndex) quiz w)))) in *.
  assert (Hw2 : db w2 =
    withUsers (withAnswers (db w)
                 (answersCollection (db w)
                  ++ [storedAnswer w accountId quiz answerIndex])%list)
      (<[accountId :=
           User.mk (User.accountId u) (User.platform u)
             (User.totalQuizzes u + 1)
             (if Z.eqb answerIndex (Quiz.correctAnswerIndex quiz)
              then User.correctCount u + 1 else User.correctCount u)
             (User.createdAt u) (clock w (S (S (tick w))))]>
         (usersCollection (db w)))).
  { unfold w2. rewrite createAnswer_run. cbn [snd].
    erewrite updateUserStats_found by exact Hu. reflexivity. }
  destruct (updateSkillStats_step input w2) as (w3 & s' & Hss & Hstat & Hafter).
  rewrite Hss in Hrun. cbn [snd] in Hrun.
  assert (Hkeep : forall {X} (f : Db -> X),
             (forall d m, f (withSkillStats d m) = f d) -> f (db w3) = f (db w2)).
  { intros X f Hf. pose proof (updateSkillStats_keeps f input Hf w2) as Hk.
    rewrite Hss in Hk. exact Hk. }
  assert (Hprior : statOf w2 accountId (Quiz.category quiz)
                   = statOf w accountId (Quiz.category quiz)).
  { unfold statOf. rewrite Hw2. reflexivity. }
  cbn [UpdateSkillStatsInput.accountId UpdateSkillStatsInput.category
       UpdateSkillStatsInput.difficulty UpdateSkillStatsInput.isCorrect input]
    in Hstat, Hafter.
  rewrite Hprior in Hafter.
  eexists r, w3, _, s'.
  split; [exact Hrun|]. split; [exact Hcor|]. split; [exact Halready|].
  rewrite Hans, Hcor.
  split; [rewrite (Hkeep _ answersCollection) by reflexivity;
          rewrite Hw2; reflexivity|].
  do 6 (split; [reflexivity|]).
  split.
  { rewrite (Hkeep _ usersCollection) by reflexivity. rewrite Hw2. cbn.
    apply lookup_insert_eq. }
  split; [reflexivity|].
  split.
  { cbn. destruct (Z.eqb answerIndex (Quiz.correctAnswerIndex quiz)); lia. }
  split.
  { intros other Hother. rewrite (Hkeep _ usersCollection) by reflexivity.
    rewrite Hw2. cbn. apply lookup_insert_ne. congruence. }
  split; [exact Hstat|].
  split.
  { destruct (statOf w accountId (Quiz.category quiz)) as [s|]; cbn in *;
      destruct Hafter as (Ht & _); rewrite Ht; reflexivity. }
  split.
  { destruct (statOf w accountId (Quiz.category quiz)) as [s|]; cbn in *;
      destruct Hafter as (_ & Hc & _); rewrite Hc;
      destruct (Z.eqb answerIndex (Quiz.correctAnswerIndex quiz)); reflexivity. }
  split; [rewrite (Hkeep _ growthMilestonesCollection) by reflexivity;
          rewrite Hw2; reflexivity|].
  split; [rewrite (Hkeep _ userProfilesCollection) by reflexivity;
          rewrite Hw2; reflexivity|].
  rewrite (Hkeep _ teamAnalyticsCollection) by reflexivity.
  rewrite Hw2. reflexivity.
Qed.

Lemma handleAnswerCommand_counts_new_answer_witness :
  exists r w' u',
    handleAnswerCommand (templates := blankTemplates) "alice" firstQuiz 1 firstWorld
      = (Resolved r, w')
    /\ AnswerCommandResult.isCorrect r = false
    /\ usersCollection (db w') !! "alice" = Some u'
    /\ User.totalQuizzes u' = 1%N
    /\ User.correctCount u' = 0%N.
Proof.
  destruct (handleAnswerCommand_counts_new_answer (H := blankTemplates)
              "alice" firstQuiz 1 firstWorld (exampleUser 0 0))
    as (r & w' & u' & s' & Hrun & Hcor & _ & _ & _ & _ & _ & _ & _ & _ & Hu'
        & Ht & Hc & _).
  - intros a [].
  - reflexivity.
  - exists r, w', u'. split; [exact Hrun|]. split; [exact Hcor|].
    split; [exact Hu'|]. split; [exact Ht|]. rewrite Hc, Hcor. reflexivity.
Defined.

(** X2.  A user without a user document answers a quiz for the first
    time: the command rejects, yet the answer has been stored; no total
    and no skill stat is written.  Sending the command again, with any
    option, resolves as already answered with that stored answer and
    changes nothing, so the answer is never counted. *)
Theorem handleAnswerCommand_unregistered_user `{MessageTemplates}
  (accountId : string) (quiz : Quiz.t) (answerIndex again : Z) (w : World) :
  notYetAnswered (db w) accountId quiz ->
  usersCollection (db w) !! accountId = None ->
  exists e w' r,
    handleAnswerCommand accountId quiz answerIndex w = (Rejected e, w')
    /\ answersCollection (db w') =
       (answersCollection (db w) ++ [storedAnswer w accountId quiz answerIndex])%list
    /\ usersCollection (db w') = usersCollection (db w)
    /\ skillStatsCollection (db w') = skillStatsCollection (db w)
    /\ growthMilestonesCollection (db w') = growthMilestonesCollection (db w)
    /\ handleAnswerCommand accountId quiz again w' = (Resolved r, w')
    /\ AnswerCommandResult.alreadyAnswered r = Some true
    /\ AnswerCommandResult.answer r = storedAnswer w accountId quiz answerIndex.
Proof.
  intros Hnot Hu.
  pose proof (handleAnswerCommand_unregistered accountId quiz answerIndex w Hnot Hu)
    as Hrun.
  rewrite createAnswer_run in Hrun. cbn [snd] in Hrun.
  match type of Hrun with _ = (_, ?w1) => set (w' := w1) in * end.
  assert (Hans : answersCollection (db w') =
                 (answersCollection (db w)
                  ++ [storedAnswer w accountId quiz answerIndex])%list)
    by reflexivity.
  assert (Hdone : ~ notYetAnswered (db w') accountId quiz).
  { intros Hn. apply (Hn (storedAnswer w accountId quiz answerIndex)).
    - rewrite Hans. apply in_or_app. right. left. reflexivity.
    - reflexivity.
    - reflexivity. }
  destruct (handleAnswerCommand_repeat accountId quiz again w' Hdone)
    as (r & Hrun2 & Hal & Hin & Ha & Hq).
  exists "NOT_FOUND", w', r.
  split; [exact Hrun|]. split; [exact Hans|].
  do 3 (split; [reflexivity|]).
  split; [exact Hrun2|]. split; [exact Hal|].
  rewrite Hans in Hin. apply in_app_or in Hin.
  destruct Hin as [Hin|[Heq|[]]].
  - exfalso. exact (Hnot _ Hin Ha Hq).
  - symmetry. exact Heq.
Qed.

Lemma handleAnswerCommand_unregistered_user_witness :
  exists e w' r,
    handleAnswerCommand (templates := blankTemplates) "bob" firstQuiz 2 firstWorld
      = (Rejected e, w')
    /\ length (answersCollection (db w')) = 1%nat
    /\ skillStatsCollection (db w') = ∅
    /\ handleAnswerCommand (templates := blankTemplates) "bob" firstQuiz 0 w'
       = (Resolved r, w')
    /\ AnswerCommandResult.alreadyAnswered r = Some true.
Proof.
  destruct (handleAnswerCommand_unregistered_user (H := blankTemplates)
              "bob" firstQuiz 2 0 firstWorld)
    as (e & w' & r & Hrun & Hans & _ & Hss & _ & Hrun2 & Hal & _).
  - intros a [].
  - reflexivity.
  - exists e, w', r. split; [exact Hrun|].
    split; [rewrite Hans; reflexivity|].
    split; [rewrite Hss; reflexivity|].
    split; [exact Hrun2|exact Hal].
Defined.

(** X3.  A registered user answers a quiz and then sends an answer to the
    same quiz again, with any option: the second command changes nothing
    and reports the first answer with its verdict, so a stored answer
    cannot be replaced and is counted once. *)
Theorem handleAnswerCommand_second_answer_ignored `{MessageTemplates}
  (accountId : string) (quiz : Quiz.t) (first second : Z) (w : World) (u : User.t) :
  notYetAnswered (db w) accountId quiz ->
  usersCollection (db w) !! accountId = Some u ->
  exists r1 w1 r2,
    handleAnswerCommand accountId quiz first w = (Resolved r1, w1)
    /\ handleAnswerCommand accountId quiz second w1 = (Resolved r2, w1)
    /\ AnswerCommandResult.alreadyAnswered r2 = Some true
    /\ AnswerCommandResult.answer r2 = AnswerCommandResult.answer r1
    /\ AnswerCommandResult.isCorrect r2 = AnswerCommandResult.isCorrect r1
    /\ Answer.selectedAnswerIndex (AnswerCommandResult.answer r2) = first.
Proof.
  intros Hnot Hu.
  destruct (handleAnswerCommand_fresh accountId quiz first w u Hnot Hu)
    as (r1 & Hrun & Hans & Hcor & _).
  match type of Hrun with _ = (_, ?w3) => set (w1 := w3) in * end.
  destruct (handleAnswerCommand_effect accountId quiz first w)
    as [[Hdone _]|(_ & Hanswers & _)]; [contradiction|].
  rewrite Hrun in Hanswers. cbn [snd] in Hanswers.
  assert (Hdone : ~ notYetAnswered (db w1) accountId quiz).
  { intros Hn. apply (Hn (storedAnswer w accountId quiz first)).
    - rewrite Hanswers. apply in_or_app. right. left. reflexivity.
    - reflexivity.
    - reflexivity. }
  destruct (duplicate_check_some accountId quiz w1 Hdone) as (l & a & Hl & Hfind).
  destruct (getAnswersByUser_run accountId w1) as (l' & Hl' & Hmem).
  rewrite Hl in Hl'. injection Hl' as <-.
  assert (Ha : a = storedAnswer w accountId quiz first).
  { apply find_some in Hfind. destruct Hfind as [Hin Hq].
    apply bool_decide_eq_true_1 in Hq. apply Hmem in Hin.
    destruct Hin as [Hin Hacc]. rewrite Hanswers in Hin.
    apply in_app_or in Hin. destruct Hin as [Hin|[Heq|[]]].
    - exfalso. exact (Hnot _ Hin Hacc Hq).
    - symmetry. exact Heq. }
  exists r1, w1.
  unfold handleAnswerCommand at 2. rewrite (bind_run _ _ _ _ _ Hl). rewrite Hfind.
  eexists. split; [exact Hrun|]. split; [reflexivity|].
  cbn. rewrite Ha, Hans, Hcor. auto.
Qed.

Lemma handleAnswerCommand_second_answer_ignored_witness :
  exists r1 w1 r2,
    handleAnswerCommand (templates := blankTemplates) "alice" firstQuiz 1 firstWorld
      = (Resolved r1, w1)
    /\ handleAnswerCommand (templates := blankTemplates) "alice" firstQuiz 2 w1
       = (Resolved r2, w1)
    /\ AnswerCommandResult.isCorrect r2 = false
    /\ Answer.selectedAnswerIndex (AnswerCommandResult.answer r2) = 1%Z.
Proof.
  destruct (handleAnswerCommand_second_answer_ignored (H := blankTemplates)
              "alice" firstQuiz 1 2 firstWorld (exampleUser 0 0))
    as (r1 & w1 & r2 & Hrun1 & Hrun2 & _ & _ & Hcor & Hsel).
  - intros a [].
  - reflexivity.
  - exists r1, w1, r2. split; [exact Hrun1|]. split; [exact Hrun2|].
    split; [|exact Hsel].
    rewrite Hcor. vm_compute in Hrun1. injection Hrun1 as <- _. reflexivity.
Defined.

Lemma handleAnswerCommands_at_most_once `{MessageTemplates} commands :
  forall w,
    answeredAtMostOnce (db w) ->
    answeredAtMostOnce (db (handleAnswerCommands commands w)).
Proof.
  induction commands as [|[[accountId quiz] answerIndex] rest IH]; intros w Hinv.
  - exact Hinv.
  - cbn [handleAnswerCommands]. apply IH.
    apply handleAnswerCommand_at_most_once. exact Hinv.
Qed.

Lemma handleAnswerCommands_totals `{MessageTemplates} commands :
  forall w,
    totalsMatchAnswers (db w) ->
    totalsMatchAnswers (db (handleAnswerCommands commands w)).
Proof.
  induction commands as [|[[accountId quiz] answerIndex] rest IH]; intros w Hinv.
  - exact Hinv.
  - cbn [handleAnswerCommands]. apply IH.
    apply handleAnswerCommand_totals. exact Hinv.
Qed.

(** X4.  Answer commands run one after the other never leave a user with
    two stored answers to one quiz, whatever their outcomes, when that
    held before. *)
Theorem handleAnswerCommand_one_answer_per_quiz `{MessageTemplates}
  (commands : list (string * Quiz.t * Z)) (w : World)
  (accountId quizId : string) :
  answeredAtMostOnce (db w) ->
  (length (answersTo accountId quizId (db (handleAnswerCommands commands w))) <= 1)%nat.
Proof.
  intros Hinv. apply handleAnswerCommands_at_most_once. exact Hinv.
Qed.

Lemma handleAnswerCommand_one_answer_per_quiz_witness :
  (length (answersTo "alice" "quiz-1"
             (db (handleAnswerCommands (H := blankTemplates)
                    [("alice", firstQuiz, 1%Z); ("alice", firstQuiz, 2%Z);
                     ("bob", firstQuiz, 2%Z); ("bob", firstQuiz, 3%Z)]
                    firstWorld))) <= 1)%nat.
Proof.
  apply (handleAnswerCommand_one_answer_per_quiz (H := blankTemplates)).
  intros u q. cbn. lia.
Defined.

(** X5.  When every registered user's totals equal the numbers of the
    user's stored answers and stored correct answers, they still do after
    any answer commands run one after the other, whatever their
    outcomes. *)
Theorem handleAnswerCommand_totals_match_answers `{MessageTemplates}
  (commands : list (string * Quiz.t * Z)) (w : World)
  (accountId : string) (user : User.t) :
  totalsMatchAnswers (db w) ->
  usersCollection (db (handleAnswerCommands commands w)) !! accountId = Some user ->
  User.totalQuizzes user =
    N.of_nat (length (answersOf accountId
                        (answersCollection (db (handleAnswerCommands commands w)))))
  /\ User.correctCount user =
     N.of_nat (length (List.filter Answer.isCorrect
                         (answersOf accountId
                            (answersCollection
                               (db (handleAnswerCommands commands w)))))).
Proof.
  intros Hinv Hlook.
  exact (handleAnswerCommands_totals commands w Hinv accountId user Hlook).
Qed.

Lemma handleAnswerCommand_totals_match_answers_witness :
  exists user,
    usersCollection
      (db (handleAnswerCommands (H := blankTemplates)
             [("alice", firstQuiz, 2%Z); ("alice", firstQuiz, 0%Z)] firstWorld))
      !! "alice" = Some user
    /\ User.totalQuizzes user = 1%N
    /\ User.correctCount user = 1%N.
Proof.
  eexists. split; [vm_compute; reflexivity|].
  match goal with
  | |- User.totalQuizzes ?u = _ /\ _ =>
      destruct (handleAnswerCommand_totals_match_answers (H := blankTemplates)
                  [("alice", firstQuiz, 2%Z); ("alice", firstQuiz, 0%Z)]
                  firstWorld "alice" u) as [Ht Hc]
  end.
  - intros a usr Hl. cbn in Hl.
    destruct (decide (a = "alice")) as [->|Hne].
    + rewrite lookup_insert_eq in Hl. injection Hl as <-. split; reflexivity.
    + rewrite lookup_insert_ne in Hl by congruence.
      rewrite lookup_empty in Hl. discriminate Hl.
  - vm_compute. reflexivity.
  - rewrite Ht, Hc. split; vm_compute; reflexivity.
Defined.

(** ** Document ids of the skill statistics *)

Lemma string_length_append (a b : string) :
  String.length (a +:+ b) = (String.length a + String.length b)%nat.
Proof. induction a as [|c a IH]; simpl; [reflexivity|f_equal; exact IH]. Qed.

Lemma string_append_cancel_r (a1 a2 s : string) :
  a1 +:+ s = a2 +:+ s -> a1 = a2.
Proof.
  revert a2. induction a1 as [|c a1 IH]; intros [|c2 a2] Heq.
  - reflexivity.
  - apply (f_equal String.length) in Heq.
    rewrite !string_length_append in Heq. simpl in Heq. lia.
  - apply (f_equal String.length) in Heq.
    rewrite !string_length_append in Heq. simpl in Heq. lia.
  - simpl in Heq. injection Heq as -> Heq. f_equal. apply IH. exact Heq.
Qed.

Lemma lastAscii_append (a s : string) :
  s <> "" -> lastAscii (a +:+ s) = lastAscii s.
Proof.
  intros Hs. induction a as [|c a IH]; [reflexivity|].
  simpl. rewrite IH.
  destruct (a +:+ s) eqn:E; [|reflexivity].
  destruct a; [change (s = "") in E; congruence|discriminate E].
Qed.

(** For the categories of the schema, the document id determines the
    user and the category. *)
Lemma generateSkillStatsId_inj a1 c1 a2 c2 :
  validCategory c1 -> validCategory c2 ->
  generateSkillStatsId a1 c1 = generateSkillStatsId a2 c2 ->
  a1 = a2 /\ c1 = c2.
Proof.
  unfold validCategory, allCategories, generateSkillStatsId.
  intros H1 H2 Heq.
  assert (Hlast : lastAscii ("_" +:+ c1) = lastAscii ("_" +:+ c2)).
  { rewrite <- (lastAscii_append a1 ("_" +:+ c1)) by discriminate.
    rewrite <- (lastAscii_append a2 ("_" +:+ c2)) by discriminate.
    rewrite Heq. reflexivity. }
  assert (Hc : c1 = c2).
  { cbn in H1, H2.
    destruct H1 as [<-|[<-|[<-|[<-|[<-|[]]]]]];
      destruct H2 as [<-|[<-|[<-|[<-|[<-|[]]]]]];
      first [reflexivity | discriminate Hlast]. }
  subst c2. split; [|reflexivity].
  apply (string_append_cancel_r a1 a2 ("_" +:+ c1)). exact Heq.
Qed.

(** X6.  For the categories of the schema, every (user, category) pair
    has a stat document of its own: an update of one pair leaves the stat
    of every other pair, and every other collection, as it was. *)
Theorem updateSkillStats_touches_one_pair
  (input : UpdateSkillStatsInput.t) (w : World)
  (accountId : string) (category : Category) :
  validCategory (UpdateSkillStatsInput.category input) ->
  validCategory category ->
  (accountId, category) <>
    (UpdateSkillStatsInput.accountId input, UpdateSkillStatsInput.category input) ->
  exists w',
    updateSkillStats input w = (Resolved tt, w')
    /\ statOf w' accountId category = statOf w accountId category
    /\ usersCollection (db w') = usersCollection (db w)
    /\ answersCollection (db w') = answersCollection (db w)
    /\ growthMilestonesCollection (db w') = growthMilestonesCollection (db w)
    /\ userProfilesCollection (db w') = userProfilesCollection (db w)
    /\ teamAnalyticsCollection (db w') = teamAnalyticsCollection (db w).
Proof.
  intros Hv1 Hv2 Hne.
  assert (Hkey : generateSkillStatsId (UpdateSkillStatsInput.accountId input)
                   (UpdateSkillStatsInput.category input)
                 <> generateSkillStatsId accountId category).
  { intros Heq. apply generateSkillStatsId_inj in Heq; [|assumption|assumption].
    destruct Heq as [Ha Hc]. apply Hne. rewrite Ha, Hc. reflexivity. }
  destruct (statOf w (UpdateSkillStatsInput.accountId input)
                     (UpdateSkillStatsInput.category input)) as [s|] eqn:Hs.
  - rewrite (updateSkillStats_update _ _ _ Hs). eexists. split; [reflexivity|].
    split; [unfold statOf; cbn; apply lookup_insert_ne; exact Hkey|].
    repeat split; reflexivity.
  - rewrite (updateSkillStats_create _ _ Hs). eexists. split; [reflexivity|].
    split; [unfold statOf; cbn; apply lookup_insert_ne; exact Hkey|].
    repeat split; reflexivity.
Qed.

Lemma updateSkillStats_touches_one_pair_witness :
  exists w',
    updateSkillStats (UpdateSkillStatsInput.mk "alice" "bug_fix" hard true)
      (exampleWorld emptyDb) = (Resolved tt, w')
    /\ statOf w' "alice_bug" "logic" = None
    /\ statOf w' "alice" "logic" = None.
Proof.
  destruct (updateSkillStats_touches_one_pair
              (UpdateSkillStatsInput.mk "alice" "bug_fix" hard true)
              (exampleWorld emptyDb) "alice_bug" "logic")
    as (w' & Hrun & Hstat & _).
  - cbn. auto.
  - cbn. auto 6.
  - discriminate.
  - exists w'. split; [exact Hrun|]. split; [rewrite Hstat; reflexivity|].
    vm_compute in Hrun. injection Hrun as <-. reflexivity.
Defined.

(** ** Users *)

Lemma getOrCreateUser_found input w u :
  usersCollection (db w) !! CreateUserInput.accountId input = Some u ->
  getOrCreateUser input w = (Resolved u, w).
Proof.
  intros Hu. unfold getOrCreateUser, mbind, Async_bind, readDb.
  rewrite Hu. reflexivity.
Qed.

Lemma getOrCreateUser_missing input w :
  usersCollection (db w) !! CreateUserInput.accountId input = None ->
  getOrCreateUser input w =
  (Resolved (User.mk (CreateUserInput.accountId input)
               (CreateUserInput.platform input) 0 0
               (clock w (tick w)) (clock w (tick w))),
   withDb (advance w)
     (withUsers (db w)
        (<[CreateUserInput.accountId input :=
             User.mk (CreateUserInput.accountId input)
               (CreateUserInput.platform input) 0 0
               (clock w (tick w)) (clock w (tick w))]>
           (usersCollection (db w))))).
Proof.
  intros Hu. unfold getOrCreateUser, mbind, Async_bind, readDb.
  rewrite Hu. reflexivity.
Qed.

(** X7.  [getOrCreateUser] always resolves with the stored user
    document.  A user that exists is returned as stored and nothing is
    written, so the totals are never reset; a user that does not exist is
    created with no answers.  A second call, whatever platform it names,
    returns the same document and writes nothing.  No other user and no
    other collection changes, and an answer command of that user on a
    quiz not yet answered then resolves. *)
Theorem getOrCreateUser_registers_once `{MessageTemplates}
  (input again : CreateUserInput.t) (quiz : Quiz.t) (answerIndex : Z) (w : World) :
  CreateUserInput.accountId again = CreateUserInput.accountId input ->
  exists user w1,
    getOrCreateUser input w = (Resolved user, w1)
    /\ usersCollection (db w1) !! CreateUserInput.accountId input = Some user
    /\ (forall u,
          usersCollection (db w) !! CreateUserInput.accountId input = Some u ->
          user = u /\ w1 = w)
    /\ (usersCollection (db w) !! CreateUserInput.accountId input = None ->
        User.accountId user = CreateUserInput.accountId input
        /\ User.platform user = CreateUserInput.platform input
        /\ User.totalQuizzes user = 0%N /\ User.correctCount user = 0%N)
    /\ getOrCreateUser again w1 = (Resolved user, w1)
    /\ (forall other, other <> CreateUserInput.accountId input ->
          usersCollection (db w1) !! other = usersCollection (db w) !! other)
    /\ answersCollection (db w1) = answersCollection (db w)
    /\ skillStatsCollection (db w1) = skillStatsCollection (db w)
    /\ growthMilestonesCollection (db w1) = growthMilestonesCollection (db w)
    /\ userProfilesCollection (db w1) = userProfilesCollection (db w)
    /\ teamAnalyticsCollection (db w1) = teamAnalyticsCollection (db w)
    /\ (notYetAnswered (db w) (CreateUserInput.accountId input) quiz ->
        exists r w2,
          handleAnswerCommand (CreateUserInput.accountId input) quiz answerIndex w1
          = (Resolved r, w2)).
Proof.
  intros Hagain.
  destruct (usersCollection (db w) !! CreateUserInput.accountId input)
    as [u|] eqn:Hu.
  - exists u, w. split; [apply getOrCreateUser_found; exact Hu|].
    split; [exact Hu|].
    split; [intros u0 [= <-]; auto|]. split; [discriminate|].
    split; [apply getOrCreateUser_found; rewrite Hagain; exact Hu|].
    do 6 (split; [reflexivity|]).
    intros Hnot.
    destruct (handleAnswerCommand_fresh _ quiz answerIndex w u Hnot Hu)
      as (r & Hrun & _).
    eexists _, _. exact Hrun.
  - rewrite (getOrCreateUser_missing _ _ Hu). eexists _, _.
    split; [reflexivity|].
    split; [cbn; apply lookup_insert_eq|].
    split; [discriminate|]. split; [cbn; auto|].
    split.
    { apply getOrCreateUser_found. rewrite Hagain. cbn. apply lookup_insert_eq. }
    split; [intros other Hother; cbn; apply lookup_insert_ne; congruence|].
    do 5 (split; [reflexivity|]).
    intros Hnot.
    match goal with
    | |- exists r w2, handleAnswerCommand ?a quiz answerIndex ?w1 = _ =>
        assert (Hu1 : usersCollection (db w1) !! a
                      = Some (User.mk a (CreateUserInput.platform input) 0 0
                                (clock w (tick w)) (clock w (tick w))))
          by (cbn; apply lookup_insert_eq);
        destruct (handleAnswerCommand_fresh a quiz answerIndex w1 _ Hnot Hu1)
          as (r & Hrun & _)
    end.
    eexists _, _. exact Hrun.
Qed.

Lemma getOrCreateUser_registers_once_witness :
  exists user w1,
    getOrCreateUser (CreateUserInput.mk "bob" "github") (exampleWorld emptyDb)
      = (Resolved user, w1)
    /\ User.totalQuizzes user = 0%N
    /\ getOrCreateUser (CreateUserInput.mk "bob" "gitlab") w1 = (Resolved user, w1)
    /\ exists r w2,
         handleAnswerCommand (templates := blankTemplates) "bob" firstQuiz 2 w1
         = (Resolved r, w2).
Proof.
  destruct (getOrCreateUser_registers_once (H := blankTemplates)
              (CreateUserInput.mk "bob" "github")
              (CreateUserInput.mk "bob" "gitlab") firstQuiz 2
              (exampleWorld emptyDb) eq_refl)
    as (user & w1 & Hrun & _ & _ & Hnew & Hagain & _ & _ & _ & _ & _ & _ & Hcmd).
  exists user, w1. split; [exact Hrun|].
  split; [apply Hnew; reflexivity|]. split; [exact Hagain|].
  apply Hcmd. intros a [].
Defined.

(** X8.  [updateUserStats] rejects for a user without a document and
    then writes nothing.  For a user with a document it resolves, adds
    one answer, adds one correct answer exactly when the answer is
    correct, keeps the account id, platform and creation time, keeps
    [correctCount <= totalQuizzes] when it held, and changes no other
    user and no other collection. *)
Theorem updateUserStats_counts
  (accountId : string) (isCorrect : bool) (w : World) :
  (usersCollection (db w) !! accountId = None ->
   exists e w',
     updateUserStats accountId isCorrect w = (Rejected e, w')
     /\ db w' = db w)
  /\ (forall u,
        usersCollection (db w) !! accountId = Some u ->
        exists w' u',
          updateUserStats accountId isCorrect w = (Resolved tt, w')
          /\ usersCollection (db w') !! accountId = Some u'
          /\ User.totalQuizzes u' = (User.totalQuizzes u + 1)%N
          /\ User.correctCount u' =
             (User.correctCount u + (if isCorrect then 1 else 0))%N
          /\ User.accountId u' = User.accountId u
          /\ User.platform u' = User.platform u
          /\ User.createdAt u' = User.createdAt u
          /\ (userWellFormed u -> userWellFormed u')
          /\ (forall other, other <> accountId ->
                usersCollection (db w') !! other = usersCollection (db w) !! other)
          /\ answersCollection (db w') = answersCollection (db w)
          /\ skillStatsCollection (db w') = skillStatsCollection (db w)
          /\ growthMilestonesCollection (db w') = growthMilestonesCollection (db w)
          /\ userProfilesCollection (db w') = userProfilesCollection (db w)
          /\ teamAnalyticsCollection (db w') = teamAnalyticsCollection (db w)).
Proof.
  split.
  - intros Hu. rewrite (updateUserStats_missing _ _ _ Hu).
    eexists _, _. split; reflexivity.
  - intros u Hu. rewrite (updateUserStats_found _ _ _ _ Hu).
    eexists _, _. split; [reflexivity|].
    split; [cbn; apply lookup_insert_eq|].
    split; [reflexivity|].
    split; [cbn; destruct isCorrect; lia|].
    do 3 (split; [reflexivity|]).
    split; [unfold userWellFormed; cbn; destruct isCorrect; lia|].
    split; [intros other Hother; cbn; apply lookup_insert_ne; congruence|].
    repeat split; reflexivity.
Qed.

Lemma updateUserStats_counts_witness :
  (exists e w', updateUserStats "bob" true firstWorld = (Rejected e, w')
                /\ db w' = db firstWorld)
  /\ exists w' u',
       updateUserStats "alice" true firstWorld = (Resolved tt, w')
       /\ usersCollection (db w') !! "alice" = Some u'
       /\ User.totalQuizzes u' = 1%N.
Proof.
  destruct (updateUserStats_counts "bob" true firstWorld) as [Hmiss _].
  destruct (updateUserStats_counts "alice" true firstWorld) as [_ Hfound].
  split.
  - apply Hmiss. reflexivity.
  - destruct (Hfound (exampleUser 0 0) eq_refl)
      as (w' & u' & Hrun & Hu' & Ht & _).
    exists w', u'. split; [exact Hrun|]. split; [exact Hu'|]. rewrite Ht. reflexivity.
Defined.

(** ** The first-correct rule and the shape of a milestone check *)

Lemma milestoneCandidates_first accountId answer user skillStats d :
  (exists i, In i (milestoneCandidates accountId answer user skillStats d)
     /\ CreateGrowthMilestoneInput.type i = first_correct)
  <-> Answer.isCorrect answer = true /\ User.correctCount user = 1%N.
Proof.
  unfold milestoneCandidates. split.
  - intros (i & Hin & HT).
    apply in_app_or in Hin. destruct Hin as [Hin|Hin].
    { destruct (Answer.isCorrect answer && (User.correctCount user =? 1)%N) eqn:E;
        [|destruct Hin].
      apply andb_prop in E. destruct E as [E1 E2]. apply N.eqb_eq in E2. auto. }
    apply in_app_or in Hin. destruct Hin as [Hin|Hin].
    + destruct skillStats as [s|]; [|destruct Hin].
      destruct (_ && _ && _); [|destruct Hin].
      destruct Hin as [<-|[]]. discriminate HT.
    + destruct (includes _ _); [|destruct Hin].
      destruct Hin as [<-|[]]. discriminate HT.
  - intros [Hc Hone]. exists (firstCorrectCandidate accountId answer).
    split; [|reflexivity].
    apply in_or_app. left. rewrite Hc. apply N.eqb_eq in Hone. rewrite Hone.
    left. reflexivity.
Qed.

Lemma milestoneCandidates_shape accountId answer user skillStats d :
  (length (milestoneCandidates accountId answer user skillStats d) <= 3)%nat
  /\ forall i, In i (milestoneCandidates accountId answer user skillStats d) ->
       CreateGrowthMilestoneInput.accountId i = accountId
       /\ (CreateGrowthMilestoneInput.type i = first_correct
           \/ CreateGrowthMilestoneInput.type i = category_master
           \/ CreateGrowthMilestoneInput.type i = total_milestone).
Proof.
  unfold milestoneCandidates. split.
  - rewrite !length_app.
    destruct (Answer.isCorrect answer && _);
      destruct skillStats as [s|]; try destruct (_ && _ && _);
      destruct (includes _ _); cbn; lia.
  - intros i Hin.
    apply in_app_or in Hin. destruct Hin as [Hin|Hin].
    { destruct (Answer.isCorrect answer && _); [|destruct Hin].
      destruct Hin as [<-|[]]. cbn. auto. }
    apply in_app_or in Hin. destruct Hin as [Hin|Hin].
    + destruct skillStats as [s|]; [|destruct Hin].
      destruct (_ && _ && _); [|destruct Hin].
      destruct Hin as [<-|[]]. cbn. auto.
    + destruct (includes _ _); [|destruct Hin].
      destruct Hin as [<-|[]]. cbn. auto.
Qed.

Lemma milestonesOf_length ids times inputs :
  forall n, length (milestonesOf ids times n inputs) = length inputs.
Proof.
  induction inputs as [|i rest IH]; intros n; cbn; [reflexivity|].
  rewrite IH. reflexivity.
Qed.

(** X9.  One milestone check creates a first-correct milestone if and
    only if the answer is correct and the user's count of correct answers
    is exactly 1.  A check creates at most three milestones, each for the
    checked user and of type first-correct, category-master or
    total-milestone, and it keeps every milestone stored before, in
    order. *)
Theorem checkAndCreateMilestones_first_correct :
  forall accountId answer user skillStats w,
    exists w' created,
      checkAndCreateMilestones accountId answer user skillStats w
        = (Resolved tt, w')
      /\ growthMilestonesCollection (db w') =
         (growthMilestonesCollection (db w) ++ created)%list
      /\ ((exists m, In m created /\ GrowthMilestone.type m = first_correct)
          <-> Answer.isCorrect answer = true /\ User.correctCount user = 1%N)
      /\ (length created <= 3)%nat
      /\ (forall m, In m created ->
            GrowthMilestone.accountId m = accountId
            /\ (GrowthMilestone.type m = first_correct
                \/ GrowthMilestone.type m = category_master
                \/ GrowthMilestone.type m = total_milestone)).
Proof.
  intros accountId answer user skillStats w.
  destruct (checkAndCreateMilestones_run accountId answer user skillStats w)
    as (w' & Hrun & Hms & _).
  exists w', (createdBy accountId answer user skillStats w).
  split; [exact Hrun|]. split; [exact Hms|]. unfold createdBy. split.
  - rewrite milestonesOf_emits. apply milestoneCandidates_first.
  - split.
    + rewrite milestonesOf_length. apply milestoneCandidates_shape.
    + intros m Hin.
      destruct (milestonesOf_source _ _ _ _ _ Hin) as (i & Hi & Ha & Hty & _).
      destruct (proj2 (milestoneCandidates_shape accountId answer user
                         skillStats (db w)) i Hi) as [Hacc Htype].
      rewrite Ha, Hty. auto.
Qed.

Lemma checkAndCreateMilestones_first_correct_witness :
  exists w' created m,
    checkAndCreateMilestones "alice" (exampleAnswer true) (exampleUser 1 1) None
      (exampleWorld emptyDb) = (Resolved tt, w')
    /\ growthMilestonesCollection (db w') = created
    /\ In m created /\ GrowthMilestone.type m = first_correct
    /\ GrowthMilestone.accountId m = "alice".
Proof.
  destruct (checkAndCreateMilestones_first_correct "alice" (exampleAnswer true)
              (exampleUser 1 1) None (exampleWorld emptyDb))
    as (w' & created & Hrun & Hms & Hiff & _ & Hall).
  destruct (proj2 Hiff (conj eq_refl eq_refl)) as (m & Hin & Hty).
  exists w', created, m. split; [exact Hrun|]. split; [exact Hms|].
  split; [exact Hin|]. split; [exact Hty|]. apply (Hall m Hin).
Defined.

(** ** Profiles *)

Lemma upsertUserProfile_existing input w p :
  userProfilesCollection (db w) !! CreateUserProfileInput.accountId input = Some p ->
  upsertUserProfile input w =
  (Resolved
     (UserProfile.mk (UserProfile.accountId p)
        (nullish (CreateUserProfileInput.careerGoal input) (UserProfile.careerGoal p))
        (CreateUserProfileInput.experienceLevel input)
        (CreateUserProfileInput.yearsOfExperience input)
        (nullish (CreateUserProfileInput.focusAreas input) (UserProfile.focusAreas p))
        (nullish (CreateUserProfileInput.selfAssessment input)
                 (UserProfile.selfAssessment p))
        (UserProfile.createdAt p) (clock w (tick w))),
   withDb (advance w)
     (withUserProfiles (db w)
        (<[CreateUserProfileInput.accountId input :=
             UserProfile.mk (UserProfile.accountId p)
               (nullish (CreateUserProfileInput.careerGoal input)
                        (UserProfile.careerGoal p))
               (CreateUserProfileInput.experienceLevel input)
               (CreateUserProfileInput.yearsOfExperience input)
               (nullish (CreateUserProfileInput.focusAreas input)
                        (UserProfile.focusAreas p))
               (nullish (CreateUserProfileInput.selfAssessment input)
                        (UserProfile.selfAssessment p))
               (UserProfile.createdAt p) (clock w (tick w))]>
           (userProfilesCollection (db w))))).
Proof.
  intros Hp. unfold upsertUserProfile.
  unfold mbind at 1. unfold Async_bind at 1. unfold readDb at 1. rewrite Hp.
  unfold mbind, Async_bind, Timestamp_now, writeDb, readDb. cbn.
  rewrite lookup_insert_eq. unfold nullish.
  destruct (CreateUserProfileInput.careerGoal input);
    destruct (CreateUserProfileInput.focusAreas input);
    destruct (CreateUserProfileInput.selfAssessment input); reflexivity.
Qed.

Lemma upsertUserProfile_new input w :
  userProfilesCollection (db w) !! CreateUserProfileInput.accountId input = None ->
  upsertUserProfile input w =
  (Resolved
     (UserProfile.mk (CreateUserProfileInput.accountId input)
        (CreateUserProfileInput.careerGoal input)
        (CreateUserProfileInput.experienceLevel input)
        (CreateUserProfileInput.yearsOfExperience input)
        (Some (default [] (CreateUserProfileInput.focusAreas input)))
        (CreateUserProfileInput.selfAssessment input)
        (clock w (tick w)) (clock w (tick w))),
   withDb (advance w)
     (withUserProfiles (db w)
        (<[CreateUserProfileInput.accountId input :=
             UserProfile.mk (CreateUserProfileInput.accountId input)
               (CreateUserProfileInput.careerGoal input)
               (CreateUserProfileInput.experienceLevel input)
               (CreateUserProfileInput.yearsOfExperience input)
               (Some (default [] (CreateUserProfileInput.focusAreas input)))
               (CreateUserProfileInput.selfAssessment input)
               (clock w (tick w)) (clock w (tick w))]>
           (userProfilesCollection (db w))))).
Proof.
  intros Hp. unfold upsertUserProfile.
  unfold mbind at 1. unfold Async_bind at 1. unfold readDb at 1. rewrite Hp.
  reflexivity.
Qed.

(** X10.  [upsertUserProfile] always resolves with the profile it has
    stored under the account id, and [getUserProfile] then reads that
    profile.  On an existing profile the level and the years are
    replaced, the career goal, the focus areas and the self-assessment
    are replaced only when the input gives them, and the account id and
    the creation time stay; a new profile takes every field from the
    input, with no focus areas when the input gives none.  Other profiles
    and the other collections are left alone. *)
Theorem upsertUserProfile_merges (input : CreateUserProfileInput.t) (w : World) :
  exists profile w',
    upsertUserProfile input w = (Resolved profile, w')
    /\ getUserProfile (CreateUserProfileInput.accountId input) w'
       = (Resolved (Some profile), w')
    /\ UserProfile.experienceLevel profile = CreateUserProfileInput.experienceLevel input
    /\ UserProfile.yearsOfExperience profile
       = CreateUserProfileInput.yearsOfExperience input
    /\ UserProfile.updatedAt profile = clock w (tick w)
    /\ (forall p,
          userProfilesCollection (db w) !! CreateUserProfileInput.accountId input
            = Some p ->
          UserProfile.accountId profile = UserProfile.accountId p
          /\ UserProfile.createdAt profile = UserProfile.createdAt p
          /\ (CreateUserProfileInput.careerGoal input = None ->
              UserProfile.careerGoal profile = UserProfile.careerGoal p)
          /\ (forall goal, CreateUserProfileInput.careerGoal input = Some goal ->
                UserProfile.careerGoal profile = Some goal)
          /\ (CreateUserProfileInput.focusAreas input = None ->
              UserProfile.focusAreas profile = UserProfile.focusAreas p)
          /\ (forall areas, CreateUserProfileInput.focusAreas input = Some areas ->
                UserProfile.focusAreas profile = Some areas)
          /\ (CreateUserProfileInput.selfAssessment input = None ->
              UserProfile.selfAssessment profile = UserProfile.selfAssessment p)
          /\ (forall assessment,
                CreateUserProfileInput.selfAssessment input = Some assessment ->
                UserProfile.selfAssessment profile = Some assessment))
    /\ (userProfilesCollection (db w) !! CreateUserProfileInput.accountId input
          = None ->
        UserProfile.accountId profile = CreateUserProfileInput.accountId input
        /\ UserProfile.careerGoal profile = CreateUserProfileInput.careerGoal input
        /\ UserProfile.focusAreas profile
           = Some (default [] (CreateUserProfileInput.focusAreas input))
        /\ UserProfile.createdAt profile = clock w (tick w)
        /\ UserProfile.selfAssessment profile
           = CreateUserProfileInput.selfAssessment input)
    /\ (forall other, other <> CreateUserProfileInput.accountId input ->
          userProfilesCollection (db w') !! other
          = userProfilesCollection (db w) !! other)
    /\ usersCollection (db w') = usersCollection (db w)
    /\ answersCollection (db w') = answersCollection (db w)
    /\ skillStatsCollection (db w') = skillStatsCollection (db w)
    /\ growthMilestonesCollection (db w') = growthMilestonesCollection (db w)
    /\ teamAnalyticsCollection (db w') = teamAnalyticsCollection (db w).
Proof.
  destruct (userProfilesCollection (db w) !! CreateUserProfileInput.accountId input)
    as [p|] eqn:Hp.
  - rewrite (upsertUserProfile_existing _ _ _ Hp). eexists _, _.
    split; [reflexivity|].
    split; [unfold getUserProfile, readDb; cbn; rewrite lookup_insert_eq; reflexivity|].
    do 3 (split; [reflexivity|]).
    split.
    { intros p0 [= <-]. cbn.
      split; [reflexivity|]. split; [reflexivity|].
      split; [intros ->; reflexivity|]. split; [intros goal ->; reflexivity|].
      split; [intros ->; reflexivity|]. split; [intros areas ->; reflexivity|].
      split; [intros ->; reflexivity|]. intros assessment ->. reflexivity. }
    split; [discriminate|].
    split; [intros other Hother; cbn; apply lookup_insert_ne; congruence|].
    repeat split; reflexivity.
  - rewrite (upsertUserProfile_new _ _ Hp). eexists _, _.
    split; [reflexivity|].
    split; [unfold getUserProfile, readDb; cbn; rewrite lookup_insert_eq; reflexivity|].
    do 3 (split; [reflexivity|]).
    split; [discriminate|].
    split; [intros _; cbn; auto|].
    split; [intros other Hother; cbn; apply lookup_insert_ne; congruence|].
    repeat split; reflexivity.
Qed.

Lemma upsertUserProfile_merges_witness :
  exists profile w',
    upsertUserProfile
      (CreateUserProfileInput.mk "alice" None "mid" 4%Q None None) profiledWorld
    = (Resolved profile, w')
    /\ UserProfile.experienceLevel profile = "mid"
    /\ UserProfile.careerGoal profile = Some "staff engineer"
    /\ UserProfile.focusAreas profile = Some ["security"; "logic"]
    /\ UserProfile.createdAt profile = mkTimestamp 1690000000 0.
Proof.
  destruct (upsertUserProfile_merges
              (CreateUserProfileInput.mk "alice" None "mid" 4%Q None None) profiledWorld)
    as (profile & w' & Hrun & _ & Hlevel & _ & _ & Hold & _).
  destruct (Hold _ eq_refl) as (_ & Hcreated & Hgoal & _ & Hfocus & _).
  exists profile, w'. split; [exact Hrun|]. split; [exact Hlevel|].
  split; [rewrite Hgoal; reflexivity|].
  split; [rewrite Hfocus; reflexivity|]. exact Hcreated.
Defined.

(** X11.  The profile command always resolves: with a profile stored
    under the account id and read back by [getUserProfile], and with
    [isNew] telling whether there was none before.  Every field the
    command leaves out keeps the value of the existing profile (the level,
    the years, the focus areas, the career goal), and the creation time
    stays; without an existing profile the level defaults to mid, the
    years to 0 and the focus areas to none. *)
Theorem handleProfileCommand_partial_update `{ProfileTemplates}
  (accountId : string) (command : ProfileCommand.t) (w : World) :
  exists r w' profile,
    handleProfileCommand accountId command w = (Resolved r, w')
    /\ ProfileCommandResult.success r = true
    /\ ProfileCommandResult.profile r = Some profile
    /\ getUserProfile accountId w' = (Resolved (Some profile), w')
    /\ (forall p,
          userProfilesCollection (db w) !! accountId = Some p ->
          ProfileCommandResult.isNew r = Some false
          /\ UserProfile.experienceLevel profile
             = default (UserProfile.experienceLevel p)
                       (ProfileCommand.experience command)
          /\ UserProfile.yearsOfExperience profile
             = default (UserProfile.yearsOfExperience p)
                       (ProfileCommand.years command)
          /\ UserProfile.focusAreas profile
             = Some (default (default [] (UserProfile.focusAreas p))
                             (ProfileCommand.focus command))
          /\ UserProfile.careerGoal profile
             = nullish (ProfileCommand.goal command) (UserProfile.careerGoal p)
          /\ UserProfile.createdAt profile = UserProfile.createdAt p)
    /\ (userProfilesCollection (db w) !! accountId = None ->
        ProfileCommandResult.isNew r = Some true
        /\ UserProfile.accountId profile = accountId
        /\ UserProfile.experienceLevel profile
           = default "mid" (ProfileCommand.experience command)
        /\ UserProfile.yearsOfExperience profile
           = default 0%Q (ProfileCommand.years command)
        /\ UserProfile.focusAreas profile
           = Some (default [] (ProfileCommand.focus command))
        /\ UserProfile.careerGoal profile = ProfileCommand.goal command)
    /\ (forall other, other <> accountId ->
          userProfilesCollection (db w') !! other
          = userProfilesCollection (db w) !! other).
Proof.
  unfold handleProfileCommand, tryCatch.
  unfold mbind at 1. unfold Async_bind at 1. unfold getUserProfile at 1.
  unfold readDb at 1.
  destruct (userProfilesCollection (db w) !! accountId) as [p|] eqn:Hp.
  - unfold mbind at 1. unfold Async_bind at 1.
    rewrite (upsertUserProfile_existing _ _ p) by exact Hp.
    eexists _, _, _. split; [reflexivity|]. split; [reflexivity|].
    split; [reflexivity|].
    split; [unfold getUserProfile, readDb; cbn; rewrite lookup_insert_eq; reflexivity|].
    split.
    { intros p0 [= <-]. cbn.
      destruct (ProfileCommand.experience command),
        (ProfileCommand.years command), (ProfileCommand.focus command),
        (ProfileCommand.goal command), (UserProfile.focusAreas p),
        (UserProfile.careerGoal p);
        cbn; auto 7. }
    split; [discriminate|].
    intros other Hother. cbn. apply lookup_insert_ne. congruence.
  - unfold mbind at 1. unfold Async_bind at 1.
    rewrite upsertUserProfile_new by exact Hp.
    eexists _, _, _. split; [reflexivity|]. split; [reflexivity|].
    split; [reflexivity|].
    split; [unfold getUserProfile, readDb; cbn; rewrite lookup_insert_eq; reflexivity|].
    split; [discriminate|].
    split.
    { intros _. cbn.
      destruct (ProfileCommand.experience command),
        (ProfileCommand.years command), (ProfileCommand.focus command),
        (ProfileCommand.goal command); cbn; auto 7. }
    intros other Hother. cbn. apply lookup_insert_ne. congruence.
Qed.

Lemma handleProfileCommand_partial_update_witness :
  exists r w' profile,
    handleProfileCommand (profileTemplates := blankProfileTemplates) "alice"
      (ProfileCommand.mk None None (Some ["performance"]) None) profiledWorld
    = (Resolved r, w')
    /\ ProfileCommandResult.profile r = Some profile
    /\ UserProfile.experienceLevel profile = "senior"
    /\ UserProfile.focusAreas profile = Some ["performance"]
    /\ UserProfile.careerGoal profile = Some "staff engineer".
Proof.
  destruct (handleProfileCommand_partial_update (H := blankProfileTemplates) "alice"
              (ProfileCommand.mk None None (Some ["performance"]) None) profiledWorld)
    as (r & w' & profile & Hrun & _ & Hprof & _ & Hold & _).
  destruct (Hold _ eq_refl) as (_ & Hlevel & _ & Hfocus & Hgoal & _).
  exists r, w', profile. split; [exact Hrun|]. split; [exact Hprof|].
  split; [rewrite Hlevel; reflexivity|].
  split; [rewrite Hfocus; reflexivity|]. rewrite Hgoal. reflexivity.
Defined.

(** ** Bounds of the category priority *)

(** X12.  When the stat of the category, if there is one, has a correct
    rate between 0 and 1, the priority of the category lies between 0 and
    1; and a category without a stat scores 0.35, or 0.65 when it is among
    the profile's focus areas. *)
Theorem calculateCategoryPriority_bounds
  (nowMs : Z) (profile : UserProfile.t) (skillStats : list SkillStats.t)
  (category : Category) :
  (forall s, findStats skillStats category = Some s ->
             (0 <= SkillStats.correctRate s)%Q /\ (SkillStats.correctRate s <= 1)%Q) ->
  (0 <= calculateCategoryPriority nowMs profile skillStats category)%Q
  /\ (calculateCategoryPriority nowMs profile skillStats category <= 1)%Q
  /\ (findStats skillStats category = None ->
      (inFocus profile category ->
       calculateCategoryPriority nowMs profile skillStats category == 0.65)%Q
      /\ (~ inFocus profile category ->
          calculateCategoryPriority nowMs profile skillStats category == 0.35)%Q).
Proof.
  intros Hrate. unfold calculateCategoryPriority, inFocus.
  destruct (findStats skillStats category) as [s|] eqn:Hs.
  - destruct (Hrate s eq_refl) as [H0 H1]. cbn [mbind option_bind].
    split; [|split; [|discriminate]];
      destruct (3 <=? SkillStats.totalQuizzes s)%N;
      destruct (UserProfile.focusAreas profile) as [fa|];
      try destruct (Array_includes fa category);
      destruct (SkillStats.lastAnsweredAt s) as [t|];
      try destruct (7 <=? getDaysSince nowMs t)%Z;
      try destruct (3 <=? getDaysSince nowMs t)%Z;
      destruct (Qlt_bool (SkillStats.averageDifficulty s) 2); lra.
  - cbn [mbind option_bind].
    split; [|split; [|intros _; split]].
    + destruct (UserProfile.focusAreas profile) as [fa|];
        try destruct (Array_includes fa category); lra.
    + destruct (UserProfile.focusAreas profile) as [fa|];
        try destruct (Array_includes fa category); lra.
    + intros (fa & -> & Hin). apply Array_includes_In in Hin. rewrite Hin. lra.
    + intros Hno. destruct (UserProfile.focusAreas profile) as [fa|]; [|lra].
      destruct (Array_includes fa category) eqn:E; [|lra].
      exfalso. apply Hno. exists fa. split; [reflexivity|].
      apply Array_includes_In. exact E.
Qed.

Lemma calculateCategoryPriority_bounds_witness :
  (0 <= calculateCategoryPriority 1700864000000 (exampleProfile "mid")
          [weakSecurityStat] "security")%Q
  /\ (calculateCategoryPriority 1700864000000 (exampleProfile "mid")
        [weakSecurityStat] "security" <= 1)%Q
  /\ (calculateCategoryPriority 1700864000000 (exampleProfile "mid")
        [weakSecurityStat] "logic" == 0.65)%Q.
Proof.
  destruct (calculateCategoryPriority_bounds 1700864000000 (exampleProfile "mid")
              [weakSecurityStat] "security") as (H0 & H1 & _).
  { intros s [= <-]. cbn. split; lra. }
  destruct (calculateCategoryPriority_bounds 1700864000000 (exampleProfile "mid")
              [weakSecurityStat] "logic") as (_ & _ & Hnone).
  { intros s Hs. vm_compute in Hs. discriminate Hs. }
  split; [exact H0|]. split; [exact H1|].
  apply Hnone; [reflexivity|].
  exists ["security"; "logic"]. split; [reflexivity|right; left; reflexivity].
Defined.

(** ** Learning recommendations *)

Lemma Array_sort_by_key {A} (key : A -> Q) (arr : list A) :
  Sorted (fun a b => key a <= key b)%Q
         (Array_sort (fun a b => key a - key b)%Q arr).
Proof.
  apply sortBy_sorted.
  - intros x y Hb. apply Qle_bool_iff in Hb. lra.
  - intros x y Hb.
    destruct (Qlt_le_dec 0 (key x - key y)) as [Hlt|Hle].
    + lra.
    + apply Qle_bool_iff in Hle. congruence.
Qed.

Lemma Array_sort_by_key_descending {A} (key : A -> Q) (arr : list A) :
  Sorted (fun a b => key b <= key a)%Q
         (Array_sort (fun a b => key b - key a)%Q arr).
Proof.
  apply sortBy_sorted.
  - intros x y Hb. apply Qle_bool_iff in Hb. lra.
  - intros x y Hb.
    destruct (Qlt_le_dec 0 (key y - key x)) as [Hlt|Hle].
    + lra.
    + apply Qle_bool_iff in Hle. congruence.
Qed.

Lemma Sorted_map {A B} (f : A -> B) (R : B -> B -> Prop) (l : list A) :
  Sorted (fun a b => R (f a) (f b)) l -> Sorted R (map f l).
Proof.
  induction 1 as [|x l Hl IH Hx]; cbn [map]; constructor.
  - exact IH.
  - destruct Hx; cbn [map]; constructor. assumption.
Qed.

Lemma Sorted_Qle_head {A} (key : A -> Q) (x : A) (l : list A) :
  Sorted (fun a b => key a <= key b)%Q (x :: l) ->
  forall y, In y (x :: l) -> (key x <= key y)%Q.
Proof.
  intros Hs y Hy.
  apply Sorted_StronglySorted in Hs;
    [|intros a b c Hab Hbc; exact (Qle_trans _ _ _ Hab Hbc)].
  inversion Hs as [|? ? _ Hall]; subst.
  destruct Hy as [<-|Hy]; [apply Qle_refl|].
  rewrite Forall_forall in Hall. apply Hall. apply list_elem_of_In. exact Hy.
Qed.

Lemma weakAreaOf_priority (s : SkillStats.t) :
  (WeakArea.priority (weakAreaOf s) = "high"
     <-> (SkillStats.correctRate s < 0.3)%Q)
  /\ (WeakArea.priority (weakAreaOf s) = "medium"
     <-> (0.3 <= SkillStats.correctRate s)%Q
         /\ (SkillStats.correctRate s < 0.5)%Q)
  /\ (WeakArea.priority (weakAreaOf s) = "low"
     <-> (0.5 <= SkillStats.correctRate s)%Q).
Proof.
  unfold weakAreaOf. cbn [WeakArea.priority].
  destruct (Qlt_bool (SkillStats.correctRate s) 0.3) eqn:E3;
    [apply Qlt_bool_iff in E3
    |assert (H3 : ~ (SkillStats.correctRate s < 0.3)%Q)
       by (intros H; apply Qlt_bool_iff in H; congruence);
     apply Qnot_lt_le in H3];
    (destruct (Qlt_bool (SkillStats.correctRate s) 0.5) eqn:E5;
     [apply Qlt_bool_iff in E5
     |assert (H5 : ~ (SkillStats.correctRate s < 0.5)%Q)
        by (intros H; apply Qlt_bool_iff in H; congruence);
      apply Qnot_lt_le in H5]);
    repeat split; intros; try discriminate; try lra;
    try (exfalso; lra).
Qed.

Lemma weakStats_In (skillStats : list SkillStats.t) (s : SkillStats.t) :
  In s (Array_sort
          (fun a b => SkillStats.correctRate a - SkillStats.correctRate b)%Q
          (List.filter
             (fun s => (3 <=? SkillStats.totalQuizzes s)%N
                       && Qlt_bool (SkillStats.correctRate s) 0.6)
             skillStats))
  <-> In s skillStats /\ isWeak s.
Proof.
  unfold isWeak. split.
  - intros Hin. apply (Permutation_in _ (Array_sort_perm _ _)) in Hin.
    apply filter_In in Hin. destruct Hin as [Hin Hb].
    apply andb_true_iff in Hb. destruct Hb as [Ht Hr].
    apply N.leb_le in Ht. apply Qlt_bool_iff in Hr. auto.
  - intros (Hin & Ht & Hr).
    apply (Permutation_in _ (Permutation_sym (Array_sort_perm _ _))).
    apply filter_In. split; [exact Hin|].
    apply andb_true_iff. split; [apply N.leb_le; exact Ht|].
    apply Qlt_bool_iff. exact Hr.
Qed.

(** X14.  The learning recommendations.  With no stat at all there is no
    weak area, no suggested focus area (whatever the profile says) and one
    next step.  Otherwise the weak areas report exactly the stats with at
    least three attempts and a rate below 0.6, in ascending order of rate,
    with priority high below 0.3, medium from 0.3 to below 0.5 and low from
    0.5; the suggested focus areas are the profile's when it has some, and
    else the category of a weak area of least rate, or nothing when there
    is no weak area; and at most three next steps are given. *)
Theorem generateLearningRecommendations_weak_areas
  (profile : option UserProfile.t) (skillStats : list SkillStats.t) :
  let r := generateLearningRecommendations profile skillStats in
  (skillStats = [] ->
     Recommendations.weakAreas r = []
     /\ Recommendations.suggestedFocusAreas r = []
     /\ length (Recommendations.nextSteps r) = 1%nat)
  /\ (forall w, In w (Recommendations.weakAreas r) ->
        exists s, In s skillStats /\ isWeak s /\ reports w s)
  /\ (forall s, In s skillStats -> isWeak s ->
        exists w, In w (Recommendations.weakAreas r) /\ reports w s)
  /\ Sorted (fun a b => WeakArea.correctRate a <= WeakArea.correctRate b)%Q
            (Recommendations.weakAreas r)
  /\ (forall w, In w (Recommendations.weakAreas r) ->
        (WeakArea.priority w = "high" <-> (WeakArea.correctRate w < 0.3)%Q)
        /\ (WeakArea.priority w = "medium"
            <-> (0.3 <= WeakArea.correctRate w)%Q
                /\ (WeakArea.correctRate w < 0.5)%Q)
        /\ (WeakArea.priority w = "low"
            <-> (0.5 <= WeakArea.correctRate w)%Q))
  /\ (skillStats <> [] -> focusAreasOf profile <> [] ->
        Recommendations.suggestedFocusAreas r = focusAreasOf profile)
  /\ (skillStats <> [] -> focusAreasOf profile = [] ->
        match Recommendations.weakAreas r with
        | [] => Recommendations.suggestedFocusAreas r = []
        | weakest :: _ =>
            Recommendations.suggestedFocusAreas r = [WeakArea.category weakest]
            /\ forall w, In w (Recommendations.weakAreas r) ->
                 (WeakArea.correctRate weakest <= WeakArea.correctRate w)%Q
        end)
  /\ (length (Recommendations.nextSteps r) <= 3)%nat.
Proof.
  cbv zeta. unfold generateLearningRecommendations.
  destruct skillStats as [|s0 rest] eqn:Estats.
  { cbn. repeat split; try (intros; contradiction); try lia; try constructor.
    all: intros ? []. }
  rewrite <- Estats.
  assert (Hlen : (length skillStats =? 0)%nat = false)
    by (rewrite Estats; reflexivity).
  rewrite Hlen. clear Hlen.
  set (weakStats := Array_sort _ (List.filter _ skillStats)).
  assert (Hweak : forall s, In s weakStats <-> In s skillStats /\ isWeak s)
    by (intros s; apply weakStats_In).
  assert (Hsorted :
    Sorted (fun a b => SkillStats.correctRate a <= SkillStats.correctRate b)%Q
           weakStats) by apply Array_sort_by_key.
  cbn [Recommendations.weakAreas Recommendations.suggestedFocusAreas
       Recommendations.nextSteps].
  split; [intros Hnil; rewrite Hnil in Estats; discriminate Estats|].
  split.
  { intros w Hw. apply in_map_iff in Hw. destruct Hw as (s & <- & Hs).
    apply Hweak in Hs. exists s. repeat split; apply Hs. }
  split.
  { intros s Hs Hw. exists (weakAreaOf s). split; [|split; reflexivity].
    apply in_map. apply Hweak. auto. }
  split.
  { apply (Sorted_map weakAreaOf
             (fun a b => WeakArea.correctRate a <= WeakArea.correctRate b)%Q).
    exact Hsorted. }
  split.
  { intros w Hw. apply in_map_iff in Hw. destruct Hw as (s & <- & _).
    apply weakAreaOf_priority. }
  split.
  { intros _ Hfocus. destruct profile as [p|]; [|contradiction].
    cbn in Hfocus |- *.
    destruct (UserProfile.focusAreas p) as [[|c l]|]; cbn in Hfocus |- *;
      [contradiction|reflexivity|contradiction]. }
  split.
  { intros _ Hfocus.
    assert (Hnone :
      match profile ≫= UserProfile.focusAreas with
      | Some (c :: l) => False
      | _ => True
      end).
    { destruct profile as [p|]; [|exact I]. cbn in Hfocus |- *.
      destruct (UserProfile.focusAreas p) as [[|c l]|]; cbn in Hfocus;
        [exact I|discriminate Hfocus|exact I]. }
    destruct weakStats as [|weakest ws] eqn:Ews; cbn [map].
    - destruct (profile ≫= UserProfile.focusAreas) as [[|c l]|];
        [reflexivity|contradiction|reflexivity].
    - split.
      + destruct (profile ≫= UserProfile.focusAreas) as [[|c l]|];
          [reflexivity|contradiction|reflexivity].
      + intros w Hw.
        change (weakAreaOf weakest :: map weakAreaOf ws)
          with (map weakAreaOf (weakest :: ws)) in Hw.
        apply in_map_iff in Hw. destruct Hw as (s & <- & Hs).
        exact (Sorted_Qle_head SkillStats.correctRate weakest ws Hsorted s Hs). }
  destruct weakStats as [|weakest ws];
    destruct (List.filter _ skillStats) as [|mastered ms];
    destruct profile as [p|]; cbn [app length];
    try (destruct (String.eqb (UserProfile.experienceLevel p) "junior"));
    try (destruct (50 <=? _)%N);
    rewrite ?length_app; cbn [length app]; lia.
Qed.

(** ** Selection of the category *)

Lemma Math_floor_random_index (random : Q) (n : nat) :
  (0 <= random)%Q -> (random < 1)%Q -> (0 < n)%nat ->
  (0 <= Qfloor (random * inject_Z (Z.of_nat n)))%Z
  /\ (Qfloor (random * inject_Z (Z.of_nat n)) < Z.of_nat n)%Z.
Proof.
  intros H0 H1 Hn.
  assert (Hpos : (0 < inject_Z (Z.of_nat n))%Q).
  { change 0%Q with (inject_Z 0). rewrite <- Zlt_Qlt. lia. }
  split.
  - change 0%Z with (Qfloor 0). apply Qfloor_resp_le.
    apply Qmult_le_0_compat; [exact H0|apply Qlt_le_weak; exact Hpos].
  - rewrite Zlt_Qlt.
    apply Qle_lt_trans with (random * inject_Z (Z.of_nat n))%Q;
      [apply Qfloor_le|].
    rewrite <- (Qmult_1_l (inject_Z (Z.of_nat n))) at 2.
    apply Qmult_lt_compat_r; assumption.
Qed.

Lemma Array_get_in_range {A} (arr : list A) (i : Z) :
  (0 <= i)%Z -> (i < Z.of_nat (length arr))%Z ->
  exists x, Array_get arr i = Some x /\ arr !! Z.to_nat i = Some x.
Proof.
  intros H0 H1. unfold Array_get.
  destruct (i <? 0)%Z eqn:E; [apply Z.ltb_lt in E; lia|].
  destruct (lookup_lt_is_Some_2 arr (Z.to_nat i)) as [x Hx]; [lia|].
  exists x. split; exact Hx.
Qed.

Lemma filter_length_Permutation {A} (f : A -> bool) (l l' : list A) :
  Permutation l l' -> length (List.filter f l) = length (List.filter f l').
Proof.
  induction 1 as [|x l l' _ IH|x y l|l l' l'' _ IH1 _ IH2]; cbn.
  - reflexivity.
  - destruct (f x); cbn; congruence.
  - destruct (f x), (f y); reflexivity.
  - congruence.
Qed.

Lemma StronglySorted_middle {A} (R : A -> A -> Prop) (l1 l2 : list A) (x : A) :
  StronglySorted R (l1 ++ x :: l2)%list -> Forall (R x) l2.
Proof.
  induction l1 as [|y l1 IH]; cbn; intros Hs;
    inversion Hs as [|? ? Hl Hall]; subst.
  - exact Hall.
  - apply IH. exact Hl.
Qed.

Lemma scoredHigher_sorted (l : list (Category * Q)) (k : nat) (x : Category * Q) :
  Sorted (fun a b => snd b <= snd a)%Q l ->
  l !! k = Some x ->
  (length (scoredHigher l (snd x)) <= k)%nat.
Proof.
  intros Hs Hk.
  apply Sorted_StronglySorted in Hs;
    [|intros a b c Hab Hbc; exact (Qle_trans _ _ _ Hbc Hab)].
  pose proof (lookup_lt_Some _ _ _ Hk) as Hlt.
  rewrite <- (take_drop_middle l k x Hk) in Hs |- *.
  apply StronglySorted_middle in Hs.
  unfold scoredHigher. rewrite List.filter_app, List.length_app.
  assert (Hrest :
    List.filter (fun p => Qlt_bool (snd x) (snd p)) (x :: drop (S k) l) = []).
  { cbn [List.filter].
    assert (Hx : Qlt_bool (snd x) (snd x) = false).
    { destruct (Qlt_bool (snd x) (snd x)) eqn:E; [|reflexivity].
      apply Qlt_bool_iff in E. exfalso. exact (Qlt_irrefl _ E). }
    rewrite Hx.
    induction Hs as [|y l' Hy _ IH]; [reflexivity|].
    cbn [List.filter].
    destruct (Qlt_bool (snd x) (snd y)) eqn:E; [|exact IH].
    apply Qlt_bool_iff in E. exfalso. exact (Qlt_not_le _ _ E Hy). }
  rewrite Hrest. cbn [length].
  pose proof (List.filter_length_le
                (fun p => Qlt_bool (snd x) (snd p)) (take k l)) as Hle.
  rewrite length_take in Hle. lia.
Qed.

(** X15.  Whatever [Math.random()] returns (a number from 0 up to, but not
    including, 1), [selectOptimalCategory] returns one of the five
    categories; and when there is a profile and at least one stat, at most
    two categories score strictly higher than the one selected. *)
Theorem selectOptimalCategory_top_three
  (random : Q) (nowMs : nat -> Z) (profile : option UserProfile.t)
  (skillStats : list SkillStats.t) :
  (0 <= random)%Q -> (random < 1)%Q ->
  exists c,
    selectOptimalCategory random nowMs profile skillStats = Some c
    /\ In c allCategories
    /\ forall p, profile = Some p -> skillStats <> [] ->
         exists s,
           In (c, s) (scoredCategories nowMs p skillStats)
           /\ (length (scoredHigher (scoredCategories nowMs p skillStats) s)
               <= 2)%nat.
Proof.
  intros H0 H1.
  assert (Hrandom : exists c,
    Array_get allCategories
      (Qfloor (random * inject_Z (Z.of_nat (length allCategories)))) = Some c
    /\ In c allCategories).
  { destruct (Math_floor_random_index random (length allCategories) H0 H1)
      as [Hlo Hhi]; [cbn; lia|].
    destruct (Array_get_in_range allCategories _ Hlo Hhi) as (c & Hc & Hl).
    exists c. split; [exact Hc|].
    apply list_elem_of_In. exact (list_elem_of_lookup_2 _ _ _ Hl). }
  unfold selectOptimalCategory.
  destruct profile as [p|].
  2:{ destruct Hrandom as (c & Hc & Hin). exists c.
      repeat split; [exact Hc|exact Hin|discriminate]. }
  destruct skillStats as [|s0 rest] eqn:Estats.
  { destruct Hrandom as (c & Hc & Hin). exists c. cbn [length Nat.eqb].
    repeat split; [exact Hc|exact Hin|]. intros ? _ Hne. contradiction. }
  rewrite <- Estats. clear Hrandom.
  assert (Hlen : (length skillStats =? 0)%nat = false)
    by (rewrite Estats; reflexivity).
  rewrite Hlen. clear Hlen. cbv zeta.
  fold (scoredCategories nowMs p skillStats).
  set (scores := scoredCategories nowMs p skillStats).
  set (sorted := Array_sort (fun a b => snd b - snd a)%Q scores).
  assert (Hperm : Permutation sorted scores) by apply Array_sort_perm.
  assert (Hsorted : Sorted (fun a b => snd b <= snd a)%Q sorted)
    by apply (Array_sort_by_key_descending snd).
  assert (Hfive : length sorted = 5%nat)
    by (rewrite (Permutation_length Hperm); reflexivity).
  assert (Hthree : length (firstn 3 sorted) = 3%nat)
    by (rewrite List.length_firstn, Hfive; reflexivity).
  destruct (Math_floor_random_index random (length (firstn 3 sorted)) H0 H1)
    as [Hlo Hhi]; [lia|].
  destruct (Array_get_in_range (firstn 3 sorted) _ Hlo Hhi)
    as ([c s] & Hget & Hlook).
  rewrite Hget. exists c. cbn [fmap option_fmap option_map fst].
  assert (Hk : (Z.to_nat (Qfloor (random *
                   inject_Z (Z.of_nat (length (firstn 3 sorted))))) < 3)%nat)
    by lia.
  set (k := Z.to_nat _) in *.
  assert (Hlook' : sorted !! k = Some (c, s)).
  { change (firstn 3 sorted) with (take 3 sorted) in Hlook.
    apply lookup_take_Some in Hlook. apply Hlook. }
  assert (Hin : In (c, s) scores).
  { apply (Permutation_in _ Hperm). apply list_elem_of_In.
    exact (list_elem_of_lookup_2 _ _ _ Hlook'). }
  split; [reflexivity|]. split.
  - unfold scores, scoredCategories in Hin. cbn in Hin.
    cbn. intuition congruence.
  - intros p' Hp' _. injection Hp' as <-. exists s. split; [exact Hin|].
    fold scores. unfold scoredHigher.
    rewrite <- (filter_length_Permutation _ _ _ Hperm).
    pose proof (scoredHigher_sorted sorted k (c, s) Hsorted Hlook') as Hle.
    unfold scoredHigher in Hle. cbn [snd] in Hle. lia.
Qed.

Lemma selectOptimalCategory_top_three_witness :
  exists c,
    selectOptimalCategory (1 # 2) (fun _ => 1700000000000%Z)
      (Some (exampleProfile "mid")) [weakSecurityStat] = Some c
    /\ In c allCategories
    /\ forall p, Some (exampleProfile "mid") = Some p -> [weakSecurityStat] <> [] ->
         exists s,
           In (c, s) (scoredCategories (fun _ => 1700000000000%Z) p
                        [weakSecurityStat])
           /\ (length (scoredHigher
                         (scoredCategories (fun _ => 1700000000000%Z) p
                            [weakSecurityStat]) s) <= 2)%nat.
Proof.
  apply (selectOptimalCategory_top_three (1 # 2) (fun _ => 1700000000000%Z)
           (Some (exampleProfile "mid")) [weakSecurityStat]).
  - discriminate.
  - reflexivity.
Defined.

(** ** Keys of the team analytics *)

Lemma string_append_cons (x : Ascii.ascii) (a b : string) :
  String x a +:+ b = String x (a +:+ b).
Proof. reflexivity. Qed.

Lemma string_append_assoc (a b c : string) :
  (a +:+ b) +:+ c = a +:+ (b +:+ c).
Proof.
  induction a as [|x a IH]; [reflexivity|].
  rewrite !string_append_cons, IH. reflexivity.
Qed.

Lemma string_append_nil_r (a : string) : a +:+ "" = a.
Proof.
  induction a as [|x a IH]; [reflexivity|].
  rewrite string_append_cons, IH. reflexivity.
Qed.

Lemma string_append_inj_length (a b c d : string) :
  String.length a = String.length c -> a +:+ b = c +:+ d -> a = c /\ b = d.
Proof.
  revert c. induction a as [|x a IH]; intros [|y c] Hlen Heq;
    simpl in Hlen; try discriminate Hlen.
  - auto.
  - rewrite !string_append_cons in Heq. injection Heq as -> Heq.
    destruct (IH c) as [-> ->]; [lia|exact Heq|]. auto.
Qed.

Lemma analyticsIdOf_prefix period experienceLevel category :
  analyticsIdOf period experienceLevel category
  = period +:+ analyticsIdOf "" experienceLevel category.
Proof.
  unfold analyticsIdOf.
  destruct (truthy experienceLevel), (truthy category); simpl;
    rewrite ?string_append_assoc, ?string_append_nil_r; reflexivity.
Qed.

Lemma periodPattern_length (period : string) :
  periodPattern period = true -> String.length period = 7%nat.
Proof.
  destruct period as [|a1 [|a2 [|a3 [|a4 [|a5 [|a6 [|a7 [|a8 rest]]]]]]]];
    cbn; intros H; first [discriminate H | reflexivity].
Qed.

Lemma analyticsIdOf_inj p1 l1 c1 p2 l2 c2 :
  validAnalyticsKey p1 l1 c1 -> validAnalyticsKey p2 l2 c2 ->
  analyticsIdOf p1 l1 c1 = analyticsIdOf p2 l2 c2 ->
  p1 = p2 /\ l1 = l2 /\ c1 = c2.
Proof.
  unfold validAnalyticsKey, validPeriod, validLevel, validCategory, allCategories.
  intros (Hp1 & Hl1 & Hc1) (Hp2 & Hl2 & Hc2) Heq.
  apply periodPattern_length in Hp1, Hp2.
  rewrite (analyticsIdOf_prefix p1), (analyticsIdOf_prefix p2) in Heq.
  apply string_append_inj_length in Heq; [|congruence].
  destruct Heq as [-> Heq]. split; [reflexivity|].
  destruct l1 as [l1|], l2 as [l2|], c1 as [c1|], c2 as [c2|];
    cbn in Hl1, Hl2, Hc1, Hc2;
    repeat match goal with
           | H : _ \/ _ |- _ => destruct H as [H|H]
           | H : False |- _ => destruct H
           | H : _ = ?x |- _ => is_var x; subst x
           end;
    solve [split; reflexivity | vm_compute in Heq; discriminate Heq].
Qed.

(** ** Webhook verification *)

Lemma truthy_headerIs (header : option string) :
  truthy header = true <-> headerIs header (stringOf header).
Proof.
  unfold headerIs. destruct header as [h|]; cbn.
  - rewrite negb_true_iff. split.
    + intros Hne. split; [reflexivity|]. intros ->. discriminate Hne.
    + intros [_ Hne]. apply String.eqb_neq. exact Hne.
  - split; [discriminate|]. intros [Hn _]. discriminate Hn.
Qed.

Lemma truthy_headerMissing (header : option string) :
  truthy header = false <-> headerMissing header.
Proof.
  unfold headerMissing. destruct header as [h|]; cbn.
  - rewrite negb_false_iff. split.
    + intros Heq. apply String.eqb_eq in Heq. subst h. right. reflexivity.
    + intros [Hn|Hs]; [discriminate Hn|]. injection Hs as ->. reflexivity.
  - split; auto.
Qed.

Lemma verifySignature_eq (expected actual : string) :
  verifySignature expected actual = true <-> expected = actual.
Proof.
  unfold verifySignature. split.
  - destruct (String.length expected =? String.length actual)%nat; cbn;
      [apply String.eqb_eq|discriminate].
  - intros ->. rewrite Nat.eqb_refl. cbn. apply String.eqb_refl.
Qed.

(** X17.  Webhook verification.  Without a secret, or with an
    Authorization header that starts with "Bearer ", every request is
    handed on unverified.  Otherwise a request is handed on exactly when
    its X-Hub-Signature-256 header is "sha256=" followed by the HMAC of
    the body under the secret, or, that header being absent or empty, when
    its X-Gitlab-Token header is the secret; every other request is
    answered with status 401 (so a right GitLab token does not save a
    request with a wrong GitHub signature). *)
Theorem webhookVerificationMiddleware_verdict
  (hmacSha256Hex : string -> string -> string)
  (WEBHOOK_SECRET : option string) (req : WebhookRequest.t) :
  let verdict := webhookVerificationMiddleware hmacSha256Hex WEBHOOK_SECRET req in
  (headerMissing WEBHOOK_SECRET -> verdict = next)
  /\ (startsWithBearer (WebhookRequest.Authorization req) = true ->
      verdict = next)
  /\ (forall secret,
        headerIs WEBHOOK_SECRET secret ->
        startsWithBearer (WebhookRequest.Authorization req) = false ->
        (verdict = next <->
           headerIs (WebhookRequest.X_Hub_Signature_256 req)
             ("sha256=" +:+ hmacSha256Hex secret (WebhookRequest.text req))
           \/ (headerMissing (WebhookRequest.X_Hub_Signature_256 req)
               /\ headerIs (WebhookRequest.X_Gitlab_Token req) secret))
        /\ (verdict <> next -> exists message, verdict = json message 401)).
Proof.
  cbv zeta. unfold webhookVerificationMiddleware, computeSignature.
  split; [|split].
  - intros Hm. apply truthy_headerMissing in Hm. rewrite Hm. reflexivity.
  - intros Hb. destruct (truthy WEBHOOK_SECRET); cbn; [|reflexivity].
    rewrite Hb. reflexivity.
  - intros secret [Hs Hne] Hb. subst WEBHOOK_SECRET.
    assert (Ht : truthy (Some secret) = true).
    { apply truthy_headerIs. split; [reflexivity|exact Hne]. }
    rewrite Ht, Hb. cbn [negb].
    change (stringOf (Some secret)) with secret.
    destruct (truthy (WebhookRequest.X_Hub_Signature_256 req)) eqn:Eh.
    + apply truthy_headerIs in Eh. destruct Eh as [Eh Ehne].
      destruct (verifySignature _ _) eqn:Ev; cbn [negb].
      * apply verifySignature_eq in Ev. split.
        -- split; [intros _|reflexivity]. left. rewrite Ev.
           split; assumption.
        -- intros Hc. contradiction.
      * split.
        -- split; [discriminate|]. intros [[Hh _]|[Hm _]].
           ++ rewrite Hh in Ev. cbn in Ev.
              assert (Ht' : verifySignature
                        ("sha256=" +:+ hmacSha256Hex secret (WebhookRequest.text req))
                        ("sha256=" +:+ hmacSha256Hex secret (WebhookRequest.text req))
                      = true) by (apply verifySignature_eq; reflexivity).
              congruence.
           ++ destruct Hm as [Hm|Hm]; rewrite Hm in Eh, Ehne;
                [discriminate Eh|]. exfalso. apply Ehne. reflexivity.
        -- intros _. eexists. reflexivity.
    + apply truthy_headerMissing in Eh.
      destruct (truthy (WebhookRequest.X_Gitlab_Token req)) eqn:Eg.
      * apply truthy_headerIs in Eg. destruct Eg as [Eg Egne].
        destruct (verifySignature _ _) eqn:Ev; cbn [negb].
        -- apply verifySignature_eq in Ev. split.
           ++ split; [intros _|reflexivity]. right. split; [exact Eh|].
              rewrite Ev. split; assumption.
           ++ intros Hc. contradiction.
        -- split.
           ++ split; [discriminate|]. intros [[Hh Hhne]|[_ [Hg _]]].
              ** destruct Eh as [Eh|Eh]; rewrite Eh in Hh; [discriminate Hh|].
                 injection Hh as Hh. exfalso. apply Hhne. symmetry. exact Hh.
              ** rewrite Hg in Ev. cbn in Ev.
                 assert (Ht' : verifySignature secret secret = true)
                   by (apply verifySignature_eq; reflexivity).
                 congruence.
           ++ intros _. eexists. reflexivity.
      * apply truthy_headerMissing in Eg. split.
        -- split; [discriminate|]. intros [[Hh Hhne]|[_ [Hg Hgne]]].
           ++ destruct Eh as [Eh|Eh]; rewrite Eh in Hh; [discriminate Hh|].
              injection Hh as Hh. exfalso. apply Hhne. symmetry. exact Hh.
           ++ destruct Eg as [Eg|Eg]; rewrite Eg in Hg; [discriminate Hg|].
              injection Hg as Hg. exfalso. apply Hgne. symmetry. exact Hg.
        -- intros _. eexists. reflexivity.
Qed.

(** ** Logger *)

Lemma logLevelPriority_name (level : LogLevel) :
  logLevelPriority (LogLevel_name level) = Some (levelRank level).
Proof. destruct level; reflexivity. Qed.

Lemma logLevelPriority_Some (key : string) (n : nat) :
  logLevelPriority key = Some n ->
  exists level, key = LogLevel_name level /\ n = levelRank level.
Proof.
  unfold logLevelPriority. intros H.
  destruct (String.eqb key "debug") eqn:E0;
    [apply String.eqb_eq in E0; exists debug; split; [exact E0|injection H as <-; reflexivity]|].
  destruct (String.eqb key "info") eqn:E1;
    [apply String.eqb_eq in E1; exists info; split; [exact E1|injection H as <-; reflexivity]|].
  destruct (String.eqb key "warn") eqn:E2;
    [apply String.eqb_eq in E2; exists warn; split; [exact E2|injection H as <-; reflexivity]|].
  destruct (String.eqb key "error") eqn:E3;
    [apply String.eqb_eq in E3; exists error; split; [exact E3|injection H as <-; reflexivity]|].
  discriminate H.
Qed.

(** X18.  The logger.  When the current level is one of the four levels,
    a message is logged exactly when its level ranks at least as high, so
    errors are always logged, and what is logged goes to [console.error]
    for errors, [console.warn] for warnings and [console.log] otherwise.
    When [LOG_LEVEL] is set to anything else, nothing is logged at all,
    errors included.  Without [LOG_LEVEL], production logs from info up
    and every other environment logs everything. *)
Theorem shouldLog_threshold
  (formatLog : LogLevel -> string -> string) (level : LogLevel)
  (message : string) :
  (forall current,
     shouldLog (LogLevel_name current) level = true
       <-> (levelRank current <= levelRank level)%nat)
  /\ (forall current, shouldLog (LogLevel_name current) error = true)
  /\ (forall currentLevel,
        (forall l, currentLevel <> LogLevel_name l) ->
        log formatLog currentLevel level message = None)
  /\ (forall currentLevel,
        shouldLog currentLevel level = true ->
        log formatLog currentLevel level message
        = Some (match level with
                | error => console_error
                | warn => console_warn
                | _ => console_log
                end, formatLog level message))
  /\ (forall currentLevel,
        shouldLog currentLevel level = false ->
        log formatLog currentLevel level message = None)
  /\ (forall NODE_ENV,
        shouldLog (currentLevel None NODE_ENV) level = true
          <-> (NODE_ENV = Some "production" -> level <> debug)).
Proof.
  split; [|split; [|split; [|split; [|split]]]].
  - intros current. unfold shouldLog. rewrite !logLevelPriority_name.
    apply Nat.leb_le.
  - intros current. destruct current; reflexivity.
  - intros cur Hnot. unfold log, shouldLog.
    rewrite logLevelPriority_name.
    destruct (logLevelPriority cur) as [n|] eqn:E; [|reflexivity].
    apply logLevelPriority_Some in E. destruct E as (l & -> & _).
    exfalso. exact (Hnot l eq_refl).
  - intros cur Hs. unfold log. rewrite Hs. destruct level; reflexivity.
  - intros cur Hs. unfold log. rewrite Hs. reflexivity.
  - intros NODE_ENV. unfold currentLevel. cbn [truthy].
    destruct (bool_decide (NODE_ENV = Some "production")) eqn:E.
    + apply bool_decide_eq_true_1 in E.
      destruct level; cbn; split; try reflexivity; try discriminate;
        intros H; try (exfalso; exact (H E eq_refl)); try discriminate.
    + apply bool_decide_eq_false_1 in E.
      destruct level; cbn; split; try reflexivity; intros; try contradiction;
        reflexivity.
Qed.

(** ** The two queries of the skill stats *)

Lemma statsKeyed_lookup (d : Db) (u : string) (c : Category) (s : SkillStats.t) :
  statsKeyed d -> validCategory c ->
  skillStatsCollection d !! generateSkillStatsId u c = Some s ->
  SkillStats.accountId s = u /\ SkillStats.category s = c.
Proof.
  intros Hk Hc Hs. destruct (Hk _ _ Hs) as [Hid Hv].
  destruct (generateSkillStatsId_inj _ _ _ _ Hc Hv Hid) as [-> ->].
  split; reflexivity.
Qed.

Lemma updateSkillStats_statsKeyed (input : UpdateSkillStatsInput.t) (w : World) :
  statsKeyed (db w) -> validCategory (UpdateSkillStatsInput.category input) ->
  exists w', updateSkillStats input w = (Resolved tt, w') /\ statsKeyed (db w').
Proof.
  intros Hk Hc.
  destruct (statOf w (UpdateSkillStatsInput.accountId input)
                     (UpdateSkillStatsInput.category input)) as [s0|] eqn:E.
  - eexists. split; [apply (updateSkillStats_update _ _ _ E)|].
    intros id s Hs. cbn in Hs. apply lookup_insert_Some in Hs.
    destruct Hs as [[<- <-]|[_ Hs]]; [|exact (Hk _ _ Hs)].
    cbn [SkillStats.accountId SkillStats.category].
    exact (Hk _ _ E).
  - eexists. split; [apply (updateSkillStats_create _ _ E)|].
    intros id s Hs. cbn in Hs. apply lookup_insert_Some in Hs.
    destruct Hs as [[<- <-]|[_ Hs]]; [|exact (Hk _ _ Hs)].
    cbn [SkillStats.accountId SkillStats.category].
    split; [reflexivity|exact Hc].
Qed.

(** X21.  As long as every stat document lies under the id of its own
    account and category (of the schema), the two queries agree: the stats
    [getSkillStatsByUser] returns for a user are exactly those
    [getSkillStats] finds for that user under some category of the schema,
    and each is found under its own category.  An update for a category of
    the schema keeps the documents so. *)
Theorem getSkillStats_agrees_with_getSkillStatsByUser
  (w : World) (input : UpdateSkillStatsInput.t) :
  statsKeyed (db w) -> validCategory (UpdateSkillStatsInput.category input) ->
  (forall accountId,
     exists l,
       getSkillStatsByUser accountId w = (Resolved l, w)
       /\ forall s,
            In s l <->
            exists category,
              validCategory category
              /\ SkillStats.category s = category
              /\ getSkillStats accountId category w = (Resolved (Some s), w))
  /\ exists w',
       updateSkillStats input w = (Resolved tt, w') /\ statsKeyed (db w').
Proof.
  intros Hk Hc. split; [|apply updateSkillStats_statsKeyed; assumption].
  intros accountId. eexists. split; [reflexivity|].
  intros s. unfold getSkillStats, readDb. split.
  - intros Hin. apply filter_In in Hin. destruct Hin as [Hin Ha].
    apply bool_decide_eq_true_1 in Ha.
    apply in_map_iff in Hin. destruct Hin as ([id s'] & Hs' & Hin).
    cbn in Hs'. subst s'.
    apply list_elem_of_In, elem_of_map_to_list in Hin.
    destruct (Hk _ _ Hin) as [Hid Hv].
    exists (SkillStats.category s). split; [exact Hv|]. split; [reflexivity|].
    rewrite <- Ha, <- Hid, Hin. reflexivity.
  - intros (category & Hv & Hcat & Hget).
    injection Hget as Hget.
    destruct (statsKeyed_lookup _ _ _ _ Hk Hv Hget) as [Ha _].
    apply filter_In. split.
    + apply in_map_iff. exists (generateSkillStatsId accountId category, s).
      split; [reflexivity|].
      apply list_elem_of_In, elem_of_map_to_list. exact Hget.
    + apply bool_decide_eq_true_2. exact Ha.
Qed.

Lemma statsKeyed_statWorld : statsKeyed (db statWorld).
Proof.
  intros id s Hs. cbn in Hs. apply lookup_insert_Some in Hs.
  destruct Hs as [[<- <-]|[_ Hs]].
  - split; [reflexivity|]. cbn. auto.
  - rewrite lookup_empty in Hs. discriminate Hs.
Qed.

Lemma getSkillStats_agrees_with_getSkillStatsByUser_witness :
  (forall accountId,
     exists l,
       getSkillStatsByUser accountId statWorld = (Resolved l, statWorld)
       /\ forall s,
            In s l <->
            exists category,
              validCategory category
              /\ SkillStats.category s = category
              /\ getSkillStats accountId category statWorld
                 = (Resolved (Some s), statWorld))
  /\ exists w',
       updateSkillStats (UpdateSkillStatsInput.mk "alice" "logic" hard true)
         statWorld = (Resolved tt, w')
       /\ statsKeyed (db w').
Proof.
  apply (getSkillStats_agrees_with_getSkillStatsByUser statWorld
           (UpdateSkillStatsInput.mk "alice" "logic" hard true)).
  - exact statsKeyed_statWorld.
  - cbn. auto 10.
Defined.

(** ** Difficulty and correct rate *)

Lemma Qle_bool_false (a b : Q) : Qle_bool a b = false -> (b < a)%Q.
Proof.
  intros H. apply Qnot_le_lt. intros Hle.
  apply Qle_bool_iff in Hle. congruence.
Qed.

Lemma difficultyMap_steps (d : Difficulty) :
  (difficultyMap (decreaseDifficulty d) <= difficultyMap d)%Q
  /\ (difficultyMap d <= difficultyMap (increaseDifficulty d))%Q
  /\ (difficultyMap d - 1 <= difficultyMap (decreaseDifficulty d))%Q
  /\ (difficultyMap (increaseDifficulty d) <= difficultyMap d + 1)%Q.
Proof. destruct d; cbn; repeat split; lra. Qed.

(** X22.  For one profile and one number of attempts, a higher correct
    rate never selects a lower difficulty; and whatever the stat, the
    selected difficulty is at most one step away from the one selected
    without a stat. *)
Theorem selectOptimalDifficulty_monotone
  (profile : UserProfile.t) (s1 s2 : SkillStats.t) :
  SkillStats.totalQuizzes s1 = SkillStats.totalQuizzes s2 ->
  (SkillStats.correctRate s1 <= SkillStats.correctRate s2)%Q ->
  (difficultyMap (selectOptimalDifficulty (Some profile) (Some s1))
   <= difficultyMap (selectOptimalDifficulty (Some profile) (Some s2)))%Q
  /\ (difficultyMap (selectOptimalDifficulty (Some profile) None) - 1
      <= difficultyMap (selectOptimalDifficulty (Some profile) (Some s1)))%Q
  /\ (difficultyMap (selectOptimalDifficulty (Some profile) (Some s1))
      <= difficultyMap (selectOptimalDifficulty (Some profile) None) + 1)%Q.
Proof.
  intros Htotal Hrate. unfold selectOptimalDifficulty. cbv zeta.
  rewrite Htotal.
  generalize (if String.eqb (UserProfile.experienceLevel profile) "junior"
              then easy
              else if String.eqb (UserProfile.experienceLevel profile) "mid"
                   then medium
                   else if String.eqb (UserProfile.experienceLevel profile) "senior"
                        then hard else medium).
  intros base.
  destruct (difficultyMap_steps base) as (Hd & Hi & Hd1 & Hi1).
  destruct (5 <=? SkillStats.totalQuizzes s2)%N; [|repeat split; lra].
  destruct (Qle_bool 0.8 (SkillStats.correctRate s1)) eqn:E1;
    [apply Qle_bool_iff in E1|apply Qle_bool_false in E1];
    (destruct (Qle_bool 0.8 (SkillStats.correctRate s2)) eqn:E2;
     [apply Qle_bool_iff in E2|apply Qle_bool_false in E2]);
    (destruct (Qle_bool (SkillStats.correctRate s1) 0.4) eqn:E3;
     [apply Qle_bool_iff in E3|apply Qle_bool_false in E3]);
    (destruct (Qle_bool (SkillStats.correctRate s2) 0.4) eqn:E4;
     [apply Qle_bool_iff in E4|apply Qle_bool_false in E4]);
    repeat split; lra.
Qed.

Lemma selectOptimalDifficulty_monotone_witness :
  (difficultyMap (selectOptimalDifficulty (Some (exampleProfile "mid"))
                    (Some (exampleStat 5 2)))
   <= difficultyMap (selectOptimalDifficulty (Some (exampleProfile "mid"))
                       (Some (exampleStat 5 4))))%Q
  /\ (difficultyMap (selectOptimalDifficulty (Some (exampleProfile "mid")) None) - 1
      <= difficultyMap (selectOptimalDifficulty (Some (exampleProfile "mid"))
                          (Some (exampleStat 5 2))))%Q
  /\ (difficultyMap (selectOptimalDifficulty (Some (exampleProfile "mid"))
                       (Some (exampleStat 5 2)))
      <= difficultyMap (selectOptimalDifficulty (Some (exampleProfile "mid")) None) + 1)%Q.
Proof.
  apply (selectOptimalDifficulty_monotone (exampleProfile "mid")
           (exampleStat 5 2) (exampleStat 5 4)).
  - reflexivity.
  - vm_compute. discriminate.
Defined.

(** ** Rounding to binary64 *)

Lemma pow2_pos (z : Z) : (0 < 2 ^ z)%Q.
Proof. apply Qpower_0_lt. reflexivity. Qed.

Lemma binade_le (x : Q) : (0 < x)%Q -> (2 ^ binade x <= x)%Q.
Proof.
  intros Hx. unfold binade.
  set (k := (Z.log2 (Qnum x) - Z.log2 (Z.pos (Qden x)))%Z).
  destruct (Qle_bool (2 ^ k) x) eqn:E; [apply Qle_bool_iff; exact E|].
  destruct x as [n d]. cbn [Qnum Qden] in k.
  assert (Hn : (0 < n)%Z).
  { unfold Qlt in Hx. cbn in Hx. lia. }
  pose proof (Z.log2_spec n Hn) as [Hlo _].
  pose proof (Z.log2_spec (Z.pos d) (Pos2Z.is_pos d)) as [_ Hhi].
  pose proof (Z.log2_nonneg n) as Ha.
  pose proof (Z.log2_nonneg (Z.pos d)) as Hb.
  set (a := Z.log2 n) in *. set (b := Z.log2 (Z.pos d)) in *.
  assert (Hk : (k - 1 = a - (b + 1))%Z) by (unfold k; lia).
  rewrite Hk, Qpower_minus by discriminate.
  apply Qle_shift_div_r; [apply pow2_pos|].
  rewrite <- (Zpower_Qpower 2 a) by exact Ha.
  rewrite <- (Zpower_Qpower 2 (b + 1)) by lia.
  unfold Qle, Qmult, inject_Z. cbn [Qnum Qden].
  rewrite Z.mul_1_r, Pos.mul_1_r.
  replace (Z.succ b) with (b + 1)%Z in Hhi by lia.
  nia.
Qed.

Lemma roundHalfEven_near (m : Q) :
  (inject_Z (roundHalfEven m) - m <= 1 # 2)%Q
  /\ (m - inject_Z (roundHalfEven m) <= 1 # 2)%Q.
Proof.
  unfold roundHalfEven.
  pose proof (Qfloor_le m) as Hlo. pose proof (Qlt_floor m) as Hhi.
  rewrite inject_Z_plus in Hhi. change (inject_Z 1) with 1%Q in Hhi.
  destruct (Qlt_bool (m - inject_Z (Qfloor m)) (1 # 2)) eqn:E1.
  { apply Qlt_bool_iff in E1. split; lra. }
  destruct (Qlt_bool (1 # 2) (m - inject_Z (Qfloor m))) eqn:E2.
  { apply Qlt_bool_iff in E2. rewrite inject_Z_plus.
    change (inject_Z 1) with 1%Q. split; lra. }
  assert (H1 : ~ (m - inject_Z (Qfloor m) < 1 # 2)%Q)
    by (intros H; apply Qlt_bool_iff in H; congruence).
  assert (H2 : ~ (1 # 2 < m - inject_Z (Qfloor m))%Q)
    by (intros H; apply Qlt_bool_iff in H; congruence).
  apply Qnot_lt_le in H1, H2.
  destruct (Z.even (Qfloor m)).
  - split; lra.
  - rewrite inject_Z_plus. change (inject_Z 1) with 1%Q. split; lra.
Qed.

(** Rounding a number that is not negative moves it by at most 2^-53 of
    itself. *)
Lemma binary64_near (x : Q) :
  (0 <= x)%Q ->
  ((1 - epsilon53) * x <= binary64 x)%Q /\ (binary64 x <= (1 + epsilon53) * x)%Q.
Proof.
  intros Hx. unfold binary64.
  destruct (Qeq_bool x 0) eqn:E0.
  { apply Qeq_bool_iff in E0. rewrite E0. unfold epsilon53. split; lra. }
  assert (Hpos : (0 < x)%Q).
  { apply Qeq_bool_neq in E0. destruct (Qle_lt_or_eq _ _ Hx) as [H|H];
      [exact H|]. exfalso. apply E0. symmetry. exact H. }
  assert (Habs : (Qabs x == x)%Q) by (apply Qabs_pos; exact Hx).
  assert (Hsign : Qle_bool 0 x = true) by (apply Qle_bool_iff; exact Hx).
  rewrite Hsign.
  set (e := (binade (Qabs x) - 52)%Z).
  pose proof (pow2_pos e) as He.
  assert (Hb : (2 ^ binade (Qabs x) <= x)%Q).
  { rewrite <- Habs at 2. apply binade_le. rewrite Habs. exact Hpos. }
  assert (Hsplit : (2 ^ binade (Qabs x) == 2 ^ 52 * 2 ^ e)%Q).
  { unfold e. rewrite <- Qpower_plus by discriminate.
    replace (52 + (binade (Qabs x) - 52))%Z with (binade (Qabs x)) by lia.
    reflexivity. }
  rewrite Hsplit in Hb.
  destruct (roundHalfEven_near (Qabs x / 2 ^ e)) as [Hup Hdown].
  set (M := inject_Z (roundHalfEven (Qabs x / 2 ^ e))) in *.
  assert (Hm : (Qabs x / 2 ^ e * 2 ^ e == x)%Q).
  { rewrite Habs. field. intros H. rewrite H in He. exact (Qlt_irrefl _ He). }
  set (P := (2 ^ e)%Q) in *. set (m := (Qabs x / P)%Q) in *.
  assert (H1 : ((M - m) * P <= (1 # 2) * P)%Q)
    by (apply Qmult_le_compat_r; [exact Hup|lra]).
  assert (H2 : ((m - M) * P <= (1 # 2) * P)%Q)
    by (apply Qmult_le_compat_r; [exact Hdown|lra]).
  change ((2:Q) ^ 52)%Q with 4503599627370496%Q in Hb.
  unfold epsilon53. split; lra.
Qed.

(** One update of the running average: from an average [a] of [T] values
    with sum [S], known up to [B], to the average of [T + 1] values. *)
Lemma averageStep_bound (a T T1 S B d : Q) :
  (0 <= a)%Q -> (1 <= T)%Q -> (T1 == T + 1)%Q -> (1 <= d)%Q -> (d <= 3)%Q ->
  (T <= S)%Q -> (S <= 3 * T)%Q -> (0 <= B)%Q ->
  (S - B <= a * T)%Q -> (a * T <= S + B)%Q ->
  (0 <= Number_div (Number_add (Number_mul a T) d) T1)%Q
  /\ (S + d - ((1 + 4 * epsilon53) * B + 12 * epsilon53 * T1)
      <= Number_div (Number_add (Number_mul a T) d) T1 * T1)%Q
  /\ (Number_div (Number_add (Number_mul a T) d) T1 * T1
      <= S + d + ((1 + 4 * epsilon53) * B + 12 * epsilon53 * T1))%Q.
Proof.
  intros Ha HT HT1eq Hd1 Hd3 HS1 HS3 HB Hlo Hhi.
  unfold Number_div, Number_add, Number_mul.
  assert (HX : (0 <= a * T)%Q) by (apply Qmult_le_0_compat; lra).
  destruct (binary64_near (a * T) HX) as [Hp1 Hp2].
  set (p := binary64 (a * T)) in *.
  assert (Hp : (0 <= p + d)%Q) by (unfold epsilon53 in *; lra).
  destruct (binary64_near (p + d) Hp) as [Hs1 Hs2].
  set (s := binary64 (p + d)) in *.
  assert (Hs : (0 <= s)%Q) by (unfold epsilon53 in *; lra).
  assert (HT1 : (0 < T1)%Q) by lra.
  assert (Hq : (0 <= s / T1)%Q).
  { apply Qle_shift_div_l; [exact HT1|]. lra. }
  destruct (binary64_near (s / T1) Hq) as [Ha1 Ha2].
  set (a' := binary64 (s / T1)) in *.
  assert (Hmul : (s / T1 * T1 == s)%Q) by (field; lra).
  assert (H1 := Qmult_le_compat_r _ _ T1 Ha1 (Qlt_le_weak _ _ HT1)).
  assert (H2 := Qmult_le_compat_r _ _ T1 Ha2 (Qlt_le_weak _ _ HT1)).
  unfold epsilon53 in *.
  split; [lra|]. split; lra.
Qed.

(** One update gives the exact quotient [(a * t + d) / (t + 1)] up to
    three roundings. *)
Lemma averageStep_near (a T T1 d : Q) :
  (0 <= a)%Q -> (0 <= T)%Q -> (0 < T1)%Q -> (0 <= d)%Q ->
  ((1 - 4 * epsilon53) * ((a * T + d) / T1)
   <= Number_div (Number_add (Number_mul a T) d) T1)%Q
  /\ (Number_div (Number_add (Number_mul a T) d) T1
      <= (1 + 4 * epsilon53) * ((a * T + d) / T1))%Q.
Proof.
  intros Ha HT HT1 Hd.
  unfold Number_div, Number_add, Number_mul.
  assert (HX : (0 <= a * T)%Q) by (apply Qmult_le_0_compat; lra).
  destruct (binary64_near (a * T) HX) as [Hp1 Hp2].
  set (p := binary64 (a * T)) in *.
  assert (Hp : (0 <= p + d)%Q) by (unfold epsilon53 in *; lra).
  destruct (binary64_near (p + d) Hp) as [Hs1 Hs2].
  set (s := binary64 (p + d)) in *.
  assert (Hs : (0 <= s)%Q) by (unfold epsilon53 in *; lra).
  assert (Hq : (0 <= s / T1)%Q).
  { apply Qle_shift_div_l; [exact HT1|]. lra. }
  destruct (binary64_near (s / T1) Hq) as [Ha1 Ha2].
  set (a' := binary64 (s / T1)) in *.
  assert (Hmul : (s / T1 * T1 == s)%Q) by (field; lra).
  assert (Hmul' : ((a * T + d) / T1 * T1 == a * T + d)%Q) by (field; lra).
  assert (H1 := Qmult_le_compat_r _ _ T1 Ha1 (Qlt_le_weak _ _ HT1)).
  assert (H2 := Qmult_le_compat_r _ _ T1 Ha2 (Qlt_le_weak _ _ HT1)).
  split; apply (Qmult_le_r _ _ T1 HT1); unfold epsilon53 in *; lra.
Qed.

Lemma N2Q_succ (t : N) : (N2Q (t + 1) == N2Q t + 1)%Q.
Proof. unfold N2Q. rewrite N2Z.inj_add, inject_Z_plus. reflexivity. Qed.

(** After [t] values with sum [S], [a * t] is within [12 * 2^-53 * t^2] of
    [S]; so it stays after any further values. *)
Lemma averageFold_bound (ds : list Q) :
  forall (a : Q) (t : N) (S : Q),
    (1 <= t)%N -> (t + N.of_nat (length ds) <= 2 ^ 51)%N ->
    Forall (fun d => 1 <= d /\ d <= 3)%Q ds ->
    (0 <= a)%Q -> (N2Q t <= S)%Q -> (S <= 3 * N2Q t)%Q ->
    (S - 12 * epsilon53 * (N2Q t * N2Q t) <= a * N2Q t)%Q ->
    (a * N2Q t <= S + 12 * epsilon53 * (N2Q t * N2Q t))%Q ->
    (0 <= averageFold a t ds)%Q
    /\ (S + Qsum ds
        - 12 * epsilon53 * (N2Q (t + N.of_nat (length ds))
                            * N2Q (t + N.of_nat (length ds)))
        <= averageFold a t ds * N2Q (t + N.of_nat (length ds)))%Q
    /\ (averageFold a t ds * N2Q (t + N.of_nat (length ds))
        <= S + Qsum ds
           + 12 * epsilon53 * (N2Q (t + N.of_nat (length ds))
                               * N2Q (t + N.of_nat (length ds))))%Q.
Proof.
  induction ds as [|d rest IH]; intros a t S Ht Hmax Hds Ha HS1 HS3 Hlo Hhi.
  - cbn [length averageFold Qsum fold_right].
    replace (t + N.of_nat 0)%N with t by lia.
    split; [exact Ha|]. split; lra.
  - inversion Hds as [|? ? [Hd1 Hd3] Hrest]; subst.
    cbn [length] in Hmax |- *. cbn [averageFold].
    assert (HT : (1 <= N2Q t)%Q).
    { unfold N2Q. change 1%Q with (inject_Z 1). rewrite <- Zle_Qle. lia. }
    assert (HTmax : (N2Q t <= 2251799813685248)%Q).
    { unfold N2Q. change 2251799813685248%Q with (inject_Z 2251799813685248).
      rewrite <- Zle_Qle.
      assert (Hpow : (2 ^ 51 = 2251799813685248)%N) by reflexivity.
      lia. }
    assert (HTT : (4 * epsilon53 * (N2Q t * N2Q t) <= N2Q t)%Q).
    { assert (H : (4 * epsilon53 * N2Q t <= 1)%Q) by (unfold epsilon53; lra).
      assert (H' := Qmult_le_compat_r _ _ (N2Q t) H ltac:(lra)).
      lra. }
    assert (HB : (0 <= 12 * epsilon53 * (N2Q t * N2Q t))%Q).
    { assert (H := Qmult_le_0_compat (N2Q t) (N2Q t) ltac:(lra) ltac:(lra)).
      unfold epsilon53. lra. }
    destruct (averageStep_bound a (N2Q t) (N2Q (t + 1)) S
                (12 * epsilon53 * (N2Q t * N2Q t)) d
                Ha HT (N2Q_succ t) Hd1 Hd3 HS1 HS3 HB Hlo Hhi)
      as (Ha' & Hlo' & Hhi').
    pose proof (N2Q_succ t) as Hsucc.
    assert (Hsq : (N2Q (t + 1) * N2Q (t + 1)
                   == N2Q t * N2Q t + 2 * N2Q t + 1)%Q).
    { rewrite Hsucc. ring. }
    replace (t + N.of_nat (Datatypes.S (length rest)))%N
      with (t + 1 + N.of_nat (length rest))%N by lia.
    change (Qsum (d :: rest)) with (d + Qsum rest)%Q.
    destruct (IH (Number_div (Number_add (Number_mul a (N2Q t)) d) (N2Q (t + 1)))
                 (t + 1)%N (S + d)%Q) as (G1 & G2 & G3).
    + lia.
    + lia.
    + exact Hrest.
    + exact Ha'.
    + rewrite Hsucc. lra.
    + rewrite Hsucc. lra.
    + unfold epsilon53 in *. lra.
    + unfold epsilon53 in *. lra.
    + split; [exact G1|]. split; lra.
Qed.

Lemma difficultyMap_range (d : Difficulty) :
  (1 <= difficultyMap d)%Q /\ (difficultyMap d <= 3)%Q.
Proof. destruct d; cbn; split; lra. Qed.

(** The running average of a first difficulty and [rest] lies within
    [12 * 2^-53 * N] of the mean of the [N] difficulties. *)
Lemma averageFold_mean (d : Difficulty) (b : bool) (rest : list (Difficulty * bool)) :
  (N.of_nat (length ((d, b) :: rest)) <= 2 ^ 51)%N ->
  (arithmeticMean (difficultyValues ((d, b) :: rest))
   - 12 * epsilon53 * N2Q (N.of_nat (length ((d, b) :: rest)))
   <= averageFold (difficultyMap d) 1 (difficultyValues rest))%Q
  /\ (averageFold (difficultyMap d) 1 (difficultyValues rest)
      <= arithmeticMean (difficultyValues ((d, b) :: rest))
         + 12 * epsilon53 * N2Q (N.of_nat (length ((d, b) :: rest))))%Q.
Proof.
  intros Hmax. cbn [length] in Hmax.
  destruct (difficultyMap_range d) as [Hd1 Hd3].
  assert (Hlen : length (difficultyValues rest) = length rest)
    by (unfold difficultyValues; apply List.length_map).
  destruct (averageFold_bound (difficultyValues rest) (difficultyMap d) 1
              (difficultyMap d)) as (_ & Hlo & Hhi).
  - lia.
  - rewrite Hlen. lia.
  - unfold difficultyValues. apply Forall_forall. intros x Hx.
    apply list_elem_of_In, in_map_iff in Hx. destruct Hx as (o & <- & _).
    apply difficultyMap_range.
  - lra.
  - change (N2Q 1) with 1%Q. exact Hd1.
  - change (N2Q 1) with 1%Q. lra.
  - change (N2Q 1) with 1%Q. unfold epsilon53. lra.
  - change (N2Q 1) with 1%Q. unfold epsilon53. lra.
  - rewrite Hlen in Hlo, Hhi.
    unfold arithmeticMean. rewrite difficultyValues_cons.
    change (Qsum (difficultyMap d :: difficultyValues rest))
      with (difficultyMap d + Qsum (difficultyValues rest))%Q.
    cbn [length]. rewrite Hlen.
    replace (N.of_nat (Datatypes.S (length rest)))
      with (1 + N.of_nat (length rest))%N by lia.
    set (n := N2Q (1 + N.of_nat (length rest))) in *.
    assert (Hn : (0 < n)%Q).
    { unfold n, N2Q. change 0%Q with (inject_Z 0). rewrite <- Zlt_Qlt. lia. }
    set (total := (difficultyMap d + Qsum (difficultyValues rest))%Q) in *.
    assert (Hdiv : (total / n * n == total)%Q) by (field; lra).
    split; apply (Qmult_le_r _ _ n Hn); lra.
Qed.

(** ** Stats by their fields *)

Lemma hasStat_statOf (w : World) (u : string) (c : Category) (s : SkillStats.t) :
  statsKeyed (db w) -> hasStat (db w) u c s -> statOf w u c = Some s.
Proof.
  intros Hk ((id & Hid) & Hu & Hc). destruct (Hk _ _ Hid) as [-> _].
  unfold statOf. rewrite <- Hu, <- Hc. exact Hid.
Qed.

Lemma statOf_hasStat (w : World) (u : string) (c : Category) (s : SkillStats.t) :
  statsKeyed (db w) -> validCategory c -> statOf w u c = Some s ->
  hasStat (db w) u c s.
Proof.
  intros Hk Hc Hs. split; [eexists; exact Hs|].
  exact (statsKeyed_lookup _ _ _ _ Hk Hc Hs).
Qed.

Lemma statOf_onlyStat (w : World) (u : string) (c : Category) (s : SkillStats.t) :
  statsKeyed (db w) -> validCategory c -> statOf w u c = Some s ->
  onlyStat (db w) u c s.
Proof.
  intros Hk Hc Hs. split; [exact (statOf_hasStat _ _ _ _ Hk Hc Hs)|].
  intros s' Hs'. apply (hasStat_statOf _ _ _ _ Hk) in Hs'. congruence.
Qed.

Lemma statOf_noStat (w : World) (u : string) (c : Category) :
  statsKeyed (db w) -> statOf w u c = None -> noStat (db w) u c.
Proof.
  intros Hk Hnone s Hs. apply (hasStat_statOf _ _ _ _ Hk) in Hs. congruence.
Qed.

Lemma statsKeyed_empty (d : Db) : skillStatsCollection d = ∅ -> statsKeyed d.
Proof. intros He id s Hs. rewrite He, lookup_empty in Hs. discriminate Hs. Qed.

(** One call puts one document, with the fields of its pair, under the id
    of the pair. *)
Lemma updateSkillStats_insert (input : UpdateSkillStatsInput.t) (w : World) :
  statsKeyed (db w) -> schemaCall input ->
  exists w' s',
    updateSkillStats input w = (Resolved tt, w')
    /\ skillStatsCollection (db w') =
       <[generateSkillStatsId (UpdateSkillStatsInput.accountId input)
                              (UpdateSkillStatsInput.category input) := s']>
         (skillStatsCollection (db w))
    /\ SkillStats.accountId s' = UpdateSkillStatsInput.accountId input
    /\ SkillStats.category s' = UpdateSkillStatsInput.category input
    /\ statAfter (statOf w (UpdateSkillStatsInput.accountId input)
                           (UpdateSkillStatsInput.category input))
                 (UpdateSkillStatsInput.difficulty input)
                 (UpdateSkillStatsInput.isCorrect input) s'
    /\ statsKeyed (db w').
Proof.
  intros Hk Hc.
  destruct (updateSkillStats_statsKeyed input w Hk Hc) as (w2 & Hrun2 & Hk2).
  destruct (statOf w (UpdateSkillStatsInput.accountId input)
                     (UpdateSkillStatsInput.category input)) as [s|] eqn:E.
  - pose proof (updateSkillStats_update _ _ _ E) as Hrun.
    destruct (statsKeyed_lookup _ _ _ _ Hk Hc E) as [Hu Hcat].
    eexists _, _. split; [exact Hrun|]. split; [reflexivity|].
    split; [exact Hu|]. split; [exact Hcat|].
    split; [cbn; repeat split; reflexivity|].
    rewrite Hrun in Hrun2. injection Hrun2 as <-. exact Hk2.
  - pose proof (updateSkillStats_create _ _ E) as Hrun.
    eexists _, _. split; [exact Hrun|]. split; [reflexivity|].
    split; [reflexivity|]. split; [reflexivity|].
    split.
    { cbn. repeat split; try reflexivity.
      destruct (UpdateSkillStatsInput.isCorrect input); reflexivity. }
    rewrite Hrun in Hrun2. injection Hrun2 as <-. exact Hk2.
Qed.

(** The stats of the other pairs are the same documents before and after
    a call. *)
Lemma insert_hasStat_other (d d' : Db) (u : string) (c : Category)
  (s' : SkillStats.t) (u2 : string) (c2 : Category) (s : SkillStats.t) :
  statsKeyed d -> validCategory c ->
  skillStatsCollection d' =
    <[generateSkillStatsId u c := s']> (skillStatsCollection d) ->
  SkillStats.accountId s' = u -> SkillStats.category s' = c ->
  (u2, c2) <> (u, c) ->
  hasStat d' u2 c2 s <-> hasStat d u2 c2 s.
Proof.
  intros Hk Hc Hins Hu Hcat Hne. split.
  - intros ((id & Hid) & Hu2 & Hc2). rewrite Hins in Hid.
    apply lookup_insert_Some in Hid. destruct Hid as [[_ <-]|[_ Hid]].
    + exfalso. apply Hne. rewrite <- Hu2, <- Hc2, Hu, Hcat. reflexivity.
    + split; [eexists; exact Hid|]. split; assumption.
  - intros ((id & Hid) & Hu2 & Hc2).
    split; [|split; assumption].
    exists id. rewrite Hins. rewrite lookup_insert_ne; [exact Hid|].
    intros <-. destruct (statsKeyed_lookup _ _ _ _ Hk Hc Hid) as [Hu' Hc'].
    apply Hne. rewrite <- Hu2, <- Hc2, Hu', Hc'. reflexivity.
Qed.

Lemma outcomesOf_cons_same (i : UpdateSkillStatsInput.t)
  (calls : list UpdateSkillStatsInput.t) :
  outcomesOf (UpdateSkillStatsInput.accountId i) (UpdateSkillStatsInput.category i)
             (i :: calls)
  = (UpdateSkillStatsInput.difficulty i, UpdateSkillStatsInput.isCorrect i)
      :: outcomesOf (UpdateSkillStatsInput.accountId i)
                    (UpdateSkillStatsInput.category i) calls.
Proof.
  unfold outcomesOf. cbn [List.filter].
  rewrite bool_decide_eq_true_2 by (split; reflexivity). reflexivity.
Qed.

Lemma outcomesOf_cons_other (u : string) (c : Category)
  (i : UpdateSkillStatsInput.t) (calls : list UpdateSkillStatsInput.t) :
  (u, c) <> (UpdateSkillStatsInput.accountId i, UpdateSkillStatsInput.category i) ->
  outcomesOf u c (i :: calls) = outcomesOf u c calls.
Proof.
  intros Hne. unfold outcomesOf. cbn [List.filter].
  rewrite bool_decide_eq_false_2; [reflexivity|].
  intros [Hu Hc]. apply Hne. rewrite Hu, Hc. reflexivity.
Qed.

(** A run of calls, of any users and categories of the schema in any
    order, updates the stat of each pair once per call for that pair. *)
Lemma forEach_updateSkillStats_tracks (calls : list UpdateSkillStatsInput.t) :
  forall w,
    statsKeyed (db w) -> Forall schemaCall calls ->
    exists w',
      forEach updateSkillStats calls w = (Resolved tt, w')
      /\ statsKeyed (db w')
      /\ forall u c, validCategory c ->
           tracks (statOf w u c) (outcomesOf u c calls) (statOf w' u c).
Proof.
  induction calls as [|i rest IH]; intros w Hk Hcalls.
  - exists w. split; [reflexivity|]. split; [exact Hk|]. intros u c _. reflexivity.
  - inversion Hcalls as [|? ? Hi Hrest]; subst.
    destruct (updateSkillStats_insert i w Hk Hi)
      as (w1 & s1 & Hrun & Hins & Hu & Hcat & Hafter & Hk1).
    destruct (IH w1 Hk1 Hrest) as (w' & Hrun' & Hk' & Htr).
    exists w'. split.
    { cbn [forEach]. unfold mbind, Async_bind at 1. rewrite Hrun. exact Hrun'. }
    split; [exact Hk'|]. intros u c Hc.
    destruct (decide ((u, c) = (UpdateSkillStatsInput.accountId i,
                                UpdateSkillStatsInput.category i))) as [Heq|Hne].
    + injection Heq as -> ->. rewrite outcomesOf_cons_same. cbn [tracks].
      exists s1. split; [exact Hafter|].
      specialize (Htr (UpdateSkillStatsInput.accountId i)
                      (UpdateSkillStatsInput.category i) Hc).
      replace (statOf w1 (UpdateSkillStatsInput.accountId i)
                         (UpdateSkillStatsInput.category i)) with (Some s1) in Htr.
      * exact Htr.
      * unfold statOf. rewrite Hins, lookup_insert_eq. reflexivity.
    + rewrite (outcomesOf_cons_other _ _ _ _ Hne).
      specialize (Htr u c Hc).
      replace (statOf w1 u c) with (statOf w u c) in Htr; [exact Htr|].
      unfold statOf. rewrite Hins, lookup_insert_ne; [reflexivity|].
      intros Hid. apply generateSkillStatsId_inj in Hid; [|exact Hi|exact Hc].
      destruct Hid as [<- <-]. apply Hne. reflexivity.
Qed.

(** What updates of an existing stat add up to. *)
Lemma tracks_existing (outcomes : list (Difficulty * bool)) :
  forall (s : SkillStats.t) (final : option SkillStats.t),
    tracks (Some s) outcomes final ->
    exists s',
      final = Some s'
      /\ SkillStats.totalQuizzes s' =
           (SkillStats.totalQuizzes s + N.of_nat (length outcomes))%N
      /\ SkillStats.correctCount s' =
           (SkillStats.correctCount s + correctAnswers outcomes)%N
      /\ (outcomes <> [] ->
            (SkillStats.correctRate s' ==
               N2Q (SkillStats.correctCount s') / N2Q (SkillStats.totalQuizzes s'))%Q)
      /\ SkillStats.averageDifficulty s' =
           averageFold (SkillStats.averageDifficulty s) (SkillStats.totalQuizzes s)
                       (difficultyValues outcomes).
Proof.
  induction outcomes as [|[d b] rest IH]; intros s final Htr.
  - cbn in Htr. exists s. split; [exact Htr|].
    split; [cbn; lia|]. split; [unfold correctAnswers; cbn; lia|].
    split; [congruence|reflexivity].
  - cbn [tracks] in Htr. destruct Htr as (s1 & (Ht1 & Hc1 & Hr1 & Ha1) & Htr).
    destruct (IH s1 final Htr) as (s' & Hfin & Ht' & Hc' & Hr' & Ha').
    exists s'. split; [exact Hfin|].
    split; [rewrite Ht', Ht1; cbn [length]; lia|].
    split; [rewrite Hc', Hc1, correctAnswers_cons; lia|].
    split.
    { intros _. destruct rest as [|o rest'].
      - cbn in Htr. rewrite Hfin in Htr. injection Htr as ->. exact Hr1.
      - apply Hr'. discriminate. }
    rewrite Ha', Ha1, Ht1, difficultyValues_cons. reflexivity.
Qed.

(** What the updates of a pair without a stat add up to. *)
Lemma tracks_fresh (d : Difficulty) (b : bool) (rest : list (Difficulty * bool))
  (final : option SkillStats.t) :
  tracks None ((d, b) :: rest) final ->
  exists s',
    final = Some s'
    /\ SkillStats.totalQuizzes s' = N.of_nat (length ((d, b) :: rest))
    /\ SkillStats.correctCount s' = correctAnswers ((d, b) :: rest)
    /\ (SkillStats.correctRate s' ==
          N2Q (SkillStats.correctCount s') / N2Q (SkillStats.totalQuizzes s'))%Q
    /\ SkillStats.averageDifficulty s' =
         averageFold (difficultyMap d) 1 (difficultyValues rest).
Proof.
  cbn [tracks]. intros (s1 & (Ht1 & Hc1 & Hr1 & Ha1) & Htr).
  destruct (tracks_existing rest s1 final Htr) as (s' & Hfin & Ht' & Hc' & Hr' & Ha').
  exists s'. split; [exact Hfin|].
  split; [rewrite Ht', Ht1; cbn [length]; lia|].
  split; [rewrite Hc', Hc1, correctAnswers_cons; reflexivity|].
  split.
  { destruct rest as [|o rest'].
    - cbn in Htr. rewrite Hfin in Htr. injection Htr as ->.
      rewrite Hr1, Ht1. change (N2Q 1) with 1%Q. field.
    - apply Hr'. discriminate. }
  rewrite Ha', Ha1, Ht1. reflexivity.
Qed.

Lemma averageFold_nonneg (ds : list Q) :
  forall (a : Q) (t : N),
    (0 <= a)%Q -> Forall (fun d => 0 <= d)%Q ds -> (0 <= averageFold a t ds)%Q.
Proof.
  induction ds as [|d rest IH]; intros a t Ha Hds; [exact Ha|].
  inversion Hds as [|? ? Hd Hrest]; subst. cbn [averageFold].
  apply IH; [|exact Hrest].
  assert (HT : (0 <= N2Q t)%Q).
  { unfold N2Q. change 0%Q with (inject_Z 0). rewrite <- Zle_Qle. lia. }
  destruct (averageStep_near a (N2Q t) (N2Q (t + 1)) d Ha HT (N2Q_succ_pos t) Hd)
    as [Hlo _].
  assert (Hq : (0 <= (a * N2Q t + d) / N2Q (t + 1))%Q).
  { apply Qle_shift_div_l; [apply N2Q_succ_pos|].
    pose proof (Qmult_le_0_compat _ _ Ha HT). lra. }
  unfold epsilon53 in Hlo.
  assert (Hm := Qmult_le_0_compat (1 - 4 * (1 # 9007199254740992)) _ ltac:(lra) Hq).
  lra.
Qed.

(** A stat that updates have made has an average that is not negative. *)
Lemma tracks_nonneg (outcomes : list (Difficulty * bool)) (s : SkillStats.t) :
  tracks None outcomes (Some s) -> (0 <= SkillStats.averageDifficulty s)%Q.
Proof.
  destruct outcomes as [|[d b] rest]; [discriminate|].
  intros Htr. destruct (tracks_fresh d b rest _ Htr) as (s' & Hfin & _ & _ & _ & Ha).
  injection Hfin as <-. rewrite Ha.
  apply averageFold_nonneg.
  - destruct (difficultyMap_range d). lra.
  - unfold difficultyValues. apply Forall_forall. intros x Hx.
    apply list_elem_of_In, in_map_iff in Hx. destruct Hx as (o & <- & _).
    destruct (difficultyMap_range (fst o)). lra.
Qed.

(** C1, amended.  Start with no stat document and make calls of
    [updateSkillStats], of any users and categories of the schema in any
    order.  Every call resolves and leaves exactly one stat with the
    call's user and category.  If the pair had no stat, that stat has
    [totalQuizzes = 1], [correctCount] 1 or 0 as the answer is correct or
    not, [correctRate] equal to [correctCount] and [averageDifficulty]
    equal to the numeric difficulty (easy 1, medium 2, hard 3).  If the
    pair had a stat with totals (t, c) and average a, the stat has
    [totalQuizzes = t + 1], [correctCount = c + (1 or 0)],
    [correctRate = correctCount / totalQuizzes] and [averageDifficulty]
    the binary64 result of [(a * t + numeric difficulty) / (t + 1)], each
    of the three operations rounded, which lies within a relative
    4 * 2^-53 of the exact quotient.  The stats of all other pairs are the
    documents they were.  Hence after all calls a pair with N >= 1 calls
    has one stat, with [totalQuizzes = N], [correctCount] the number of
    its correct answers, and an [averageDifficulty] within 12 * N * 2^-53
    of the arithmetic mean of its N numeric difficulties for N <= 2^51,
    so within 1e-9 of it for N <= 750000; a pair without calls has no
    stat. *)
Theorem updateSkillStats_running_statistics :
  (difficultyMap easy = 1%Q /\ difficultyMap medium = 2%Q
   /\ difficultyMap hard = 3%Q)
  /\ (forall (w0 : World) (calls : list UpdateSkillStatsInput.t)
             (input : UpdateSkillStatsInput.t),
        skillStatsCollection (db w0) = ∅ ->
        Forall schemaCall calls -> schemaCall input ->
        exists w w' s',
          forEach updateSkillStats calls w0 = (Resolved tt, w)
          /\ updateSkillStats input w = (Resolved tt, w')
          /\ onlyStat (db w') (UpdateSkillStatsInput.accountId input)
                      (UpdateSkillStatsInput.category input) s'
          /\ (noStat (db w) (UpdateSkillStatsInput.accountId input)
                     (UpdateSkillStatsInput.category input) ->
              SkillStats.totalQuizzes s' = 1%N
              /\ SkillStats.correctCount s' =
                   (if UpdateSkillStatsInput.isCorrect input then 1%N else 0%N)
              /\ (SkillStats.correctRate s' == N2Q (SkillStats.correctCount s'))%Q
              /\ SkillStats.averageDifficulty s' =
                   difficultyMap (UpdateSkillStatsInput.difficulty input))
          /\ (forall s,
                hasStat (db w) (UpdateSkillStatsInput.accountId input)
                        (UpdateSkillStatsInput.category input) s ->
                SkillStats.totalQuizzes s' = (SkillStats.totalQuizzes s + 1)%N
                /\ SkillStats.correctCount s' =
                     (SkillStats.correctCount s
                      + (if UpdateSkillStatsInput.isCorrect input then 1 else 0))%N
                /\ (SkillStats.correctRate s' ==
                      N2Q (SkillStats.correctCount s')
                      / N2Q (SkillStats.totalQuizzes s'))%Q
                /\ SkillStats.averageDifficulty s' =
                     Number_div
                       (Number_add
                          (Number_mul (SkillStats.averageDifficulty s)
                                      (N2Q (SkillStats.totalQuizzes s)))
                          (difficultyMap (UpdateSkillStatsInput.difficulty input)))
                       (N2Q (SkillStats.totalQuizzes s + 1))
                /\ ((1 - 4 * epsilon53)
                    * ((SkillStats.averageDifficulty s
                        * N2Q (SkillStats.totalQuizzes s)
                        + difficultyMap (UpdateSkillStatsInput.difficulty input))
                       / N2Q (SkillStats.totalQuizzes s + 1))
                    <= SkillStats.averageDifficulty s')%Q
                /\ (SkillStats.averageDifficulty s'
                    <= (1 + 4 * epsilon53)
                       * ((SkillStats.averageDifficulty s
                           * N2Q (SkillStats.totalQuizzes s)
                           + difficultyMap (UpdateSkillStatsInput.difficulty input))
                          / N2Q (SkillStats.totalQuizzes s + 1)))%Q)
          /\ (forall u c s,
                (u, c) <> (UpdateSkillStatsInput.accountId input,
                           UpdateSkillStatsInput.category input) ->
                hasStat (db w') u c s <-> hasStat (db w) u c s))
  /\ (forall (w0 : World) (calls : list UpdateSkillStatsInput.t)
             (accountId : string) (category : Category),
        skillStatsCollection (db w0) = ∅ ->
        Forall schemaCall calls -> validCategory category ->
        exists w',
          forEach updateSkillStats calls w0 = (Resolved tt, w')
          /\ (outcomesOf accountId category calls = [] ->
              noStat (db w') accountId category)
          /\ (outcomesOf accountId category calls <> [] ->
              exists s',
                onlyStat (db w') accountId category s'
                /\ SkillStats.totalQuizzes s' =
                     N.of_nat (length (outcomesOf accountId category calls))
                /\ SkillStats.correctCount s' =
                     correctAnswers (outcomesOf accountId category calls)
                /\ (SkillStats.correctRate s' ==
                      N2Q (SkillStats.correctCount s')
                      / N2Q (SkillStats.totalQuizzes s'))%Q
                /\ ((SkillStats.totalQuizzes s' <= 2 ^ 51)%N ->
                    (arithmeticMean
                       (difficultyValues (outcomesOf accountId category calls))
                     - 12 * epsilon53 * N2Q (SkillStats.totalQuizzes s')
                     <= SkillStats.averageDifficulty s')%Q
                    /\ (SkillStats.averageDifficulty s'
                        <= arithmeticMean
                             (difficultyValues (outcomesOf accountId category calls))
                           + 12 * epsilon53 * N2Q (SkillStats.totalQuizzes s'))%Q)
                /\ ((SkillStats.totalQuizzes s' <= 750000)%N ->
                    (arithmeticMean
                       (difficultyValues (outcomesOf accountId category calls))
                     - (1 # 1000000000)
                     <= SkillStats.averageDifficulty s')%Q
                    /\ (SkillStats.averageDifficulty s'
                        <= arithmeticMean
                             (difficultyValues (outcomesOf accountId category calls))
                           + (1 # 1000000000))%Q))).
Proof.
  split; [repeat split|]. split.
  - intros w0 calls input Hempty Hcalls Hinput.
    destruct (forEach_updateSkillStats_tracks calls w0
                (statsKeyed_empty _ Hempty) Hcalls) as (w & Hrun & Hk & Htr).
    destruct (updateSkillStats_insert input w Hk Hinput)
      as (w' & s' & Hrun' & Hins & Hu & Hcat & Hafter & Hk').
    exists w, w', s'. split; [exact Hrun|]. split; [exact Hrun'|].
    split.
    { apply (statOf_onlyStat _ _ _ _ Hk' Hinput).
      unfold statOf. rewrite Hins. apply lookup_insert_eq. }
    split.
    { intros Hno.
      destruct (statOf w (UpdateSkillStatsInput.accountId input)
                         (UpdateSkillStatsInput.category input)) as [s|] eqn:E.
      - exfalso. exact (Hno s (statOf_hasStat _ _ _ _ Hk Hinput E)).
      - destruct Hafter as (Ht & Hc & Hr & Ha).
        split; [exact Ht|]. split; [|split; [exact Hr|exact Ha]].
        rewrite Hc. destruct (UpdateSkillStatsInput.isCorrect input); reflexivity. }
    split.
    { intros s Hs. pose proof (hasStat_statOf _ _ _ _ Hk Hs) as E.
      rewrite E in Hafter. destruct Hafter as (Ht & Hc & Hr & Ha).
      split; [exact Ht|]. split.
      { rewrite Hc. destruct (UpdateSkillStatsInput.isCorrect input); reflexivity. }
      split; [exact Hr|]. split; [exact Ha|].
      rewrite Ha. apply averageStep_near.
      - specialize (Htr (UpdateSkillStatsInput.accountId input)
                        (UpdateSkillStatsInput.category input) Hinput).
        rewrite E in Htr.
        replace (statOf w0 (UpdateSkillStatsInput.accountId input)
                           (UpdateSkillStatsInput.category input))
          with (@None SkillStats.t) in Htr
          by (unfold statOf; rewrite Hempty, lookup_empty; reflexivity).
        exact (tracks_nonneg _ _ Htr).
      - unfold N2Q. change 0%Q with (inject_Z 0). rewrite <- Zle_Qle. lia.
      - apply N2Q_succ_pos.
      - destruct (difficultyMap_range (UpdateSkillStatsInput.difficulty input)). lra. }
    intros u c s Hne.
    exact (insert_hasStat_other _ _ _ _ _ _ _ _ Hk Hinput Hins Hu Hcat Hne).
  - intros w0 calls accountId category Hempty Hcalls Hc.
    destruct (forEach_updateSkillStats_tracks calls w0
                (statsKeyed_empty _ Hempty) Hcalls) as (w' & Hrun & Hk & Htr).
    specialize (Htr accountId category Hc).
    replace (statOf w0 accountId category) with (@None SkillStats.t) in Htr
      by (unfold statOf; rewrite Hempty, lookup_empty; reflexivity).
    exists w'. split; [exact Hrun|]. split.
    { intros Hnil. rewrite Hnil in Htr. cbn in Htr.
      apply (statOf_noStat _ _ _ Hk). exact Htr. }
    intros Hne.
    destruct (outcomesOf accountId category calls) as [|[d b] rest] eqn:Eo;
      [congruence|].
    destruct (tracks_fresh d b rest _ Htr) as (s' & Hfin & Ht & Hcc & Hr & Ha).
    exists s'. split; [exact (statOf_onlyStat _ _ _ _ Hk Hc Hfin)|].
    split; [exact Ht|]. split; [exact Hcc|]. split; [exact Hr|].
    assert (Hmean : (SkillStats.totalQuizzes s' <= 2 ^ 51)%N ->
              (arithmeticMean (difficultyValues ((d, b) :: rest))
               - 12 * epsilon53 * N2Q (SkillStats.totalQuizzes s')
               <= SkillStats.averageDifficulty s')%Q
              /\ (SkillStats.averageDifficulty s'
                  <= arithmeticMean (difficultyValues ((d, b) :: rest))
                     + 12 * epsilon53 * N2Q (SkillStats.totalQuizzes s'))%Q).
    { intros Hmax. rewrite Ht in Hmax |- *. rewrite Ha.
      exact (averageFold_mean d b rest Hmax). }
    split; [exact Hmean|].
    intros Hmax.
    destruct Hmean as [Hlo Hhi].
    { assert (Hpow : (2 ^ 51 = 2251799813685248)%N) by reflexivity. lia. }
    assert (Hn : (N2Q (SkillStats.totalQuizzes s') <= 750000)%Q).
    { unfold N2Q. change 750000%Q with (inject_Z 750000).
      rewrite <- Zle_Qle. lia. }
    unfold epsilon53 in Hlo, Hhi. split; lra.
Qed.

(** Three calls of one user that alternate between two categories: the
    security stat counts the two security answers (easy, hard). *)
Lemma updateSkillStats_running_statistics_witness :
  skillStatsCollection (db (exampleWorld emptyDb)) = ∅
  /\ Forall schemaCall mixedCalls
  /\ validCategory "security"
  /\ outcomesOf "alice" "security" mixedCalls = [(easy, true); (hard, true)]
  /\ exists w' s',
       forEach updateSkillStats mixedCalls (exampleWorld emptyDb) = (Resolved tt, w')
       /\ onlyStat (db w') "alice" "security" s'
       /\ SkillStats.totalQuizzes s' = 2%N
       /\ SkillStats.correctCount s' = 2%N
       /\ (2 - (1 # 1000000000) <= SkillStats.averageDifficulty s')%Q
       /\ (SkillStats.averageDifficulty s' <= 2 + (1 # 1000000000))%Q.
Proof.
  assert (Hempty : skillStatsCollection (db (exampleWorld emptyDb)) = ∅)
    by reflexivity.
  assert (Hcalls : Forall schemaCall mixedCalls).
  { unfold mixedCalls.
    constructor; [|constructor; [|constructor; [|constructor]]];
      unfold schemaCall, validCategory, allCategories; cbn; auto 6. }
  assert (Hc : validCategory "security")
    by (unfold validCategory, allCategories; cbn; auto 6).
  assert (Ho : outcomesOf "alice" "security" mixedCalls = [(easy, true); (hard, true)])
    by reflexivity.
  split; [exact Hempty|]. split; [exact Hcalls|]. split; [exact Hc|].
  split; [exact Ho|].
  destruct updateSkillStats_running_statistics as (_ & _ & Hseq).
  destruct (Hseq (exampleWorld emptyDb) mixedCalls "alice" "security"
              Hempty Hcalls Hc) as (w' & Hrun & _ & Hsome).
  assert (Hne : outcomesOf "alice" "security" mixedCalls <> [])
    by (rewrite Ho; discriminate).
  destruct (Hsome Hne) as (s' & Honly & Ht & Hcc & _ & _ & Hnear).
  rewrite Ho in Ht, Hcc, Hnear. cbn [length] in Ht.
  exists w', s'. split; [exact Hrun|]. split; [exact Honly|].
  split; [exact Ht|]. split; [exact Hcc|].
  destruct Hnear as [Hlo Hhi]; [rewrite Ht; lia|].
  assert (Hm : (arithmeticMean (difficultyValues [(easy, true); (hard, true)])
                == 2)%Q) by reflexivity.
  rewrite Hm in Hlo, Hhi. split; [exact Hlo|exact Hhi].
Defined.

(** Twelve answers of one user in one category whose difficulties have
    the mean 2.25: the stored average is 2.25 + 2^-51. *)
Lemma updateSkillStats_average_drifts :
  skillStatsCollection (db (exampleWorld emptyDb)) = ∅
  /\ exists w' s',
       forEach updateSkillStats
         (map (fun o => UpdateSkillStatsInput.mk "alice" "security" (fst o) (snd o))
              twelveAnswers)
         (exampleWorld emptyDb) = (Resolved tt, w')
       /\ onlyStat (db w') "alice" "security" s'
       /\ SkillStats.totalQuizzes s' = 12%N
       /\ (arithmeticMean (difficultyValues twelveAnswers) == 9 # 4)%Q
       /\ (SkillStats.averageDifficulty s' == (9 # 4) + (1 # 2251799813685248))%Q
       /\ ~ (SkillStats.averageDifficulty s'
             == arithmeticMean (difficultyValues twelveAnswers))%Q.
Proof.
  split; [reflexivity|].
  assert (Hc : validCategory "security")
    by (unfold validCategory, allCategories; cbn; auto 6).
  destruct (forEach_updateSkillStats_tracks
              (map (fun o => UpdateSkillStatsInput.mk "alice" "security" (fst o) (snd o))
                   twelveAnswers)
              (exampleWorld emptyDb)
              (statsKeyed_empty (db (exampleWorld emptyDb)) eq_refl))
    as (w' & Hrun & Hk & _).
  { apply Forall_forall. intros i Hi.
    apply list_elem_of_In, in_map_iff in Hi. destruct Hi as (o & <- & _).
    exact Hc. }
  pose proof Hrun as Hval. vm_compute in Hval. injection Hval as Hw.
  destruct (statOf w' "alice" "security") as [s'|] eqn:Hs;
    rewrite <- Hw in Hs; vm_compute in Hs; [|discriminate Hs].
  injection Hs as Hs'.
  exists w', s'. split; [exact Hrun|].
  split.
  { apply (statOf_onlyStat _ _ _ _ Hk Hc).
    rewrite <- Hw, <- Hs'. vm_compute. reflexivity. }
  rewrite <- Hs'.
  split; [reflexivity|]. split; [vm_compute; reflexivity|].
  split; [vm_compute; reflexivity|].
  vm_compute. discriminate.
Qed.

(** ** The team aggregation *)

(** A stored plain object passes no range filter whose bound is a
    timestamp. *)
Lemma answersQuery_nil (bounds : Timestamp * Timestamp) (category : option string)
  (d : Db) :
  answersQuery bounds category d = [].
Proof.
  unfold answersQuery. induction (answersCollection d) as [|a l IH];
    [reflexivity|].
  cbn [List.filter]. exact IH.
Qed.

Lemma calculateAndSaveTeamAnalytics_run period experienceLevel category w bounds :
  monthBounds w period = Some bounds ->
  calculateAndSaveTeamAnalytics period experienceLevel category w =
  (Resolved (emptyAggregate period experienceLevel category (clock w (tick w))),
   withDb (advance w)
     (withTeamAnalytics (db w)
        (<[analyticsIdOf period experienceLevel category :=
             emptyAggregate period experienceLevel category (clock w (tick w))]>
           (teamAnalyticsCollection (db w))))).
Proof.
  intros Hb.
  unfold calculateAndSaveTeamAnalytics, emptyAggregate, analyticsIdOf.
  unfold mbind, Async_bind at 1. unfold orThrow. rewrite Hb.
  unfold Async_bind, readDb, Timestamp_now, writeDb, mret, Async_ret.
  rewrite answersQuery_nil.
  destruct (truthy experienceLevel); reflexivity.
Qed.




Lemma getTeamAnalytics_run period experienceLevel category w :
  getTeamAnalytics (TeamAnalyticsQuery.mk period experienceLevel category) w =
  (Resolved (teamAnalyticsCollection (db w)
               !! analyticsIdOf period experienceLevel category), w).
Proof. reflexivity. Qed.

Lemma getPercentile_nearestRank (arr : list Q) (P : Q) :
  arr <> [] -> getPercentile arr P = nearestRank arr P.
Proof.
  intros Hne. unfold getPercentile, nearestRank.
  destruct arr as [|x arr]; [congruence|]. reflexivity.
Qed.

(** C6, where the code departs from the claim.  The percentile helper is
    the nearest rank the claim states.  But the query for the answers of
    the period compares the stored [answeredAt], which [createAnswer]
    writes as a plain object, with bounds that are [Timestamp]s, and a
    range filter matches values of the type of its bound only: the query
    fetches no answer.  So every run that resolves writes the aggregate of
    an empty cohort, whatever answers are stored.  For November 2023 and
    twenty stored answers of four users, all given within the month, with
    the correct rates 0.2, 0.4, 0.6 and 0.8, the claim gives
    [percentile50 = 0.6], [percentile90 = 0.8] and the average 0.5; the
    run gives 0 for each, no active user and [totalQuizzes = 0]. *)
Theorem calculateAndSaveTeamAnalytics_fetches_no_answer :
  (forall (sortedRates : list Q) (P : Q),
      sortedRates <> [] -> getPercentile sortedRates P = nearestRank sortedRates P)
  /\ (forall period experienceLevel category w bounds,
        monthBounds w period = Some bounds ->
        exists w',
          calculateAndSaveTeamAnalytics period experienceLevel category w
          = (Resolved (emptyAggregate period experienceLevel category
                         (clock w (tick w))), w')
          /\ getTeamAnalytics
               (TeamAnalyticsQuery.mk period experienceLevel category) w'
             = (Resolved (Some (emptyAggregate period experienceLevel category
                                  (clock w (tick w)))), w'))
  /\ (exists bounds r w',
        monthBounds teamWorld "2023-11" = Some bounds
        /\ bounds = (mkTimestamp 1698796800 0, mkTimestamp 1701388799 0)
        /\ answersWithin bounds None (answersCollection (db teamWorld))
           = answersCollection (db teamWorld)
        /\ length (answersCollection (db teamWorld)) = 20%nat
        /\ map (userRate (answersWithin bounds None
                            (answersCollection (db teamWorld))))
               ["alice"; "bob"; "carol"; "dave"]
           = [1 # 5; 2 # 5; 3 # 5; 4 # 5]
        /\ nearestRank [1 # 5; 2 # 5; 3 # 5; 4 # 5] 0.5 = 3 # 5
        /\ nearestRank [1 # 5; 2 # 5; 3 # 5; 4 # 5] 0.9 = 4 # 5
        /\ (arithmeticMean [1 # 5; 2 # 5; 3 # 5; 4 # 5] == 1 # 2)%Q
        /\ calculateAndSaveTeamAnalytics "2023-11" None None teamWorld
           = (Resolved r, w')
        /\ TeamAnalytics.percentile50 r = 0%Q
        /\ TeamAnalytics.percentile90 r = 0%Q
        /\ TeamAnalytics.avgCorrectRate r = 0%Q
        /\ TeamAnalytics.activeUsers r = 0%N
        /\ TeamAnalytics.totalQuizzes r = 0%N).
Proof.
  split; [exact getPercentile_nearestRank|]. split.
  - intros period experienceLevel category w bounds Hb.
    eexists. split; [exact (calculateAndSaveTeamAnalytics_run _ _ _ _ _ Hb)|].
    rewrite getTeamAnalytics_run.
    cbn [db withDb withTeamAnalytics teamAnalyticsCollection].
    rewrite lookup_insert_eq. reflexivity.
  - assert (Hb : monthBounds teamWorld "2023-11"
                 = Some (mkTimestamp 1698796800 0, mkTimestamp 1701388799 0))
      by (vm_compute; reflexivity).
    eexists _, _, _. split; [exact Hb|]. split; [reflexivity|].
    split; [vm_compute; reflexivity|]. split; [reflexivity|].
    split; [vm_compute; reflexivity|].
    split; [vm_compute; reflexivity|]. split; [vm_compute; reflexivity|].
    split; [vm_compute; reflexivity|].
    split; [exact (calculateAndSaveTeamAnalytics_run _ _ _ _ _ Hb)|].
    repeat split; reflexivity.
Qed.




(** ** The period of an aggregation *)


(** ** Keys of the team analytics *)

(** X16.  Within the schema the keys of the team analytics do not
    collide: for a period of the pattern YYYY-MM and a level and a
    category of the schema or none, an aggregation that resolves writes
    the record it returns under its own key, where [getTeamAnalytics]
    finds it, and [getTeamAnalytics] of any other such key returns what
    it returned before.  Outside the schema, which the routes do not
    enforce for level and category, keys do collide: the record of an
    aggregation for the category "mid" and no level is what
    [getTeamAnalytics] returns for the level "mid" and no category. *)
Theorem calculateAndSaveTeamAnalytics_key_separation
  (w : World) (p1 p2 : string) (l1 c1 l2 c2 : option string)
  (bounds : Timestamp * Timestamp) :
  validAnalyticsKey p1 l1 c1 -> validAnalyticsKey p2 l2 c2 ->
  monthBounds w p1 = Some bounds ->
  (exists r w',
      calculateAndSaveTeamAnalytics p1 l1 c1 w = (Resolved r, w')
      /\ fst (getTeamAnalytics (TeamAnalyticsQuery.mk p1 l1 c1) w')
         = Resolved (Some r)
      /\ ((p1, l1, c1) <> (p2, l2, c2) ->
          fst (getTeamAnalytics (TeamAnalyticsQuery.mk p2 l2 c2) w')
          = fst (getTeamAnalytics (TeamAnalyticsQuery.mk p2 l2 c2) w)))
  /\ (exists r w',
        calculateAndSaveTeamAnalytics p1 None (Some "mid") w = (Resolved r, w')
        /\ fst (getTeamAnalytics (TeamAnalyticsQuery.mk p1 (Some "mid") None) w')
           = Resolved (Some r)).
Proof.
  intros Hv1 Hv2 Hb. split.
  - eexists _, _.
    split; [exact (calculateAndSaveTeamAnalytics_run _ _ _ _ _ Hb)|].
    rewrite !getTeamAnalytics_run. cbn [fst db withDb withTeamAnalytics
                                        teamAnalyticsCollection].
    split.
    + rewrite lookup_insert_eq. reflexivity.
    + intros Hne. rewrite lookup_insert_ne; [reflexivity|].
      intros Heq. apply Hne.
      destruct (analyticsIdOf_inj p1 l1 c1 p2 l2 c2 Hv1 Hv2 Heq) as (-> & -> & ->).
      reflexivity.
  - eexists _, _.
    split; [exact (calculateAndSaveTeamAnalytics_run _ _ _ _ _ Hb)|].
    rewrite getTeamAnalytics_run. cbn [fst db withDb withTeamAnalytics
                                       teamAnalyticsCollection].
    change (analyticsIdOf p1 (Some "mid") None)
      with (analyticsIdOf p1 None (Some "mid")).
    rewrite lookup_insert_eq. reflexivity.
Qed.

(** January 2024 for the level mid, and then the category security. *)
Lemma calculateAndSaveTeamAnalytics_key_separation_witness :
  validAnalyticsKey "2024-01" (Some "mid") None
  /\ validAnalyticsKey "2024-01" None (Some "security")
  /\ monthBounds teamWorld "2024-01"
     = Some (mkTimestamp 1704067200 0, mkTimestamp 1706745599 0)
  /\ exists r w',
       calculateAndSaveTeamAnalytics "2024-01" (Some "mid") None teamWorld
         = (Resolved r, w')
       /\ fst (getTeamAnalytics
                 (TeamAnalyticsQuery.mk "2024-01" (Some "mid") None) w')
          = Resolved (Some r)
       /\ fst (getTeamAnalytics
                 (TeamAnalyticsQuery.mk "2024-01" None (Some "security")) w')
          = fst (getTeamAnalytics
                   (TeamAnalyticsQuery.mk "2024-01" None (Some "security"))
                   teamWorld).
Proof.
  assert (Hv1 : validAnalyticsKey "2024-01" (Some "mid") None)
    by (split; [reflexivity|]; split; [cbn; auto|exact I]).
  assert (Hv2 : validAnalyticsKey "2024-01" None (Some "security"))
    by (split; [reflexivity|]; split; [exact I|cbn; auto 6]).
  assert (Hb : monthBounds teamWorld "2024-01"
               = Some (mkTimestamp 1704067200 0, mkTimestamp 1706745599 0))
    by (vm_compute; reflexivity).
  split; [exact Hv1|]. split; [exact Hv2|]. split; [exact Hb|].
  destruct (calculateAndSaveTeamAnalytics_key_separation teamWorld
              "2024-01" "2024-01" (Some "mid") None None (Some "security")
              _ Hv1 Hv2 Hb) as [(r & w' & Hrun & Hget & Hother) _].
  exists r, w'. split; [exact Hrun|]. split; [exact Hget|].
  apply Hother. discriminate.
Defined.

(** ** The queries *)

Lemma orderedBefore_true (t1 t2 : Timestamp) (id1 id2 : string) :
  orderedBefore (plainObject t1, id1) (plainObject t2, id2) = true ->
  storedBefore (t1, id1) (t2, id2).
Proof.
  unfold orderedBefore, storedBefore, plainObject, Firestore_compare.
  cbn [fst snd compareFields].
  change (String.compare "nanoseconds" "nanoseconds") with Eq.
  change (String.compare "seconds" "seconds") with Eq. cbv iota.
  destruct (Z.compare_spec (nanoseconds t1) (nanoseconds t2)) as [En|Hn|Hn].
  - destruct (Z.compare_spec (seconds t1) (seconds t2)) as [Es|Hs|Hs].
    + intros H. right. split; [exact En|]. right. split; [exact Es|].
      destruct (String.compare id1 id2); [discriminate|discriminate H|discriminate].
    + discriminate.
    + intros _. right. split; [exact En|]. left. exact Hs.
  - discriminate.
  - intros _. left. exact Hn.
Qed.

Lemma orderedBefore_false (t1 t2 : Timestamp) (id1 id2 : string) :
  orderedBefore (plainObject t1, id1) (plainObject t2, id2) = false ->
  storedBefore (t2, id2) (t1, id1).
Proof.
  unfold orderedBefore, storedBefore, plainObject, Firestore_compare.
  cbn [fst snd compareFields].
  change (String.compare "nanoseconds" "nanoseconds") with Eq.
  change (String.compare "seconds" "seconds") with Eq. cbv iota.
  destruct (Z.compare_spec (nanoseconds t1) (nanoseconds t2)) as [En|Hn|Hn].
  - destruct (Z.compare_spec (seconds t1) (seconds t2)) as [Es|Hs|Hs].
    + intros H. right. split; [symmetry; exact En|]. right.
      split; [symmetry; exact Es|].
      rewrite String.compare_antisym.
      destruct (String.compare id1 id2); [discriminate H|discriminate|discriminate H].
    + intros _. right. split; [symmetry; exact En|]. left. exact Hs.
    + discriminate.
  - intros _. left. exact Hn.
  - discriminate.
Qed.

Lemma orderByDesc_storedDescending {A} (at_ : A -> Timestamp) (id : A -> string)
  (l : list A) :
  storedDescending (fun a => (at_ a, id a))
    (orderByDesc (fun a => (plainObject (at_ a), id a)) l).
Proof.
  apply sortBy_sorted.
  - intros x y H. apply orderedBefore_true. exact H.
  - intros x y H. apply orderedBefore_false. exact H.
Qed.

(** X19.  [getAnswersByUser] only reads: it resolves in the world it
    started in, with exactly the stored answers of the user (each as often
    as it is stored), in the order Firestore gives the plain objects
    [createAnswer] stores as [answeredAt], descending: by the nanoseconds
    first, then by the seconds, then by the id.  This is not the order of
    time: of two answers of alice, one at second 1,700,000,000 and 900 ms
    and one 500 seconds later at 100 ms, the earlier is listed first. *)
Theorem getAnswersByUser_stored_order :
  (forall (accountId : string) (w : World),
      exists l,
        getAnswersByUser accountId w = (Resolved l, w)
        /\ Permutation l (answersOf accountId (answersCollection (db w)))
        /\ storedDescending (fun a => (Answer.answeredAt a, Answer.answerId a)) l)
  /\ getAnswersByUser "alice" twoAnswersWorld
     = (Resolved [earlierAnswer; laterAnswer], twoAnswersWorld)
  /\ (seconds (Answer.answeredAt earlierAnswer)
      < seconds (Answer.answeredAt laterAnswer))%Z.
Proof.
  split.
  - intros accountId w. eexists. split; [reflexivity|]. split.
    + apply sortBy_perm.
    + apply (orderByDesc_storedDescending Answer.answeredAt Answer.answerId).
  - split; [vm_compute; reflexivity|reflexivity].
Qed.

(** X20.  A created milestone carries the input's account, type, category,
    achievement and metadata, the next identifier and the current time;
    afterwards [getGrowthMilestonesByUser] lists the milestone together
    with the user's earlier ones for the user of the input, and for every
    other user what it listed before.  The list is in the order Firestore
    gives the plain objects stored as [achievedAt], descending: by the
    nanoseconds, then by the seconds, then by the id. *)
Theorem createGrowthMilestone_listed
  (input : CreateGrowthMilestoneInput.t) (w : World) :
  exists m w',
    createGrowthMilestone input w = (Resolved m, w')
    /\ GrowthMilestone.accountId m = CreateGrowthMilestoneInput.accountId input
    /\ GrowthMilestone.type m = CreateGrowthMilestoneInput.type input
    /\ GrowthMilestone.category m = CreateGrowthMilestoneInput.category input
    /\ GrowthMilestone.achievement m = CreateGrowthMilestoneInput.achievement input
    /\ GrowthMilestone.metadata m = CreateGrowthMilestoneInput.metadata input
    /\ GrowthMilestone.milestoneId m = uuids w (tick w)
    /\ GrowthMilestone.achievedAt m = clock w (S (tick w))
    /\ forall accountId,
         exists l l',
           getGrowthMilestonesByUser accountId w = (Resolved l, w)
           /\ getGrowthMilestonesByUser accountId w' = (Resolved l', w')
           /\ storedDescending
                (fun x => (GrowthMilestone.achievedAt x, GrowthMilestone.milestoneId x))
                l'
           /\ Permutation l (milestonesOfUser accountId
                               (growthMilestonesCollection (db w)))
           /\ (accountId = CreateGrowthMilestoneInput.accountId input ->
               Permutation l' (m :: l))
           /\ (accountId <> CreateGrowthMilestoneInput.accountId input ->
               l' = l).
Proof.
  eexists _, _. split.
  { unfold createGrowthMilestone, mbind, Async_bind, uuidv4, Timestamp_now,
      writeDb, mret, Async_ret. reflexivity. }
  repeat (split; [reflexivity|]).
  intros accountId. eexists _, _.
  split; [reflexivity|]. split; [reflexivity|].
  split.
  { apply (orderByDesc_storedDescending GrowthMilestone.achievedAt
             GrowthMilestone.milestoneId). }
  split; [apply sortBy_perm|].
  cbn [db withDb advance growthMilestonesCollection withGrowthMilestones].
  rewrite List.filter_app. cbn [List.filter GrowthMilestone.accountId].
  split.
  - intros ->. rewrite bool_decide_eq_true_2 by reflexivity.
    unfold orderByDesc.
    rewrite sortBy_perm, (sortBy_perm _ (List.filter _ _)).
    rewrite Permutation_app_comm. reflexivity.
  - intros Hne. rewrite bool_decide_eq_false_2 by congruence.
    rewrite app_nil_r. reflexivity.
Qed.
